(** * data_platform_challenge: the event validator and the Hive DDL generator

    A shallow embedding of [desafios/exercicio1/event_validator.py] and
    [desafios/exercicio2/json_schema_to_hive.py].

    Python values are the values [json.load] produces (numbers are
    integers; a mapping has text keys and keeps its insertion order).
    A method runs in a small effect: the records it sends to its logger, in
    order, and either the value it returns or the exception it raises.
    [Schema.get_col_data] writes into the mapping it is handed, so it runs
    over a store of objects addressed by references. The two [handler]s
    run over what the file system and AWS answer, and leave the requests
    they make beside the records. *)

From Stdlib Require Import ZArith String Ascii List Lia.
From stdpp Require Import base decidable countable strings gmap list pretty.

Open Scope string_scope.
Open Scope list_scope.

(** ** Python values *)

Set Warnings "-register-all".

Inductive pyval : Type :=
| VNone
| VBool (b : bool)
| VInt (n : Z)
| VStr (s : string)
| VList (l : list pyval)
| VDict (d : list (string * pyval)).

(** What a hashable value is as a set member or a mapping key: [True] and
    [1] are the same member, as are [False] and [0]. *)
Inductive hkey : Type :=
| HNone
| HInt (n : Z)
| HStr (s : string).

#[global] Instance hkey_eq_dec : EqDecision hkey.
Proof. solve_decision. Defined.

Definition hkey_to_sum (k : hkey) : unit + (Z + string) :=
  match k with
  | HNone => inl tt
  | HInt n => inr (inl n)
  | HStr s => inr (inr s)
  end.

Definition hkey_of_sum (x : unit + (Z + string)) : hkey :=
  match x with
  | inl _ => HNone
  | inr (inl n) => HInt n
  | inr (inr s) => HStr s
  end.

#[global] Instance hkey_countable : Countable hkey.
Proof.
  apply (inj_countable' hkey_to_sum hkey_of_sum).
  intros [| n | s]; reflexivity.
Defined.

Inductive exc : Type :=
| KeyError (key : pyval)
| TypeError
| AttributeError
| NameError
| UnboundLocalError
| RecursionError
| InvalidReference
(* what open and json.load raise, other than FileNotFoundError and
   JSONDecodeError *)
| UnicodeDecodeError
| IsADirectoryError
| PermissionError.

Inductive outcome (A : Type) : Type :=
| Ret (a : A)
| Raise (e : exc).

Arguments Ret {A} a.
Arguments Raise {A} e.

(** [hash(v)]: a list or a mapping is unhashable. *)
Definition py_hash (v : pyval) : outcome hkey :=
  match v with
  | VNone => Ret HNone
  | VBool b => Ret (HInt (if b then 1 else 0))
  | VInt n => Ret (HInt n)
  | VStr s => Ret (HStr s)
  | VList _ | VDict _ => Raise TypeError
  end.

(** [bool(v)] *)
Definition py_truthy (v : pyval) : bool :=
  match v with
  | VNone => false
  | VBool b => b
  | VInt n => negb (n =? 0)%Z
  | VStr s => negb (String.eqb s "")
  | VList l => match l with [] => false | _ => true end
  | VDict d => match d with [] => false | _ => true end
  end.

(** [type(v).__name__] *)
Definition py_type_name (v : pyval) : string :=
  match v with
  | VNone => "NoneType"
  | VBool _ => "bool"
  | VInt _ => "int"
  | VStr _ => "str"
  | VList _ => "list"
  | VDict _ => "dict"
  end.

(** The classes the validator's TYPE_MAPPING names. *)
Inductive pytype : Type := Tstr | Tint | Tdict | Tbool.

(** [isinstance(v, cls)]; [bool] is a subclass of [int]. *)
Definition isinstance (v : pyval) (cls : pytype) : bool :=
  match cls, v with
  | Tstr, VStr _ => true
  | Tint, VInt _ => true
  | Tint, VBool _ => true
  | Tdict, VDict _ => true
  | Tbool, VBool _ => true
  | _, _ => false
  end.

(** [v == s] for a text constant [s] *)
Definition py_eq_str (v : pyval) (s : string) : bool :=
  match v with
  | VStr s' => String.eqb s' s
  | _ => false
  end.

(** [d[k]] on the items of a mapping *)
Fixpoint dict_get (k : string) (d : list (string * pyval)) : option pyval :=
  match d with
  | [] => None
  | (k', v) :: d' => if String.eqb k k' then Some v else dict_get k d'
  end.

(** [d[k] = x]: an existing key keeps its place, a new one goes last. *)
Fixpoint dict_set (k : string) (x : pyval) (d : list (string * pyval))
  : list (string * pyval) :=
  match d with
  | [] => [(k, x)]
  | (k', v) :: d' =>
      if String.eqb k k' then (k', x) :: d' else (k', v) :: dict_set k x d'
  end.

(** [v[k]] for a text key: only a mapping answers. *)
Definition py_getitem (v : pyval) (k : string) : outcome pyval :=
  match v with
  | VDict d =>
      match dict_get k d with
      | Some x => Ret x
      | None => Raise (KeyError (VStr k))
      end
  | _ => Raise TypeError
  end.

(** [v.items()] and [v.keys()] *)
Definition py_items (v : pyval) : outcome (list (string * pyval)) :=
  match v with
  | VDict d => Ret d
  | _ => Raise AttributeError
  end.

Definition py_keys (v : pyval) : outcome (list string) :=
  match v with
  | VDict d => Ret (map fst d)
  | _ => Raise AttributeError
  end.

(** A text is held as its UTF-8 bytes. A character of it is a byte that
    starts one, with the continuation bytes (10xxxxxx) that follow. *)
Definition is_continuation (c : ascii) : bool :=
  let n := nat_of_ascii c in (128 <=? n)%nat && (n <? 192)%nat.

Definition continues (s : string) : bool :=
  match s with
  | String c _ => is_continuation c
  | EmptyString => false
  end.

Fixpoint chars (s : string) : list string :=
  match s with
  | EmptyString => []
  | String c s' =>
      match chars s' with
      | following :: rest =>
          if continues s' then String c following :: rest
          else String c EmptyString :: following :: rest
      | [] => [String c EmptyString]
      end
  end.

(** [iter(v)]: a list gives its elements, a text its characters, a mapping
    its keys. *)
Definition py_iter (v : pyval) : outcome (list pyval) :=
  match v with
  | VList l => Ret l
  | VStr s => Ret (map VStr (chars s))
  | VDict d => Ret (map (fun p => VStr (fst p)) d)
  | _ => Raise TypeError
  end.

Fixpoint hash_all (l : list pyval) : outcome (list hkey) :=
  match l with
  | [] => Ret []
  | v :: l' =>
      match py_hash v with
      | Raise e => Raise e
      | Ret k =>
          match hash_all l' with
          | Raise e => Raise e
          | Ret ks => Ret (k :: ks)
          end
      end
  end.

(** [set(v)] *)
Definition py_set (v : pyval) : outcome (gset hkey) :=
  match py_iter v with
  | Raise e => Raise e
  | Ret l =>
      match hash_all l with
      | Raise e => Raise e
      | Ret ks => Ret (list_to_set ks)
      end
  end.

Definition set_truthy (s : gset hkey) : bool := negb (bool_decide (s = ∅)).

(** *** Text of a value: [repr(v)] and [str(v)] *)

Definition dquote : ascii := "034"%char.
Definition squote : ascii := "'"%char.
Definition backslash : ascii := "\"%char.
Definition nl : string := String "010"%char EmptyString.

Fixpoint has_char (c : ascii) (s : string) : bool :=
  match s with
  | EmptyString => false
  | String c' s' => Ascii.eqb c c' || has_char c s'
  end.

Definition hex_digit (n : nat) : ascii :=
  match n with
  | 0 => "0" | 1 => "1" | 2 => "2" | 3 => "3" | 4 => "4" | 5 => "5"
  | 6 => "6" | 7 => "7" | 8 => "8" | 9 => "9" | 10 => "a" | 11 => "b"
  | 12 => "c" | 13 => "d" | 14 => "e" | _ => "f"
  end%char.

(** The escapes of [repr] on the bytes of a text: exact for ASCII, where
    the control characters are escaped. A byte of a character beyond ASCII
    is kept, which is what [repr] does when that character is printable;
    the ones that are not (U+00A0, say) [repr] escapes too, and those are
    not covered. *)
Definition escape_char (q c : ascii) : string :=
  let n := nat_of_ascii c in
  if Ascii.eqb c q || Ascii.eqb c backslash then String backslash (String c EmptyString)
  else if (n =? 9)%nat then "\t"
  else if (n =? 10)%nat then "\n"
  else if (n =? 13)%nat then "\r"
  else if (n <? 32)%nat || (n =? 127)%nat then
    String backslash (String "x" (String (hex_digit (n / 16)) (String (hex_digit (n mod 16)) EmptyString)))
  else String c EmptyString.

Fixpoint escape (q : ascii) (s : string) : string :=
  match s with
  | EmptyString => EmptyString
  | String c s' => escape_char q c +:+ escape q s'
  end.

(** [repr] of a text: single quotes, unless the text holds one and holds no
    double quote. *)
Definition repr_str (s : string) : string :=
  let q := if has_char squote s && negb (has_char dquote s) then dquote else squote in
  String q (escape q s +:+ String q EmptyString).

Fixpoint py_repr (v : pyval) : string :=
  match v with
  | VNone => "None"
  | VBool true => "True"
  | VBool false => "False"
  | VInt n => pretty n
  | VStr s => repr_str s
  | VList l => "[" +:+ String.concat ", " (map py_repr l) +:+ "]"
  | VDict d =>
      "{" +:+ String.concat ", "
                (map (fun p => repr_str (fst p) +:+ ": " +:+ py_repr (snd p)) d)
          +:+ "}"
  end.

(** [str(v)], which is also what an f-string field [{v}] renders. *)
Definition py_str (v : pyval) : string :=
  match v with
  | VStr s => s
  | _ => py_repr v
  end.

(** How deep mappings and lists nest in a value. *)
Fixpoint depth (v : pyval) : nat :=
  match v with
  | VList l => S (list_max (map depth l))
  | VDict d => S (list_max (map (fun p => depth (snd p)) d))
  | _ => 0
  end.

(** ** Logging and exceptions *)

Inductive level : Type := INFO | WARNING | ERROR.

(** One constructor per call of the logger in the two files, holding what
    the call's message interpolates. The two messages of
    [compare_event_fields] interpolate a set: the record holds the set.
    The text Python prints for it lists the same names in the order the
    set iterates them, which is not fixed by the names alone, and is not
    part of the record. *)
Inductive message : Type :=
(* _get_custom_type, both files *)
| CustomTypeNotFound (custom_type : pyval)
(* event_validator.py *)
| EventEmpty
| EventNotEmpty
| EventWrongStructure (received : string)
| EventStructureOk
| SchemaWithoutRequired
| MissingRequiredFields (missing : gset hkey)
| UnregisteredFields (extra : gset hkey)
| FieldsRegistered
| FieldTypeDiverges (key : string) (expected : pyval) (received : string)
| ContentValidated
(* json_schema_to_hive.py *)
| QueryStart
| IncludedName
| IncludedColumns
| IncludedComment
| IncludedPartition
| IncludedClustering
| ClusteringNeedsBoth
| IncludedRowFormat
| IncludedFileFormat
| IncludedSerdeProperties
| IncludedLocation
| IncludedTblProperties
| QueryEnd
| QueryText (query : string)
| ColumnsWithoutType
| ColumnsWithoutProperties
| ColumnsWithoutDescription
| ColDataStart
| ColDataFiltered (filtered_col : list string)
| ColDataEnd
| TableComment.

Definition record : Type := level * message.

(** A computation: the records logged, then the value returned or the
    exception raised. *)
Definition M (A : Type) : Type := list record * outcome A.

Definition logs {A} (m : M A) : list record := fst m.
Definition result {A} (m : M A) : outcome A := snd m.

Definition ret {A} (a : A) : M A := ([], Ret a).
Definition raise {A} (e : exc) : M A := ([], Raise e).
Definition lift {A} (o : outcome A) : M A := ([], o).
Definition log (lv : level) (msg : message) : M unit := ([(lv, msg)], Ret tt).

Definition bind {A B} (m : M A) (f : A -> M B) : M B :=
  match m with
  | (l, Ret a) => (l ++ logs (f a), result (f a))
  | (l, Raise e) => (l, Raise e)
  end.

Notation "x <- m ;; k" := (bind m (fun x => k))
  (at level 20, m at level 99, k at level 200, only parsing).
Notation "m ;; k" := (bind m (fun _ => k))
  (at level 100, k at level 200, right associativity, only parsing).

(** [except NameError] also catches its subclass [UnboundLocalError]. *)
Definition is_KeyError (e : exc) : bool :=
  match e with KeyError _ => true | _ => false end.
Definition is_NameError (e : exc) : bool :=
  match e with NameError | UnboundLocalError => true | _ => false end.

(** [try: m  except <caught>: handler] *)
Definition try_except {A} (m : M A) (caught : exc -> bool) (handler : M A) : M A :=
  match m with
  | (l, Raise e) =>
      if caught e then (l ++ logs handler, result handler) else (l, Raise e)
  | _ => m
  end.

(** [for x in xs: body], the loop's variables threaded as [s]; the body
    either goes on ([inl]) or returns from the function ([inr]). *)
Fixpoint for_each {A S R} (xs : list A) (s : S) (body : A -> S -> M (S + R))
  : M (S + R) :=
  match xs with
  | [] => ret (inl s)
  | x :: xs' =>
      c <- body x s ;;
      match c with
      | inl s' => for_each xs' s' body
      | inr r => ret (inr r)
      end
  end.

(** [m[k]] on a mapping from type names. *)
Fixpoint assoc {T} (k : string) (m : list (string * T)) : option T :=
  match m with
  | [] => None
  | (k', t) :: m' => if String.eqb k k' then Some t else assoc k m'
  end.

Definition mapping_getitem {T} (m : list (string * T)) (k : pyval) : outcome T :=
  match py_hash k with
  | Raise e => Raise e
  | Ret (HStr s) =>
      match assoc s m with
      | Some t => Ret t
      | None => Raise (KeyError k)
      end
  | Ret _ => Raise (KeyError k)
  end.

(** [_get_custom_type], the same text in both files, over the file's own
    TYPE_MAPPING. The override is [None] when the caller leaves it out. *)
Section CustomType.
Context {T : Type} (TYPE_MAPPING : list (string * T)).

Definition get_custom_type (custom_type : pyval)
    (custom_type_mapping : option (list (string * T))) : M (option T) :=
  let custom_type_mapping :=
    match custom_type_mapping with
    | None | Some [] => TYPE_MAPPING
    | Some m => m
    end in
  try_except
    (t <- lift (mapping_getitem custom_type_mapping custom_type) ;; ret (Some t))
    is_KeyError
    (log ERROR (CustomTypeNotFound custom_type) ;; ret None).

End CustomType.

(** ** exercicio1/event_validator.py *)

Module event_validator.

Definition TYPE_MAPPING : list (string * pytype) :=
  [("string", Tstr); ("integer", Tint); ("object", Tdict); ("boolean", Tbool)].

(** class Validation: [self.event]; [self.logger] is the log of [M]. *)
Record Validation : Type := { event : pyval }.

Definition _get_custom_type (self : Validation) (custom_type : pyval)
    (custom_type_mapping : option (list (string * pytype))) : M (option pytype) :=
  get_custom_type TYPE_MAPPING custom_type custom_type_mapping.

Definition validate_event_not_empty (self : Validation) : M bool :=
  if negb (py_truthy (event self)) then
    log ERROR EventEmpty ;; ret false
  else
    log INFO EventNotEmpty ;; ret true.

Definition validate_event_data_structure (self : Validation) : M bool :=
  if negb (isinstance (event self) Tdict) then
    log ERROR (EventWrongStructure (py_type_name (event self))) ;; ret false
  else
    log INFO EventStructureOk ;; ret true.

(** [if not event: event = self.event] *)
Definition event_or_own (self : Validation) (event : pyval) : pyval :=
  if negb (py_truthy event) then event_validator.event self else event.

Definition compare_event_fields (self : Validation) (schema event : pyval) : M bool :=
  let event := event_or_own self event in
  required <-
    try_except
      (r <- lift (py_getitem schema "required") ;;
       s <- lift (py_set r) ;;
       ret (Some s))
      is_KeyError
      (log ERROR SchemaWithoutRequired ;; ret None) ;;
  match required with
  | None => ret false
  | Some required_fields =>
      keys <- lift (py_keys event) ;;
      let events_fields : gset hkey := list_to_set (map HStr keys) in
      let missing_required_fields := required_fields ∖ events_fields in
      let fields_not_required := events_fields ∖ required_fields in
      if set_truthy missing_required_fields then
        log ERROR (MissingRequiredFields missing_required_fields) ;; ret false
      else if set_truthy fields_not_required then
        log ERROR (UnregisteredFields fields_not_required) ;; ret false
      else
        log INFO FieldsRegistered ;; ret true
  end.

(** [schema["properties"][key]] *)
Definition field_schema (schema : pyval) (key : string) : M pyval :=
  props <- lift (py_getitem schema "properties") ;;
  lift (py_getitem props key).

(** One turn of the loop [for key, value in event.items()]: the turn goes
    on to the next field ([inl]) or returns from the method ([inr]).
    [recur] is the method itself at its recursive call. *)
Definition check_field (recur : pyval -> pyval -> M bool) (self : Validation)
    (schema : pyval) (field : string * pyval) (_ : unit) : M (unit + bool) :=
  let '(key, value) := field in
  sub <- field_schema schema key ;;
  declared <- lift (py_getitem sub "type") ;;
  custom_type <- _get_custom_type self declared None ;;
  match custom_type with
  | None => ret (inr false)
  | Some custom_type =>
      if negb (isinstance value custom_type) then
        log ERROR (FieldTypeDiverges key declared (py_type_name value)) ;;
        ret (inr false)
      else if isinstance value Tdict then
        r <- recur sub value ;; ret (inr r)
      else ret (inl tt)
  end.

(** The body of [validate_event_content]. *)
Definition validate_event_content_body
    (recur : pyval -> pyval -> M bool)
    (self : Validation) (schema event : pyval) : M bool :=
  let event := event_or_own self event in
  ok <- compare_event_fields self schema event ;;
  if negb ok then ret false
  else
    items <- lift (py_items event) ;;
    looped <- for_each items tt (check_field recur self schema) ;;
    match looped with
    | inr r => ret r
    | inl _ => log INFO ContentValidated ;; ret true
    end.

(** The recursion goes from a schema to one of its properties' schemas.
    [fuel] bounds how deep it may go, as the interpreter's recursion limit
    does; the method takes the nesting depth of its schema, which is enough
    ([validate_event_content_unfold]). *)
Fixpoint validate_event_content_fuel (fuel : nat) (self : Validation)
    (schema event : pyval) : M bool :=
  match fuel with
  | O => raise RecursionError
  | S fuel' =>
      validate_event_content_body
        (validate_event_content_fuel fuel' self) self schema event
  end.

Definition validate_event_content (self : Validation) (schema event : pyval) : M bool :=
  validate_event_content_fuel (S (depth schema)) self schema event.

End event_validator.

(** ** exercicio2/json_schema_to_hive.py *)

Module json_schema_to_hive.

Definition TYPE_MAPPING : list (string * string) :=
  [("string", "varchar"); ("integer", "tinyint"); ("object", "struct");
   ("boolean", "boolean")].

(** *** class Query *)

Record Query : Type := { tb_name : string; db_name : string }.

Definition _get_custom_type (self : Query) (custom_type : pyval)
    (custom_type_mapping : option (list (string * string))) : M (option string) :=
  get_custom_type TYPE_MAPPING custom_type custom_type_mapping.

(** What [{x}] renders in an f-string when [x] is a type keyword or [None]. *)
Definition fmt_type (t : option string) : string :=
  match t with
  | Some s => s
  | None => "None"
  end.

(** [sep.join(v)]: every element must be a text. *)
Fixpoint all_str (l : list pyval) : outcome (list string) :=
  match l with
  | [] => Ret []
  | VStr s :: l' =>
      match all_str l' with
      | Ret ss => Ret (s :: ss)
      | Raise e => Raise e
      end
  | _ :: _ => Raise TypeError
  end.

Definition str_join (sep : string) (v : pyval) : outcome string :=
  match py_iter v with
  | Raise e => Raise e
  | Ret l =>
      match all_str l with
      | Raise e => Raise e
      | Ret ss => Ret (String.concat sep ss)
      end
  end.

(** The local variables of [format_table_columns]; one that no assignment
    has reached yet is unbound. They outlive an iteration of the loop. *)
Record locals : Type := {
  col_data_list : list string;
  col_data : option string;
  obj_columns : option string;
  comment : option pyval
}.

Definition read_local {A} (x : option A) : M A :=
  match x with
  | Some a => ret a
  | None => raise UnboundLocalError
  end.

Definition format_table_columns_body
    (recur : pyval -> string -> M string)
    (self : Query) (col_dict : pyval) (separator : string) : M string :=
  items <- lift (py_items col_dict) ;;
  looped <-
    for_each (R := Empty_set) items
      {| col_data_list := []; col_data := None; obj_columns := None; comment := None |}
      (fun '(key, value) st =>
        st <-
          try_except
            (declared <- lift (py_getitem value "type") ;;
             t <- _get_custom_type self declared None ;;
             ret {| col_data_list := col_data_list st;
                    col_data := Some (key +:+ separator +:+ " " +:+ fmt_type t);
                    obj_columns := obj_columns st;
                    comment := comment st |})
            is_NameError
            (log ERROR ColumnsWithoutType ;; ret st) ;;
        declared <- lift (py_getitem value "type") ;;
        st <-
          (if py_eq_str declared "object" then
             st <-
               try_except
                 (props <- lift (py_getitem value "properties") ;;
                  cols <- recur props ":" ;;
                  ret {| col_data_list := col_data_list st;
                         col_data := col_data st;
                         obj_columns := Some cols;
                         comment := comment st |})
                 is_NameError
                 (log ERROR ColumnsWithoutProperties ;; ret st) ;;
             cd <- read_local (col_data st) ;;
             oc <- read_local (obj_columns st) ;;
             ret {| col_data_list := col_data_list st;
                    col_data := Some (cd +:+ " <" +:+ oc +:+ ">");
                    obj_columns := obj_columns st;
                    comment := comment st |}
           else ret st) ;;
        st <-
          try_except
            (d <- lift (py_getitem value "description") ;;
             ret {| col_data_list := col_data_list st;
                    col_data := col_data st;
                    obj_columns := obj_columns st;
                    comment := Some d |})
            is_NameError
            (log ERROR ColumnsWithoutDescription ;; ret st) ;;
        c <- read_local (comment st) ;;
        st <-
          (if py_truthy c then
             cd <- read_local (col_data st) ;;
             ret {| col_data_list := col_data_list st;
                    col_data := Some (cd +:+ " COMMENT '" +:+ py_str c +:+ "'");
                    obj_columns := obj_columns st;
                    comment := comment st |}
           else ret st) ;;
        cd <- read_local (col_data st) ;;
        ret (inl {| col_data_list := col_data_list st ++ [cd];
                    col_data := col_data st;
                    obj_columns := obj_columns st;
                    comment := comment st |})) ;;
  match looped with
  | inl st => ret (String.concat ("," +:+ nl) (col_data_list st))
  | inr r => match r with end
  end.

Fixpoint format_table_columns_fuel (fuel : nat) (self : Query)
    (col_dict : pyval) (separator : string) : M string :=
  match fuel with
  | O => raise RecursionError
  | S fuel' =>
      format_table_columns_body
        (format_table_columns_fuel fuel' self) self col_dict separator
  end.

Definition format_table_columns (self : Query) (col_dict : pyval)
    (separator : string) : M string :=
  format_table_columns_fuel (S (depth col_dict)) self col_dict separator.

Definition format_table_properties (self : Query) (tb_properties : pyval) : M string :=
  items <- lift (py_items tb_properties) ;;
  ret (String.concat ","
         (map (fun '(key, value) => "'" +:+ key +:+ "' = '" +:+ py_str value +:+ "'")
              items)).

Definition create_table (self : Query)
    (col_params tb_desc partition_params clustering_params num_buckets
     row_format file_format serde_properties location tbl_properties : pyval)
  : M string :=
  log INFO QueryStart ;;
  let query :=
    "CREATE EXTERNAL TABLE IF NOT EXISTS " +:+ db_name self +:+ "." +:+ tb_name self in
  log INFO IncludedName ;;
  query <-
    (if py_truthy col_params then
       col_params <- format_table_columns self col_params "" ;;
       log INFO IncludedColumns ;;
       ret (query +:+ nl +:+ "(" +:+ col_params +:+ ")")
     else ret query) ;;
  query <-
    (if py_truthy tb_desc then
       log INFO IncludedComment ;;
       ret (query +:+ nl +:+ "COMMENT '" +:+ py_str tb_desc +:+ "'")
     else ret query) ;;
  query <-
    (if py_truthy partition_params then
       partition_params <- format_table_columns self partition_params "" ;;
       log INFO IncludedPartition ;;
       ret (query +:+ nl +:+ "PARTITIONED BY (" +:+ partition_params +:+ ")")
     else ret query) ;;
  query <-
    (if py_truthy clustering_params || py_truthy num_buckets then
       if py_truthy clustering_params && py_truthy num_buckets then
         clustering_params <- lift (str_join "," clustering_params) ;;
         log INFO IncludedClustering ;;
         ret (query +:+ nl +:+ "CLUSTERED BY (" +:+ clustering_params +:+ ") INTO "
                    +:+ py_str num_buckets +:+ " BUCKETS")
       else
         log WARNING ClusteringNeedsBoth ;; ret query
     else ret query) ;;
  query <-
    (if py_truthy row_format then
       log INFO IncludedRowFormat ;;
       ret (query +:+ nl +:+ "ROW FORMAT '" +:+ py_str row_format +:+ "'")
     else ret query) ;;
  query <-
    (if py_truthy file_format then
       log INFO IncludedFileFormat ;;
       ret (query +:+ nl +:+ "STORED AS " +:+ py_str file_format)
     else ret query) ;;
  query <-
    (if py_truthy serde_properties then
       serde_properties <- format_table_properties self serde_properties ;;
       log INFO IncludedSerdeProperties ;;
       ret (query +:+ nl +:+ "WITH SERDEPROPERTIES (" +:+ serde_properties +:+ ")")
     else ret query) ;;
  query <-
    (if py_truthy location then
       log INFO IncludedLocation ;;
       ret (query +:+ nl +:+ "LOCATION '" +:+ py_str location +:+ "'")
     else ret query) ;;
  query <-
    (if py_truthy tbl_properties then
       tbl_properties <- format_table_properties self tbl_properties ;;
       log INFO IncludedTblProperties ;;
       ret (query +:+ nl +:+ "TBLPROPERTIES (" +:+ tbl_properties +:+ ")")
     else ret query) ;;
  log INFO QueryEnd ;;
  log INFO (QueryText query) ;;
  ret query.

(** *** The store of schema objects

    A schema is a mapping that [get_col_data] may write into, so the caller
    and the method must see one object, not two copies. An object loaded
    from a JSON file is a tree: the store keeps each such tree at a
    location, and a reference is a location and the keys leading from the
    tree's root to the object meant. Two references with the same location
    and path are the same object. *)

Record ref : Type := { ref_loc : nat; ref_path : list string }.

Abbreviation store := (gmap nat pyval).

Fixpoint follow (path : list string) (v : pyval) : option pyval :=
  match path with
  | [] => Some v
  | k :: path' =>
      match v with
      | VDict d =>
          match dict_get k d with
          | Some c => follow path' c
          | None => None
          end
      | _ => None
      end
  end.

Definition deref (h : store) (r : ref) : option pyval :=
  match h !! ref_loc r with
  | Some root => follow (ref_path r) root
  | None => None
  end.

(** The tree [root] with the object at [path] replaced by [x]. *)
Fixpoint write_at (path : list string) (x : pyval) (root : pyval) : pyval :=
  match path with
  | [] => x
  | k :: path' =>
      match root with
      | VDict d =>
          match dict_get k d with
          | Some c => VDict (dict_set k (write_at path' x c) d)
          | None => root
          end
      | _ => root
      end
  end.

Definition store_write (h : store) (r : ref) (x : pyval) : store :=
  match h !! ref_loc r with
  | Some root => <[ref_loc r := write_at (ref_path r) x root]> h
  | None => h
  end.

(** The object under key [k] of the object [r]. *)
Definition sub_ref (r : ref) (k : string) : ref :=
  {| ref_loc := ref_loc r; ref_path := ref_path r ++ [k] |}.

(** A computation over the store: the store it leaves, what it logged and
    how it ended. A write made before an exception stays made. *)
Definition SM (A : Type) : Type := store -> store * M A.

Definition sret {A} (a : A) : SM A := fun h => (h, ret a).
Definition slift {A} (m : M A) : SM A := fun h => (h, m).

Definition sbind {A B} (m : SM A) (f : A -> SM B) : SM B :=
  fun h =>
    match m h with
    | (h1, (l, Ret a)) =>
        let '(h2, m2) := f a h1 in (h2, (l ++ logs m2, result m2))
    | (h1, (l, Raise e)) => (h1, (l, Raise e))
    end.

Notation "x <~ m ;; k" := (sbind m (fun x => k))
  (at level 20, m at level 99, k at level 200, only parsing).
Notation "m ;;~ k" := (sbind m (fun _ => k))
  (at level 100, k at level 200, right associativity, only parsing).

(** Reading through a reference. [InvalidReference] is no exception of
    Python's: it marks a reference that names no object of the store, which
    a reference taken from the store itself never does. *)
Definition load (r : ref) : SM pyval :=
  fun h =>
    match deref h r with
    | Some v => (h, ret v)
    | None => (h, raise InvalidReference)
    end.

(** [r[k] = x] *)
Definition setitem (r : ref) (k : string) (x : pyval) : SM unit :=
  fun h =>
    match deref h r with
    | Some (VDict d) => (store_write h r (VDict (dict_set k x d)), ret tt)
    | Some _ => (h, raise TypeError)
    | None => (h, raise InvalidReference)
    end.

Fixpoint sfor_each {A S} (xs : list A) (s : S) (body : A -> S -> SM S) : SM S :=
  match xs with
  | [] => sret s
  | x :: xs' => s' <~ body x s ;; sfor_each xs' s' body
  end.

(** *** class Schema *)

Record Schema : Type := { schema : ref }.

Definition get_col_data_body
    (recur : option ref -> option (list string) -> SM pyval)
    (self : Schema) (schema : option ref) (filtered_col : option (list string))
  : SM pyval :=
  slift (log INFO ColDataStart) ;;~
  schema <~
    match schema with
    | None => sret (json_schema_to_hive.schema self)
    | Some r =>
        v <~ load r ;;
        sret (if negb (py_truthy v) then json_schema_to_hive.schema self else r)
    end ;;
  match filtered_col with
  | Some ((_ :: _) as cols) =>
      filtered <~
        sfor_each cols [] (fun key acc =>
          s <~ load schema ;;
          props <~ slift (lift (py_getitem s "properties")) ;;
          x <~ slift (lift (py_getitem props key)) ;;
          sret (dict_set key x acc)) ;;
      setitem schema "properties" (VDict filtered) ;;~
      slift (log INFO (ColDataFiltered cols))
  | _ => sret tt
  end ;;~
  s <~ load schema ;;
  props <~ slift (lift (py_getitem s "properties")) ;;
  items <~ slift (lift (py_items props)) ;;
  col_dict <~
    sfor_each items [] (fun '(key, value) col_dict =>
      t <~ slift (lift (py_getitem value "type")) ;;
      d <~ slift (lift (py_getitem value "description")) ;;
      let entry := [("type", t); ("description", d)] in
      let col_dict := dict_set key (VDict entry) col_dict in
      t <~ slift (lift (py_getitem value "type")) ;;
      if py_eq_str t "object" then
        nested <~ recur (Some (sub_ref (sub_ref schema "properties") key)) None ;;
        sret (dict_set key (VDict (dict_set "properties" nested entry)) col_dict)
      else sret col_dict) ;;
  slift (log INFO ColDataEnd) ;;~
  sret (VDict col_dict).

(** [fuel] bounds the nesting of the recursive calls, as for the two
    walkers above. *)
Fixpoint get_col_data_fuel (fuel : nat) (self : Schema)
    (schema : option ref) (filtered_col : option (list string)) : SM pyval :=
  match fuel with
  | O => slift (raise RecursionError)
  | S fuel' =>
      get_col_data_body (get_col_data_fuel fuel' self) self schema filtered_col
  end.

Definition depth_at (h : store) (r : ref) : nat :=
  match deref h r with
  | Some v => depth v
  | None => 0
  end.

(** The fuel a call asks for: the nesting depth of the objects it may be
    working on, its argument and the schema of [self]. *)
Definition call_fuel (h : store) (self : Schema) (schema : option ref) : nat :=
  S (Nat.max (depth_at h (json_schema_to_hive.schema self))
             (match schema with Some r => depth_at h r | None => 0 end)).

(** A recursive call, fuelled from the store it starts on. *)
Definition get_col_data_nested (self : Schema) (schema : option ref)
    (filtered_col : option (list string)) : SM pyval :=
  fun h => get_col_data_fuel (call_fuel h self schema) self schema filtered_col h.

Definition get_col_data (self : Schema) (schema : option ref)
    (filtered_col : option (list string)) : SM pyval :=
  get_col_data_body (get_col_data_nested self) self schema filtered_col.

Definition get_tb_comment (self : Schema) : SM pyval :=
  slift (log INFO TableComment) ;;~
  s <~ load (schema self) ;;
  slift (lift (py_getitem s "description")).

End json_schema_to_hive.

(** ** The entry points of the two files

    [handler] is what runs a file: it makes the logger, reads the schema
    file, calls the methods above and hands their result to AWS. The file
    system and AWS are outside the program: the model is given what they
    answer, and keeps what the program asks of them, in order, beside the
    records it logs. *)

(** What [open] and [json.load] meet where [read_schema] looks for the
    schema: no file ([FileNotFoundError]), a file that is no JSON text
    ([JSONDecodeError]), any other exception (a file that is no UTF-8
    text, a folder of that name, a file that may not be read), or a JSON
    value. *)
Inductive schema_file : Type :=
| FileNotFound
| InvalidJSON
| Unreadable (e : exc)
| FileHolds (v : pyval).

(** What an entry point does, in order: the records of the methods it
    calls, the records of [read_schema] and its own, what it prints, and
    the requests it makes of AWS. *)
Inductive action : Type :=
| Logged (r : record)
(* read_schema, both files *)
| LoggedFileNotFound
| LoggedInvalidJSON
(* event_validator.py *)
| LoggedEventSent
| GetQueueUrl (QueueName : string)
| SendMessage (QueueUrl : pyval) (event : pyval)
(* both files *)
| Printed (text : string)
(* json_schema_to_hive.py *)
| StartQueryExecution (QueryString : string) (OutputLocation : string).

(** A run of an entry point: its actions, then how it ends. *)
Definition Entry (A : Type) : Type := list action * outcome A.

Definition trace {A} (m : Entry A) : list action := fst m.
Definition ending {A} (m : Entry A) : outcome A := snd m.

Definition eret {A} (a : A) : Entry A := ([], Ret a).
Definition act (a : action) : Entry unit := ([a], Ret tt).

(** A method called from an entry point. *)
Definition call {A} (m : M A) : Entry A := (map Logged (logs m), result m).

(** The answer of something outside the program. *)
Definition answer {A} (o : outcome A) : Entry A := ([], o).

Definition ebind {A B} (m : Entry A) (f : A -> Entry B) : Entry B :=
  match m with
  | (l, Ret a) => (l ++ trace (f a), ending (f a))
  | (l, Raise e) => (l, Raise e)
  end.

Notation "x <<- m ;; k" := (ebind m (fun x => k))
  (at level 20, m at level 99, k at level 200, only parsing).
Notation "m ;;; k" := (ebind m (fun _ => k))
  (at level 100, k at level 200, right associativity, only parsing).

(** The logger of a module. [logging.getLogger(__name__)] is one object
    for the whole process, so a call of [create_logger] finds the level
    and the file handlers that earlier calls left on it. A handler is the
    file it appends to, under the module's folder, and its level. *)
Record logger_state : Type := {
  logs_folder : bool;
  logger_level : Z;
  logger_handlers : list (string * Z)
}.

(** [logging.INFO], [logging.WARNING], [logging.ERROR] *)
Definition level_number (lv : level) : Z :=
  match lv with
  | INFO => 20
  | WARNING => 30
  | ERROR => 40
  end.

(** [create_logger], the same text in both files: the logger it leaves,
    and what it prints. [today] is [datetime.now().strftime('%Y%m%d')];
    the folder is made when it is not there, and the file system is taken
    to allow it. *)
Definition create_logger (today : string) (log_level : Z) (st : logger_state)
  : logger_state * Entry unit :=
  let log_file := "logger_" +:+ today +:+ ".log" in
  let file_handler := ("logs/" +:+ log_file, log_level) in
  ({| logs_folder := if negb (logs_folder st) then true else logs_folder st;
      logger_level := log_level;
      logger_handlers := logger_handlers st ++ [file_handler] |},
   act (Printed "Logger criado com sucesso!")).

(** What the files receive when the logger is sent a record: nothing when
    the record is below the logger's level (a logger whose level was never
    set goes by the root's, [WARNING]); else a line in the file of each
    handler whose level the record reaches. In the methods and the entry
    points the logger is the list of the records sent, whatever the files
    receive. *)
Definition written (st : logger_state) (r : record) : list (string * record) :=
  let effective := if (logger_level st =? 0)%Z then 30%Z else logger_level st in
  if (level_number (fst r) <? effective)%Z then []
  else
    flat_map (fun handler : string * Z =>
                if (level_number (fst r) <? snd handler)%Z then []
                else [(fst handler, r)])
             (logger_handlers st).

(** [read_schema], the same text in both files: the value of the file, or
    an error record and [None] for the two exceptions it catches. Any
    other exception goes on to the caller. *)
Definition read_schema (file : schema_file) : Entry pyval :=
  match file with
  | FileHolds v => eret v
  | FileNotFound => act LoggedFileNotFound ;;; eret VNone
  | InvalidJSON => act LoggedInvalidJSON ;;; eret VNone
  | Unreadable e => answer (Raise e)
  end.

Module event_validator_handler.
Import event_validator.

(** The SQS client boto3 gives: what its two operations answer, a response
    or an exception. *)
Record sqs_client : Type := {
  get_queue_url : string -> outcome pyval;
  send_message : pyval -> pyval -> outcome pyval
}.

(** What is outside [handler(event)]: the day and the logger it starts
    with, the schema file and SQS. *)
Record world : Type := {
  today : string;
  logger : logger_state;
  file : schema_file;
  sqs : sqs_client
}.

(** [MessageBody] is [json.dumps(event)]: the request keeps [event]. *)
Definition send_event_to_queue (w : world) (event : pyval) (queue_name : string)
  : Entry unit :=
  act (GetQueueUrl queue_name) ;;;
  response <<- answer (get_queue_url (sqs w) queue_name) ;;
  queue_url <<- answer (py_getitem response "QueueUrl") ;;
  act (SendMessage queue_url event) ;;;
  response <<- answer (send_message (sqs w) queue_url event) ;;
  metadata <<- answer (py_getitem response "ResponseMetadata") ;;
  code <<- answer (py_getitem metadata "HTTPStatusCode") ;;
  act (Printed ("Response status code: [" +:+ py_str code +:+ "]")).

Definition handler (w : world) (event : pyval) : Entry unit :=
  snd (create_logger (today w) 20 (logger w)) ;;;
  let validation := {| event := event |} in
  checked <<-
    (not_empty <<- call (validate_event_not_empty validation) ;;
     if not_empty then call (validate_event_data_structure validation)
     else eret not_empty) ;;
  if checked then
    schema <<- read_schema (file w) ;;
    if py_truthy schema then
      valid <<- call (validate_event_content validation schema VNone) ;;
      if valid then
        send_event_to_queue w event "valid-events-queue" ;;;
        act LoggedEventSent
      else eret tt
    else eret tt
  else eret tt.

End event_validator_handler.

Module json_schema_to_hive_handler.
Import json_schema_to_hive.

(** The Athena client: what [start_query_execution] answers. *)
Record athena_client : Type := {
  start_query_execution : string -> string -> outcome pyval
}.

(** What is outside [handler()]: the day and the logger it starts with,
    the schema file, and the module's global [_ATHENA_CLIENT], which the
    file sets to [None] and assigns nowhere. *)
Record world : Type := {
  today : string;
  logger : logger_state;
  file : schema_file;
  _ATHENA_CLIENT : option athena_client
}.

Definition create_hive_table_with_athena (w : world) (query : string) : Entry unit :=
  act (Printed ("Query: " +:+ query)) ;;;
  match _ATHENA_CLIENT w with
  | None => answer (Raise AttributeError)
  | Some client =>
      act (StartQueryExecution query "s3://iti-query-results/") ;;;
      answer (start_query_execution client query "s3://iti-query-results/") ;;;
      eret tt
  end.

(** A method of [Schema], run on the store the handler holds. *)
Definition call_on {A} (h : store) (m : SM A) : Entry (store * A) :=
  let '(h', r) := m h in
  x <<- call r ;; eret (h', x).

(** The schema [json.load] returned is one object of the store, at
    location 0. *)
Definition handler (w : world) : Entry unit :=
  let TB_NAME := "tb_user" in
  let DB_NAME := "db_people" in
  let PARTITION_PARAMS : list string := [] in
  let CLUSTERING_PARAMS := VList [VStr "age"] in
  let NUM_BUCKETS := VInt 32 in
  let ROW_FORMAT := VStr "org.apache.hadoop.hive.ql.io.parquet.serde.ParquetHiveSerDe" in
  let FILE_FORMAT := VStr "PARQUET" in
  let SERDE_PROPERTIES :=
    VDict [("parquet.compress", VStr "SNAPPY"); ("serialization.format", VStr "1")] in
  let LOCATION := VStr "s3://iti-query-results/" in
  let TBL_PROPERTIES := VDict [("has_encrypted_data", VBool true)] in
  snd (create_logger (today w) 20 (logger w)) ;;;
  schema_dict <<- read_schema (file w) ;;
  if py_truthy schema_dict then
    let h : store := {[ 0 := schema_dict ]} in
    let schema := {| schema := {| ref_loc := 0; ref_path := [] |} |} in
    let query := {| tb_name := TB_NAME; db_name := DB_NAME |} in
    r <<- call_on h (get_col_data schema None None) ;;
    let '(h, col_params) := r in
    r <<- call_on h (get_tb_comment schema) ;;
    let '(h, tb_desc) := r in
    r <<- call_on h (get_col_data schema None (Some PARTITION_PARAMS)) ;;
    let '(h, partition_params) := r in
    query_str <<-
      call (create_table query col_params tb_desc partition_params
              CLUSTERING_PARAMS NUM_BUCKETS ROW_FORMAT FILE_FORMAT
              SERDE_PROPERTIES LOCATION TBL_PROPERTIES) ;;
    create_hive_table_with_athena w query_str
  else eret tt.

End json_schema_to_hive_handler.

(** * Definitions of the specification side

    What the statements below are written with: the sets, texts and
    predicates the spec speaks of, and the values of the repository's
    tests. None of it is part of the two programs. *)

Section ValidatorSide.
Import event_validator.

(** The field set of a document. *)
Definition field_set (items : list (string * pyval)) : gset hkey :=
  list_to_set (map HStr (map fst items)).

(** The class a field's declared type names: what step 4 of the walk
    resolves for [key], when it can. *)
Definition declared_class (schema : pyval) (key : string) : option pytype :=
  match py_getitem schema "properties" with
  | Ret props =>
      match py_getitem props key with
      | Ret sub =>
          match py_getitem sub "type" with
          | Ret (VStr t) => assoc t TYPE_MAPPING
          | _ => None
          end
      | Raise _ => None
      end
  | Raise _ => None
  end.

(** A field that is no mapping and has the type its schema declares. *)
Definition scalar_field_passes (schema : pyval) (field : string * pyval) : bool :=
  match declared_class schema (fst field) with
  | Some cls => isinstance (snd field) cls && negb (isinstance (snd field) Tdict)
  | None => false
  end.

End ValidatorSide.

(** [m] for each element in turn, collecting what they return. *)
Fixpoint sequence {A} (ms : list (M A)) : M (list A) :=
  match ms with
  | [] => ret []
  | m :: ms' => a <- m ;; rest <- sequence ms' ;; ret (a :: rest)
  end.

Section HiveSide.
Import json_schema_to_hive.

(** The statement with no clause: [CREATE EXTERNAL TABLE IF NOT EXISTS db.tb]. *)
Definition table_head (self : Query) : string :=
  "CREATE EXTERNAL TABLE IF NOT EXISTS " +:+ db_name self +:+ "." +:+ tb_name self.

(** One pair as the spec words it: ['key' = 'value'], the value by its
    textual representation. *)
Definition property_pair (key : string) (value : pyval) : string :=
  "'" +:+ key +:+ "' = '" +:+ py_str value +:+ "'".

(** The pairs of a mapping, comma-joined, one after the other. *)
Fixpoint comma_joined_pairs (items : list (string * pyval)) : string :=
  match items with
  | [] => ""
  | [(key, value)] => property_pair key value
  | (key, value) :: rest => property_pair key value +:+ "," +:+ comma_joined_pairs rest
  end.

(** A clause builder gives the text its clause adds to the statement: the
    empty text when its input is absent (falsy). *)
Definition noted_clause (present : bool) (note : message) (text : string) : M string :=
  if present then log INFO note ;; ret (nl +:+ text) else ret "".

Definition rendered_clause (present : bool) (render : M string) (note : message)
    (wrap : string -> string) : M string :=
  if present then x <- render ;; log INFO note ;; ret (nl +:+ wrap x) else ret "".

Definition clustered_by (columns : string) (num_buckets : pyval) : string :=
  "CLUSTERED BY (" +:+ columns +:+ ") INTO " +:+ py_str num_buckets +:+ " BUCKETS".

Definition clustering_clause (clustering_params num_buckets : pyval) : M string :=
  if py_truthy clustering_params && py_truthy num_buckets then
    columns <- lift (str_join "," clustering_params) ;;
    log INFO IncludedClustering ;;
    ret (nl +:+ clustered_by columns num_buckets)
  else if py_truthy clustering_params || py_truthy num_buckets then
    log WARNING ClusteringNeedsBoth ;; ret ""
  else ret "".

(** The clauses in the order of the spec: columns, comment, partition,
    clustering, row format, stored-as, serde properties, location, table
    properties. *)
Definition clauses (self : Query)
    (col_params tb_desc partition_params clustering_params num_buckets
     row_format file_format serde_properties location tbl_properties : pyval)
  : list (M string) :=
  [ rendered_clause (py_truthy col_params)
      (format_table_columns self col_params "") IncludedColumns
      (fun x => "(" +:+ x +:+ ")");
    noted_clause (py_truthy tb_desc) IncludedComment
      ("COMMENT '" +:+ py_str tb_desc +:+ "'");
    rendered_clause (py_truthy partition_params)
      (format_table_columns self partition_params "") IncludedPartition
      (fun x => "PARTITIONED BY (" +:+ x +:+ ")");
    clustering_clause clustering_params num_buckets;
    noted_clause (py_truthy row_format) IncludedRowFormat
      ("ROW FORMAT '" +:+ py_str row_format +:+ "'");
    noted_clause (py_truthy file_format) IncludedFileFormat
      ("STORED AS " +:+ py_str file_format);
    rendered_clause (py_truthy serde_properties)
      (format_table_properties self serde_properties) IncludedSerdeProperties
      (fun x => "WITH SERDEPROPERTIES (" +:+ x +:+ ")");
    noted_clause (py_truthy location) IncludedLocation
      ("LOCATION '" +:+ py_str location +:+ "'");
    rendered_clause (py_truthy tbl_properties)
      (format_table_properties self tbl_properties) IncludedTblProperties
      (fun x => "TBLPROPERTIES (" +:+ x +:+ ")") ].

(** The assembler of the spec: the head, then the text of each clause in
    the order of the list, each appended to what is there. *)
Definition assemble (self : Query) (builders : list (M string)) : M string :=
  log INFO QueryStart ;;
  log INFO IncludedName ;;
  fragments <- sequence builders ;;
  let query := fold_left String.append fragments (table_head self) in
  log INFO QueryEnd ;;
  log INFO (QueryText query) ;;
  ret query.

(** The builders run one after the other, each text appended at once. *)
Fixpoint run_clauses {B} (builders : list (M string)) (query : string)
    (k : string -> M B) : M B :=
  match builders with
  | [] => k query
  | c :: cs => f <- c ;; run_clauses cs (query +:+ f) k
  end.

(** The text of a clause: nothing when its input is absent, else a line
    break and the clause. *)
Definition clause_text (present : bool) (text : string) : string :=
  if present then nl +:+ text else "".

(** The builders before and after the clustering clause. *)
Definition clauses_before (self : Query) (col_params tb_desc partition_params : pyval)
  : list (M string) :=
  [ rendered_clause (py_truthy col_params)
      (format_table_columns self col_params "") IncludedColumns
      (fun x => "(" +:+ x +:+ ")");
    noted_clause (py_truthy tb_desc) IncludedComment
      ("COMMENT '" +:+ py_str tb_desc +:+ "'");
    rendered_clause (py_truthy partition_params)
      (format_table_columns self partition_params "") IncludedPartition
      (fun x => "PARTITIONED BY (" +:+ x +:+ ")") ].

Definition clauses_after (self : Query)
    (row_format file_format serde_properties location tbl_properties : pyval)
  : list (M string) :=
  [ noted_clause (py_truthy row_format) IncludedRowFormat
      ("ROW FORMAT '" +:+ py_str row_format +:+ "'");
    noted_clause (py_truthy file_format) IncludedFileFormat
      ("STORED AS " +:+ py_str file_format);
    rendered_clause (py_truthy serde_properties)
      (format_table_properties self serde_properties) IncludedSerdeProperties
      (fun x => "WITH SERDEPROPERTIES (" +:+ x +:+ ")");
    noted_clause (py_truthy location) IncludedLocation
      ("LOCATION '" +:+ py_str location +:+ "'");
    rendered_clause (py_truthy tbl_properties)
      (format_table_properties self tbl_properties) IncludedTblProperties
      (fun x => "TBLPROPERTIES (" +:+ x +:+ ")") ].

(** The warnings among the records of a log. *)
Fixpoint count_warnings (l : list record) : nat :=
  match l with
  | [] => 0
  | (WARNING, _) :: l' => S (count_warnings l')
  | _ :: l' => count_warnings l'
  end.

(** A computation that logs no warning. *)
Definition quiet {A} (m : M A) : Prop := count_warnings (logs m) = 0.

(** A computation that leaves the store as it found it. *)
Definition keeps_store {A} (m : SM A) : Prop := forall h, fst (m h) = h.

(** What [get_col_data] does once the column filter is behind it: it only
    reads, as long as its recursive calls do. *)
Definition collect_columns
    (recur : option ref -> option (list string) -> SM pyval) (schema : ref) : SM pyval :=
  s <~ load schema ;;
  props <~ slift (lift (py_getitem s "properties")) ;;
  items <~ slift (lift (py_items props)) ;;
  col_dict <~
    sfor_each items [] (fun '(key, value) col_dict =>
      t <~ slift (lift (py_getitem value "type")) ;;
      d <~ slift (lift (py_getitem value "description")) ;;
      let entry := [("type", t); ("description", d)] in
      let col_dict := dict_set key (VDict entry) col_dict in
      t <~ slift (lift (py_getitem value "type")) ;;
      if py_eq_str t "object" then
        nested <~ recur (Some (sub_ref (sub_ref schema "properties") key)) None ;;
        sret (dict_set key (VDict (dict_set "properties" nested entry)) col_dict)
      else sret col_dict) ;;
  slift (log INFO ColDataEnd) ;;~
  sret (VDict col_dict).

(** A value as Python builds it: no mapping in it has a key twice. *)
Fixpoint unique_keys (v : pyval) : bool :=
  match v with
  | VDict d =>
      bool_decide (NoDup (map fst d)) && forallb (fun p => unique_keys (snd p)) d
  | VList l => forallb unique_keys l
  | _ => true
  end.

(** [{key: props[key] for key in cols}], built onto [acc]; [None] when a
    name of [cols] is no key of [props]. *)
Fixpoint select_columns (props : list (string * pyval)) (cols : list string)
    (acc : list (string * pyval)) : option (list (string * pyval)) :=
  match cols with
  | [] => Some acc
  | key :: cols' =>
      match dict_get key props with
      | Some x => select_columns props cols' (dict_set key x acc)
      | None => None
      end
  end.

End HiveSide.

(** ** The fixtures of tests/test_event_validator.py *)

Module fixtures.

Definition leaf (path name type : string) (example : pyval) : pyval :=
  VDict [("$id", VStr ("#/properties/" +:+ path));
         ("type", VStr type);
         ("title", VStr ("The " +:+ name +:+ " schema"));
         ("description", VStr "An explanation about the purpose of this instance.");
         ("examples", VList [example])].

Definition address_schema : pyval :=
  VDict [("$id", VStr "#/properties/address");
         ("type", VStr "object");
         ("title", VStr "The address schema");
         ("description", VStr "An explanation about the purpose of this instance.");
         ("required", VList [VStr "street"; VStr "number"; VStr "mailAddress"]);
         ("properties",
          VDict [("street", leaf "address/properties/street" "street" "string" (VStr "St. Blue"));
                 ("number", leaf "address/properties/number" "number" "integer" (VInt 3));
                 ("mailAddress",
                  leaf "address/properties/mailAddress" "mailAddress" "boolean" (VBool true))])].

Definition root_properties : list (string * pyval) :=
  [("eid", leaf "eid" "eid" "string" (VStr "3e628a05-7a4a-4bf3-8770-084c11601a12"));
   ("documentNumber", leaf "documentNumber" "documentNumber" "string" (VStr "42323235600"));
   ("name", leaf "name" "name" "string" (VStr "Joseph"));
   ("age", leaf "age" "age" "integer" (VInt 32));
   ("address", address_schema)].

Definition root_items : list (string * pyval) :=
  [("$schema", VStr "http://json-schema.org/draft-07/schema");
   ("$id", VStr "http://example.com/example.json");
   ("type", VStr "object");
   ("title", VStr "The root schema");
   ("description", VStr "The root schema comprises the entire JSON document.");
   ("required",
    VList [VStr "eid"; VStr "documentNumber"; VStr "name"; VStr "age"; VStr "address"]);
   ("properties", VDict root_properties)].

Definition get_schema : pyval := VDict root_items.

(** test_compare_event_fields_missing_required_fields *)
Definition event_without_address : pyval :=
  VDict [("eid", VStr "3e628a05-7a4a-4bf3-8770-084c11601a12");
         ("documentNumber", VStr "42323235600");
         ("name", VStr "Joseph");
         ("age", VInt 32)].

(** test_validate_event_content_sucessful *)
Definition event_ok : pyval :=
  VDict [("eid", VStr "3e628a05-7a4a-4bf3-8770-084c11601a12");
         ("documentNumber", VStr "42323235600");
         ("name", VStr "Joseph");
         ("age", VInt 32);
         ("address",
          VDict [("street", VStr "St. Blue"); ("number", VInt 3);
                 ("mailAddress", VBool true)])].

End fixtures.

(** A schema with two object fields after an integer one, and a document
    whose second object is wrong: its [y] is a text where an integer is
    declared. *)
Module two_objects.

Definition object_of (field : string) : pyval :=
  VDict [("type", VStr "object");
         ("required", VList [VStr field]);
         ("properties", VDict [(field, VDict [("type", VStr "integer")])])].

Definition schema : pyval :=
  VDict [("required", VList [VStr "n"; VStr "a"; VStr "b"]);
         ("properties",
          VDict [("n", VDict [("type", VStr "integer")]);
                 ("a", object_of "x");
                 ("b", object_of "y")])].

Definition document : pyval :=
  VDict [("n", VInt 7);
         ("a", VDict [("x", VInt 1)]);
         ("b", VDict [("y", VStr "oops")])].

(** A field declared a text although its schema describes an object. *)
Definition text_object : pyval :=
  VDict [("type", VStr "string");
         ("required", VList [VStr "x"]);
         ("properties", VDict [("x", VDict [("type", VStr "integer")])])].

Definition text_schema : pyval :=
  VDict [("required", VList [VStr "a"; VStr "b"]);
         ("properties", VDict [("a", text_object); ("b", object_of "y")])].

Definition a : pyval := VDict [("x", VInt 1)].
Definition b : pyval := VDict [("y", VInt 2)].

(** What the method returns on [document], and what its recursive call on
    the field [key] of [document] returns: the validator is the one built
    with [document], the sub-schema is [schema["properties"][key]]. *)
Definition method_and_recursion (schema document : pyval) (key : string)
  : outcome bool * outcome bool :=
  let self := event_validator.Build_Validation document in
  (result (event_validator.validate_event_content self schema document),
   match result (event_validator.field_schema schema key), py_getitem document key with
   | Ret sub, Ret value =>
       result (event_validator.validate_event_content self sub value)
   | Raise e, _ | _, Raise e => Raise e
   end).

End two_objects.

(** A document whose only field is an empty mapping, under a schema that
    nests an object [a] inside the object [a]. *)
Module empty_nested.

Definition inner : pyval :=
  VDict [("type", VStr "object");
         ("required", VList [VStr "a"]);
         ("properties", VDict [("a", VDict [("type", VStr "object")])])].

Definition schema : pyval :=
  VDict [("required", VList [VStr "a"]);
         ("properties", VDict [("a", inner)])].

Definition document : pyval := VDict [("a", VDict [])].

End empty_nested.

(** ** The fixtures of tests/test_json_schema_to_hive.py *)

Module hive_fixtures.
Import json_schema_to_hive.

Definition create_query : Query := {| tb_name := "tb_user"; db_name := "db_people" |}.

Definition purpose : string := "An explanation about the purpose of this instance.".

Definition column (type : string) : pyval :=
  VDict [("type", VStr type); ("description", VStr purpose)].

(** The column parameters of test_create_table_full. *)
Definition col_params : pyval :=
  VDict [("eid", column "string");
         ("documentNumber", column "string");
         ("name", column "string");
         ("age", column "integer");
         ("address",
          VDict [("type", VStr "object");
                 ("description", VStr purpose);
                 ("properties",
                  VDict [("street", column "string");
                         ("number", column "integer");
                         ("mailAddress", column "boolean")])])].

Definition partition_params : pyval := VDict [("age", column "integer")].

Definition serde_properties : pyval :=
  VDict [("parquet.compress", VStr "SNAPPY"); ("serialization.format", VStr "1")].

Definition tbl_properties : pyval := VDict [("has_encrypted_data", VBool true)].

Definition row_format : string :=
  "org.apache.hadoop.hive.ql.io.parquet.serde.ParquetHiveSerDe".

(** The lines the test expects, a line break between them. *)
Definition expected_columns : string :=
  String.concat nl
    [ "eid varchar COMMENT 'An explanation about the purpose of this instance.',";
      "documentNumber varchar COMMENT 'An explanation about the purpose of this instance.',";
      "name varchar COMMENT 'An explanation about the purpose of this instance.',";
      "age tinyint COMMENT 'An explanation about the purpose of this instance.',";
      "address struct <street: varchar COMMENT 'An explanation about the purpose of this instance.',";
      "number: tinyint COMMENT 'An explanation about the purpose of this instance.',";
      "mailAddress: boolean COMMENT 'An explanation about the purpose of this instance.'> COMMENT 'An explanation about the purpose of this instance.'" ].

Definition expected_full : string :=
  String.concat nl
    [ "CREATE EXTERNAL TABLE IF NOT EXISTS db_people.tb_user";
      "(" +:+ expected_columns +:+ ")";
      "COMMENT 'The root schema comprises the entire JSON document.'";
      "PARTITIONED BY (age tinyint COMMENT 'An explanation about the purpose of this instance.')";
      "CLUSTERED BY (age) INTO 32 BUCKETS";
      "ROW FORMAT 'org.apache.hadoop.hive.ql.io.parquet.serde.ParquetHiveSerDe'";
      "STORED AS PARQUET";
      "WITH SERDEPROPERTIES ('parquet.compress' = 'SNAPPY','serialization.format' = '1')";
      "LOCATION 's3://iti-query-results/'";
      "TBLPROPERTIES ('has_encrypted_data' = 'True')" ].

(** [TestQuery.format_string]: [' '.join(input_str.strip().split())]. *)
Definition is_space (c : ascii) : bool :=
  let n := nat_of_ascii c in
  ((9 <=? n) && (n <=? 13) || (28 <=? n) && (n <=? 32))%nat.

Fixpoint split (s : string) (word : string) : list string :=
  match s with
  | EmptyString => if String.eqb word "" then [] else [word]
  | String c s' =>
      if is_space c then
        if String.eqb word "" then split s' "" else word :: split s' ""
      else split s' (word +:+ String c EmptyString)
  end.

Definition format_string (input_str : string) : string :=
  String.concat " " (split input_str "").

(** [query == create_table(...)] up to [format_string], as the tests
    compare. *)
Definition same_query (expected : string) (actual : M string) : Prop :=
  match result actual with
  | Ret query => format_string expected = format_string query
  | Raise _ => False
  end.

End hive_fixtures.

(** The schema of the tests as the one object of a store, and a filter on
    one of its five columns. *)
Module filter_example.
Import json_schema_to_hive.

Definition S : ref := {| ref_loc := 0; ref_path := [] |}.
Definition h : store := {[ 0 := fixtures.get_schema ]}.
Definition self : Schema := {| schema := S |}.
Definition after : store := fst (get_col_data self (Some S) (Some ["age"]) h).

(** The keys of [S["properties"]] in a store. *)
Definition property_names (h : store) : option (list string) :=
  match deref h S with
  | Some s =>
      match py_getitem s "properties" with
      | Ret (VDict props) => Some (map fst props)
      | _ => None
      end
  | None => None
  end.

End filter_example.

(** ** What the checks leave in the log *)

(** A check that answers: it returns a boolean and logs one record, at
    [INFO] when the answer is true and at [ERROR] when it is false. *)
Definition answers (m : M bool) : Prop :=
  exists (b : bool) (msg : message),
    m = ([(if b then INFO else ERROR, msg)], Ret b).

(** Every record of a log is an [INFO] record. *)
Definition only_info (l : list record) : Prop := Forall (fun r => fst r = INFO) l.

(** A validation whose rejection is explained: when it returns false the
    last record is an [ERROR] record, the only one; otherwise the log has
    no [ERROR] record. *)
Definition explained (m : M bool) : Prop :=
  match result m with
  | Ret false => exists l msg, logs m = l ++ [(ERROR, msg)] /\ only_info l
  | _ => only_info (logs m)
  end.

(** The same for a turn of the walk, and for the walk up to a field: it
    logs nothing when the walk goes on. *)
Definition turn_explained (m : M (unit + bool)) : Prop :=
  match result m with
  | Ret (inl _) => logs m = []
  | Ret (inr false) => exists l msg, logs m = l ++ [(ERROR, msg)] /\ only_info l
  | _ => only_info (logs m)
  end.

(** ** The columns of a table *)

Section ColumnsSide.
Import json_schema_to_hive.

(** A column: a name, a description and either the name of a scalar type
    or, for an object, the columns inside it. *)
Inductive column : Type :=
| Scalar (name type : string) (description : pyval)
| Object (name : string) (description : pyval) (columns : list column).

(** The columns a column mapping ([col_params]) holds, when each of its
    entries has a text for [type], a [description] and, if the type is
    [object], a column mapping for [properties]. *)
Fixpoint parse_columns (col_dict : pyval) : option (list column) :=
  match col_dict with
  | VDict cols =>
      (fix each (cols : list (string * pyval)) : option (list column) :=
         match cols with
         | [] => Some []
         | (key, value) :: cols' =>
             match
               match value with
               | VDict fields =>
                   match dict_get "type" fields, dict_get "description" fields with
                   | Some (VStr type), Some description =>
                       if String.eqb type "object" then
                         option_map (Object key description)
                           ((fix properties (fs : list (string * pyval)) :=
                               match fs with
                               | [] => None
                               | (k, x) :: fs' =>
                                   if String.eqb "properties" k then parse_columns x
                                   else properties fs'
                               end) fields)
                       else Some (Scalar key type description)
                   | _, _ => None
                   end
               | _ => None
               end, each cols'
             with
             | Some c, Some cs => Some (c :: cs)
             | _, _ => None
             end
         end) cols
  | _ => None
  end.

(** One entry of a column mapping. *)
Definition parse_column (key : string) (value : pyval) : option column :=
  match value with
  | VDict fields =>
      match dict_get "type" fields, dict_get "description" fields with
      | Some (VStr type), Some description =>
          if String.eqb type "object" then
            match dict_get "properties" fields with
            | Some props => option_map (Object key description) (parse_columns props)
            | None => None
            end
          else Some (Scalar key type description)
      | _, _ => None
      end
  | _ => None
  end.

(** [ COMMENT '<description>'], left out when the description is falsy. *)
Definition comment_text (description : pyval) : string :=
  if py_truthy description then " COMMENT '" +:+ py_str description +:+ "'" else "".

(** A column as the statement shows it: [name<separator> keyword], an
    object's own columns between [<] and [>] with [:] for separator, and
    the comment. A type name TYPE_MAPPING does not have shows as [None]. *)
Fixpoint column_text (separator : string) (c : column) : string :=
  match c with
  | Scalar name type description =>
      (name +:+ separator +:+ " " +:+ fmt_type (assoc type TYPE_MAPPING))
      +:+ comment_text description
  | Object name description columns =>
      ((name +:+ separator +:+ " " +:+ "struct")
       +:+ " <" +:+ String.concat ("," +:+ nl) (map (column_text ":") columns) +:+ ">")
      +:+ comment_text description
  end.

(** The columns joined by a comma and a line break. *)
Definition columns_text (separator : string) (cs : list column) : string :=
  String.concat ("," +:+ nl) (map (column_text separator) cs).

(** The records the columns cost: one error for each type name that
    TYPE_MAPPING does not have. *)
Fixpoint type_errors (c : column) : list record :=
  match c with
  | Scalar _ type _ =>
      match assoc type TYPE_MAPPING with
      | Some _ => []
      | None => [(ERROR, CustomTypeNotFound (VStr type))]
      end
  | Object _ _ columns => flat_map type_errors columns
  end.

(** The columns a schema declares under [properties], when each property
    has a text for [type] and a [description], and each object property is
    a schema of this kind itself. *)
Fixpoint schema_columns (schema : pyval) : option (list column) :=
  match schema with
  | VDict fields =>
      (fix properties (fs : list (string * pyval)) : option (list column) :=
         match fs with
         | [] => None
         | (k, x) :: fs' =>
             if String.eqb "properties" k then
               match x with
               | VDict props =>
                   (fix each (props : list (string * pyval)) : option (list column) :=
                      match props with
                      | [] => Some []
                      | (key, value) :: props' =>
                          match
                            match value with
                            | VDict vfields =>
                                match dict_get "type" vfields,
                                      dict_get "description" vfields with
                                | Some (VStr type), Some description =>
                                    if String.eqb type "object" then
                                      option_map (Object key description)
                                        (schema_columns value)
                                    else Some (Scalar key type description)
                                | _, _ => None
                                end
                            | _ => None
                            end, each props'
                          with
                          | Some c, Some cs => Some (c :: cs)
                          | _, _ => None
                          end
                      end) props
               | _ => None
               end
             else properties fs'
         end) fields
  | _ => None
  end.

(** One property of a schema. *)
Definition schema_column (key : string) (value : pyval) : option column :=
  match value with
  | VDict vfields =>
      match dict_get "type" vfields, dict_get "description" vfields with
      | Some (VStr type), Some description =>
          if String.eqb type "object" then
            option_map (Object key description) (schema_columns value)
          else Some (Scalar key type description)
      | _, _ => None
      end
  | _ => None
  end.

(** All of a list, when each element is there. *)
Fixpoint collect {A} (xs : list (option A)) : option (list A) :=
  match xs with
  | [] => Some []
  | x :: xs' =>
      match x, collect xs' with
      | Some a, Some rest => Some (a :: rest)
      | _, _ => None
      end
  end.

(** The entry of a column in a column mapping, and the mapping of the
    columns [cs]. *)
Fixpoint column_entry (c : column) : string * pyval :=
  match c with
  | Scalar name type description =>
      (name, VDict [("type", VStr type); ("description", description)])
  | Object name description columns =>
      (name, VDict [("type", VStr "object"); ("description", description);
                    ("properties", VDict (map column_entry columns))])
  end.

Definition col_dict_of (cs : list column) : pyval := VDict (map column_entry cs).

(** The records of a call of [get_col_data] without a filter: its start,
    the calls for the object columns, its end. *)
Fixpoint column_log (c : column) : list record :=
  match c with
  | Scalar _ _ _ => []
  | Object _ _ columns =>
      (INFO, ColDataStart) :: flat_map column_log columns ++ [(INFO, ColDataEnd)]
  end.

Definition col_data_log (cs : list column) : list record :=
  (INFO, ColDataStart) :: flat_map column_log cs ++ [(INFO, ColDataEnd)].

(** The statement [handler()] builds for a schema that declares the
    columns [cs] and has the given description. *)
Definition handler_statement (cs : list column) (description : pyval) : string :=
  fold_left String.append
    [ clause_text (py_truthy (col_dict_of cs)) ("(" +:+ columns_text "" cs +:+ ")");
      clause_text (py_truthy description) ("COMMENT '" +:+ py_str description +:+ "'");
      clause_text (py_truthy (col_dict_of cs))
        ("PARTITIONED BY (" +:+ columns_text "" cs +:+ ")");
      nl +:+ "CLUSTERED BY (age) INTO 32 BUCKETS";
      nl +:+ "ROW FORMAT 'org.apache.hadoop.hive.ql.io.parquet.serde.ParquetHiveSerDe'";
      nl +:+ "STORED AS PARQUET";
      nl +:+ "WITH SERDEPROPERTIES ('parquet.compress' = 'SNAPPY','serialization.format' = '1')";
      nl +:+ "LOCATION 's3://iti-query-results/'";
      nl +:+ "TBLPROPERTIES ('has_encrypted_data' = 'True')" ]
    "CREATE EXTERNAL TABLE IF NOT EXISTS db_people.tb_user".

End ColumnsSide.

(** ** The events the validator's handler lets through *)

(** The event passes the checks of [handler] against the schema file: it
    is a mapping that is not empty, the file holds a truthy schema, and
    [validate_event_content] returns true. *)
Definition accepted (w : event_validator_handler.world) (event : pyval) : Prop :=
  (exists field fields, event = VDict (field :: fields))
  /\ exists schema,
       event_validator_handler.file w = FileHolds schema /\ py_truthy schema = true
       /\ result (event_validator.validate_event_content
                    {| event_validator.event := event |} schema VNone) = Ret true.

(** ** Values for the statements about the columns and the entry points *)

Module entry_fixtures.

(** The columns the schema of the tests declares. *)
Definition declared : list column :=
  [ Scalar "eid" "string" (VStr hive_fixtures.purpose);
    Scalar "documentNumber" "string" (VStr hive_fixtures.purpose);
    Scalar "name" "string" (VStr hive_fixtures.purpose);
    Scalar "age" "integer" (VStr hive_fixtures.purpose);
    Object "address" (VStr hive_fixtures.purpose)
      [ Scalar "street" "string" (VStr hive_fixtures.purpose);
        Scalar "number" "integer" (VStr hive_fixtures.purpose);
        Scalar "mailAddress" "boolean" (VStr hive_fixtures.purpose) ] ].

(** An SQS that knows the queue and takes the message. *)
Definition sqs : event_validator_handler.sqs_client :=
  {| event_validator_handler.get_queue_url :=
       fun name => Ret (VDict [("QueueUrl", VStr ("https://sqs/" +:+ name))]);
     event_validator_handler.send_message :=
       fun _ _ =>
         Ret (VDict [("ResponseMetadata", VDict [("HTTPStatusCode", VInt 200)])]) |}.

(** A process that has made no logger yet, without a [logs] folder. *)
Definition fresh : logger_state :=
  {| logs_folder := false; logger_level := 0; logger_handlers := [] |}.

Definition validator_world : event_validator_handler.world :=
  {| event_validator_handler.today := "20240131";
     event_validator_handler.logger := fresh;
     event_validator_handler.file := FileHolds fixtures.get_schema;
     event_validator_handler.sqs := sqs |}.

Definition validator_world_without_file : event_validator_handler.world :=
  {| event_validator_handler.today := "20240131";
     event_validator_handler.logger := fresh;
     event_validator_handler.file := FileNotFound;
     event_validator_handler.sqs := sqs |}.

(** A schema file that is no UTF-8 text. *)
Definition validator_world_unreadable : event_validator_handler.world :=
  {| event_validator_handler.today := "20240131";
     event_validator_handler.logger := fresh;
     event_validator_handler.file := Unreadable UnicodeDecodeError;
     event_validator_handler.sqs := sqs |}.

(** The module as the file leaves it: [_ATHENA_CLIENT] is [None]. *)
Definition hive_world : json_schema_to_hive_handler.world :=
  {| json_schema_to_hive_handler.today := "20240131";
     json_schema_to_hive_handler.logger := fresh;
     json_schema_to_hive_handler.file := FileHolds fixtures.get_schema;
     json_schema_to_hive_handler._ATHENA_CLIENT := None |}.

Definition hive_world_without_file : json_schema_to_hive_handler.world :=
  {| json_schema_to_hive_handler.today := "20240131";
     json_schema_to_hive_handler.logger := fresh;
     json_schema_to_hive_handler.file := FileNotFound;
     json_schema_to_hive_handler._ATHENA_CLIENT := None |}.

Definition hive_world_unreadable : json_schema_to_hive_handler.world :=
  {| json_schema_to_hive_handler.today := "20240131";
     json_schema_to_hive_handler.logger := fresh;
     json_schema_to_hive_handler.file := Unreadable UnicodeDecodeError;
     json_schema_to_hive_handler._ATHENA_CLIENT := None |}.

(** The address of the tests' event. *)
Definition address : pyval :=
  VDict [("street", VStr "St. Blue"); ("number", VInt 3); ("mailAddress", VBool true)].

End entry_fixtures.

(** * Facts *)

(** ** The effect *)

Lemma M_eta {A} (m : M A) : (logs m, result m) = m.
Proof. destruct m; reflexivity. Qed.

Section Effect.
Context {A B : Type}.

Lemma bind_ret (a : A) (f : A -> M B) : bind (ret a) f = f a.
Proof. unfold bind, ret. cbn. apply M_eta. Qed.

Lemma bind_lift_ret (a : A) (f : A -> M B) : bind (lift (Ret a)) f = f a.
Proof. apply bind_ret. Qed.

Lemma bind_lift_raise (e : exc) (f : A -> M B) :
  bind (lift (Raise e)) f = raise e.
Proof. reflexivity. Qed.

Lemma bind_raise (e : exc) (f : A -> M B) : bind (raise e) f = raise e.
Proof. reflexivity. Qed.

Lemma bind_ext (m : M A) (f g : A -> M B) :
  (forall l a, m = (l, Ret a) -> f a = g a) -> bind m f = bind m g.
Proof.
  intros H. destruct m as [l [a | e]]; cbn; [| reflexivity].
  rewrite (H l a eq_refl). reflexivity.
Qed.

Lemma bind_returns (m : M A) (f : A -> M B) l a :
  m = (l, Ret a) -> bind m f = (l ++ logs (f a), result (f a)).
Proof. intros ->. reflexivity. Qed.

End Effect.

Lemma bind_log {B} lv msg (f : unit -> M B) :
  bind (log lv msg) f = ((lv, msg) :: logs (f tt), result (f tt)).
Proof. reflexivity. Qed.

Lemma for_each_ext {A S R} (xs : list A) (s : S) (f g : A -> S -> M (S + R)) :
  (forall x s', In x xs -> f x s' = g x s') ->
  for_each xs s f = for_each xs s g.
Proof.
  revert s. induction xs as [| x xs IH]; intros s H; cbn; [reflexivity |].
  rewrite (H x s (or_introl eq_refl)).
  apply bind_ext. intros _ [s' | r] _; [| reflexivity].
  apply IH. intros y s'' Hy. apply H. right. exact Hy.
Qed.

(** ** Values *)

Lemma dict_get_depth k d x :
  dict_get k d = Some x -> depth x < depth (VDict d).
Proof.
  cbn [depth]. unfold list_max.
  induction d as [| [k' v] d IH]; cbn; [discriminate |].
  destruct (String.eqb k k').
  - intros [= ->]. lia.
  - intros H. specialize (IH H). lia.
Qed.

Lemma py_getitem_depth v k x :
  py_getitem v k = Ret x -> depth x < depth v.
Proof.
  destruct v; cbn; try discriminate.
  destruct (dict_get k d) eqn:E; [| discriminate].
  intros [= <-]. exact (dict_get_depth _ _ _ E).
Qed.

Lemma lift_returns {A} (o : outcome A) l a : lift o = (l, Ret a) -> o = Ret a /\ l = [].
Proof. unfold lift. intros [= <- ->]. split; reflexivity. Qed.

(** ** The validator: the recursion is well defined *)

Section ValidatorRecursion.
Import event_validator.

Lemma field_schema_depth schema key l sub :
  field_schema schema key = (l, Ret sub) -> depth sub < depth schema.
Proof.
  unfold field_schema.
  destruct (py_getitem schema "properties") as [props | e] eqn:E1; cbn; [| discriminate].
  destruct (py_getitem props key) as [x | e] eqn:E2; cbn; [| discriminate].
  intros [= <- <-].
  apply py_getitem_depth in E1, E2. lia.
Qed.

Lemma validate_event_content_body_ext recur1 recur2 self schema event :
  (forall sub value, depth sub < depth schema -> recur1 sub value = recur2 sub value) ->
  validate_event_content_body recur1 self schema event
  = validate_event_content_body recur2 self schema event.
Proof.
  intros H. unfold validate_event_content_body.
  apply bind_ext. intros _ ok _. destruct (negb ok); [reflexivity |].
  apply bind_ext. intros _ items _.
  f_equal. apply for_each_ext. intros [key value] [] _.
  unfold check_field.
  apply bind_ext. intros l sub Hsub.
  apply bind_ext. intros _ declared _.
  apply bind_ext. intros _ [ty |] _; [| reflexivity].
  destruct (negb (isinstance value ty)); [reflexivity |].
  destruct (isinstance value Tdict); [| reflexivity].
  rewrite (H sub value (field_schema_depth _ _ _ _ Hsub)). reflexivity.
Qed.

Lemma validate_event_content_fuel_irrelevant n m self schema event :
  depth schema < n -> depth schema < m ->
  validate_event_content_fuel n self schema event
  = validate_event_content_fuel m self schema event.
Proof.
  revert m schema event.
  induction n as [| n IH]; intros [| m] schema event Hn Hm; try lia.
  cbn [validate_event_content_fuel].
  apply validate_event_content_body_ext.
  intros sub value Hsub. apply IH; lia.
Qed.

(** The method satisfies the equation its source text states. *)
Lemma validate_event_content_unfold self schema event :
  validate_event_content self schema event
  = validate_event_content_body (validate_event_content self) self schema event.
Proof.
  unfold validate_event_content at 1. cbn [validate_event_content_fuel].
  apply validate_event_content_body_ext.
  intros sub value Hsub. unfold validate_event_content.
  apply validate_event_content_fuel_irrelevant; lia.
Qed.

End ValidatorRecursion.

(** ** compare_event_fields *)

Section CompareEventFields.
Import event_validator.

Lemma set_truthy_false (s : gset hkey) : set_truthy s = false <-> s = ∅.
Proof.
  unfold set_truthy. destruct (bool_decide (s = ∅)) eqn:E; cbn.
  - apply bool_decide_eq_true in E. tauto.
  - apply bool_decide_eq_false in E. split; [discriminate | tauto].
Qed.

Lemma set_truthy_true (s : gset hkey) : set_truthy s = true <-> s <> ∅.
Proof.
  rewrite <- set_truthy_false. destruct (set_truthy s); split; congruence.
Qed.

Lemma differences_empty (R E : gset hkey) : R ∖ E = ∅ -> E ∖ R = ∅ -> R = E.
Proof.
  intros H1 H2. apply set_eq. intros x. split; intros Hx.
  - destruct (decide (x ∈ E)) as [| Hn]; [assumption |].
    assert (x ∈ R ∖ E) as Hd by (apply elem_of_difference; tauto).
    rewrite H1 in Hd. set_solver.
  - destruct (decide (x ∈ R)) as [| Hn]; [assumption |].
    assert (x ∈ E ∖ R) as Hd by (apply elem_of_difference; tauto).
    rewrite H2 in Hd. set_solver.
Qed.

(** The method once the schema has a required list and the document is a
    mapping: three exits, tried in this order. *)
Lemma compare_event_fields_cases self schema event required R items :
  py_getitem schema "required" = Ret required ->
  py_set required = Ret R ->
  event_or_own self event = VDict items ->
  compare_event_fields self schema event =
    if set_truthy (R ∖ field_set items) then
      ([(ERROR, MissingRequiredFields (R ∖ field_set items))], Ret false)
    else if set_truthy (field_set items ∖ R) then
      ([(ERROR, UnregisteredFields (field_set items ∖ R))], Ret false)
    else ([(INFO, FieldsRegistered)], Ret true).
Proof.
  intros H1 H2 H3. unfold compare_event_fields.
  rewrite H3, H1. cbn. rewrite H2. cbn. fold (field_set items).
  destruct (set_truthy (R ∖ field_set items)); [reflexivity |].
  destruct (set_truthy (field_set items ∖ R)); reflexivity.
Qed.

(** C5. Let R be the schema's required set and E the field set of the
    document compared (the event given, or the validator's own event when
    none is given). [compare_event_fields] returns a boolean, and true
    exactly when R = E. When R - E is not empty it fails and its one record
    reports R - E, whether or not E - R is empty too: the missing fields
    are looked at first. When only E - R is not empty it fails reporting
    E - R. *)
Theorem compare_event_fields_closed_world
    (self : Validation) (schema event required : pyval)
    (R : gset hkey) (items : list (string * pyval)) :
  py_getitem schema "required" = Ret required ->
  py_set required = Ret R ->
  event_or_own self event = VDict items ->
  (result (compare_event_fields self schema event) = Ret true <-> R = field_set items)
  /\ (exists b, result (compare_event_fields self schema event) = Ret b)
  /\ (R ∖ field_set items <> ∅ ->
      compare_event_fields self schema event
      = ([(ERROR, MissingRequiredFields (R ∖ field_set items))], Ret false))
  /\ (R ∖ field_set items = ∅ -> field_set items ∖ R <> ∅ ->
      compare_event_fields self schema event
      = ([(ERROR, UnregisteredFields (field_set items ∖ R))], Ret false)).
Proof.
  intros H1 H2 H3.
  rewrite (compare_event_fields_cases _ _ _ _ _ _ H1 H2 H3).
  destruct (set_truthy (R ∖ field_set items)) eqn:Em.
  - apply set_truthy_true in Em.
    split; [| split; [eexists; reflexivity | split; [reflexivity | tauto]]].
    cbn. split; [discriminate |]. intros ->. exfalso. apply Em.
    apply difference_diag_L.
  - apply set_truthy_false in Em.
    destruct (set_truthy (field_set items ∖ R)) eqn:Ee.
    + apply set_truthy_true in Ee.
      split; [| split; [eexists; reflexivity | split; [tauto | reflexivity]]].
      cbn. split; [discriminate |]. intros ->. exfalso. apply Ee.
      apply difference_diag_L.
    + apply set_truthy_false in Ee.
      split; [| split; [eexists; reflexivity | split; [tauto | tauto]]].
      cbn. split; [intros _ | reflexivity]. apply differences_empty; assumption.
Qed.

End CompareEventFields.

Lemma compare_event_fields_closed_world_witness :
  event_validator.compare_event_fields
    (event_validator.Build_Validation fixtures.event_without_address)
    fixtures.get_schema VNone
  = ([(ERROR, MissingRequiredFields {[HStr "address"]})], Ret false).
Proof.
  destruct (compare_event_fields_closed_world
              (event_validator.Build_Validation fixtures.event_without_address)
              fixtures.get_schema VNone
              (VList [VStr "eid"; VStr "documentNumber"; VStr "name"; VStr "age";
                      VStr "address"])
              (list_to_set [HStr "eid"; HStr "documentNumber"; HStr "name";
                            HStr "age"; HStr "address"])
              [("eid", VStr "3e628a05-7a4a-4bf3-8770-084c11601a12");
               ("documentNumber", VStr "42323235600");
               ("name", VStr "Joseph");
               ("age", VInt 32)]
              eq_refl eq_refl eq_refl) as (_ & _ & Hmissing & _).
  rewrite Hmissing.
  - vm_compute. reflexivity.
  - intros H. vm_compute in H. discriminate H.
Defined.

(** ** _get_custom_type *)

Lemma get_custom_type_empty_override {T} (mapping : list (string * T)) custom_type :
  get_custom_type mapping custom_type (Some []) = get_custom_type mapping custom_type None.
Proof. reflexivity. Qed.

Lemma get_custom_type_known {T} (mapping : list (string * T)) override name t :
  assoc name mapping = Some t ->
  override = None \/ override = Some [] ->
  get_custom_type mapping (VStr name) override = ret (Some t).
Proof.
  intros H [-> | ->]; unfold get_custom_type, mapping_getitem; cbn; rewrite H; reflexivity.
Qed.

(** C10. In both files [_get_custom_type(t, {})] is [_get_custom_type(t)]:
    an empty override is falsy, so the file's TYPE_MAPPING is used in its
    place. Under an empty override each of the four type names therefore
    still resolves, silently, to its entry of TYPE_MAPPING. *)
Theorem get_custom_type_empty_override_is_default
    (v : event_validator.Validation) (q : json_schema_to_hive.Query) (t : pyval) :
  event_validator._get_custom_type v t (Some [])
  = event_validator._get_custom_type v t None
  /\ json_schema_to_hive._get_custom_type q t (Some [])
     = json_schema_to_hive._get_custom_type q t None
  /\ map (fun name => event_validator._get_custom_type v (VStr name) (Some []))
         ["string"; "integer"; "object"; "boolean"]
     = map (fun cls => ret (Some cls)) [Tstr; Tint; Tdict; Tbool]
  /\ map (fun name => json_schema_to_hive._get_custom_type q (VStr name) (Some []))
         ["string"; "integer"; "object"; "boolean"]
     = map (fun kw => ret (Some kw)) ["varchar"; "tinyint"; "struct"; "boolean"].
Proof.
  split; [apply get_custom_type_empty_override |].
  split; [apply get_custom_type_empty_override |].
  split; cbn [map];
    unfold event_validator._get_custom_type, json_schema_to_hive._get_custom_type;
    repeat (rewrite (get_custom_type_known _ (Some []) _ _ eq_refl (or_intror eq_refl)));
    reflexivity.
Qed.

(** ** validate_event_content *)

Lemma bind_assoc {A B C} (m : M A) (f : A -> M B) (g : B -> M C) :
  bind (bind m f) g = bind m (fun a => bind (f a) g).
Proof.
  destruct m as [l [a | e]]; cbn; [| reflexivity].
  destruct (f a) as [l' [b | e]]; cbn; [| reflexivity].
  rewrite app_assoc. reflexivity.
Qed.

Lemma bind_ret_r {A} (m : M A) : bind m ret = m.
Proof.
  destruct m as [l [a | e]]; cbn; [| reflexivity].
  rewrite app_nil_r. reflexivity.
Qed.

Lemma for_each_skip {A S R} (pre rest : list A) (s : S) (body : A -> S -> M (S + R)) :
  (forall x, In x pre -> body x s = ret (inl s)) ->
  for_each (pre ++ rest) s body = for_each rest s body.
Proof.
  induction pre as [| x pre IH]; intros H; cbn; [reflexivity |].
  rewrite (H x (or_introl eq_refl)), bind_ret.
  apply IH. intros y Hy. apply H. right. exact Hy.
Qed.

Section ValidateEventContent.
Import event_validator.

Lemma event_or_own_falsy self event :
  py_truthy event = false -> event_or_own self event = event_validator.event self.
Proof. unfold event_or_own. intros ->. reflexivity. Qed.

Lemma event_or_own_truthy self event :
  py_truthy event = true -> event_or_own self event = event.
Proof. unfold event_or_own. intros ->. reflexivity. Qed.

Lemma event_or_own_own self :
  event_or_own self (event_validator.event self) = event_validator.event self.
Proof. unfold event_or_own. destruct (py_truthy _); reflexivity. Qed.

Lemma event_or_own_idem self event :
  event_or_own self (event_or_own self event) = event_or_own self event.
Proof.
  destruct (py_truthy event) eqn:E.
  - rewrite !(event_or_own_truthy _ _ E). reflexivity.
  - rewrite (event_or_own_falsy _ _ E). apply event_or_own_own.
Qed.

Lemma compare_event_fields_own self schema event :
  compare_event_fields self schema event
  = compare_event_fields self schema (event_or_own self event).
Proof. unfold compare_event_fields. rewrite event_or_own_idem. reflexivity. Qed.

Lemma validate_event_content_own self schema event :
  validate_event_content self schema event
  = validate_event_content self schema (event_or_own self event).
Proof.
  unfold validate_event_content. cbn [validate_event_content_fuel].
  unfold validate_event_content_body. rewrite event_or_own_idem. reflexivity.
Qed.

(** When the field comparison passes, it logs its one record. *)
Lemma compare_event_fields_true self schema event :
  result (compare_event_fields self schema event) = Ret true ->
  compare_event_fields self schema event = ([(INFO, FieldsRegistered)], Ret true).
Proof.
  unfold compare_event_fields.
  destruct (py_getitem schema "required") as [r | e]; cbn.
  - destruct (py_set r) as [s | e]; cbn;
      [| destruct (is_KeyError e); cbn; discriminate].
    destruct (py_keys (event_or_own self event)) as [keys | e]; cbn; [| discriminate].
    destruct (set_truthy _); cbn; [discriminate |].
    destruct (set_truthy _); cbn; [discriminate | reflexivity].
  - destruct (is_KeyError e); cbn; discriminate.
Qed.

Lemma declared_class_resolves self schema key cls :
  declared_class schema key = Some cls ->
  exists sub declared,
    field_schema schema key = ret sub
    /\ py_getitem sub "type" = Ret declared
    /\ _get_custom_type self declared None = ret (Some cls).
Proof.
  unfold declared_class, field_schema.
  destruct (py_getitem schema "properties") as [props | e]; [| discriminate].
  rewrite bind_lift_ret.
  destruct (py_getitem props key) as [sub | e]; [| discriminate].
  destruct (py_getitem sub "type") as [[| | | t | |] | e] eqn:Et; try discriminate.
  intros H. exists sub, (VStr t). split; [reflexivity | split; [exact Et |]].
  unfold _get_custom_type. apply get_custom_type_known; auto.
Qed.

Lemma check_field_scalar recur self schema field :
  scalar_field_passes schema field = true ->
  check_field recur self schema field tt = ret (inl tt).
Proof.
  destruct field as [key value]. unfold scalar_field_passes. cbn [fst snd].
  destruct (declared_class schema key) as [cls |] eqn:E; [| discriminate].
  destruct (declared_class_resolves self _ _ _ E) as (sub & declared & H1 & H2 & H3).
  intros [Hi Hd]%andb_true_iff. apply negb_true_iff in Hd.
  unfold check_field. rewrite H1, bind_ret, H2, bind_lift_ret, H3, bind_ret.
  rewrite Hi, Hd. reflexivity.
Qed.

Lemma check_field_nested recur self schema key value sub :
  field_schema schema key = ret sub ->
  declared_class schema key = Some Tdict ->
  check_field recur self schema (key, VDict value) tt
  = (r <- recur sub (VDict value) ;; ret (inr r)).
Proof.
  intros H1 E.
  destruct (declared_class_resolves self _ _ _ E) as (sub' & declared & H1' & H2 & H3).
  rewrite H1 in H1'. injection H1' as <-.
  unfold check_field. rewrite H1, bind_ret, H2, bind_lift_ret, H3, bind_ret.
  reflexivity.
Qed.

(** The walk up to the first field that is a mapping: the fields before it
    pass silently, the method returns what the recursive call returns, and
    the fields after it are never looked at. *)
Lemma validate_event_content_body_first_nested
    recur self schema pre key value post sub :
  result (compare_event_fields self schema (VDict (pre ++ (key, VDict value) :: post)))
  = Ret true ->
  forallb (scalar_field_passes schema) pre = true ->
  field_schema schema key = ret sub ->
  declared_class schema key = Some Tdict ->
  validate_event_content_body recur self schema
    (VDict (pre ++ (key, VDict value) :: post))
  = ((INFO, FieldsRegistered) :: logs (recur sub (VDict value)),
     result (recur sub (VDict value))).
Proof.
  intros Hc Hpre Hsub Hcls.
  unfold validate_event_content_body.
  assert (event_or_own self (VDict (pre ++ (key, VDict value) :: post))
          = VDict (pre ++ (key, VDict value) :: post)) as ->.
  { apply event_or_own_truthy. destruct pre; reflexivity. }
  rewrite (compare_event_fields_true _ _ _ Hc).
  cbn [bind negb logs result fst snd py_items lift].
  rewrite for_each_skip.
  - cbn [for_each]. rewrite (check_field_nested _ _ _ _ _ _ Hsub Hcls).
    destruct (recur sub (VDict value)) as [l [r | e]]; cbn;
      rewrite ?app_nil_r; reflexivity.
  - intros x Hx. apply check_field_scalar.
    rewrite forallb_forall in Hpre. apply Hpre. exact Hx.
Qed.

(** The three ways [compare_event_fields] ends. *)
Lemma compare_event_fields_shape self schema event :
  (exists msg, compare_event_fields self schema event = ([(ERROR, msg)], Ret false))
  \/ compare_event_fields self schema event = ([(INFO, FieldsRegistered)], Ret true)
  \/ (exists e, compare_event_fields self schema event = ([], Raise e)).
Proof.
  unfold compare_event_fields.
  destruct (py_getitem schema "required") as [r | e]; cbn.
  - destruct (py_set r) as [s | e]; cbn.
    + destruct (py_keys (event_or_own self event)) as [keys | e]; cbn;
        [| right; right; eexists; reflexivity].
      destruct (set_truthy _); cbn; [left; eexists; reflexivity |].
      destruct (set_truthy _); cbn; [left; eexists; reflexivity | right; left; reflexivity].
    + destruct (is_KeyError e); cbn;
        [left; eexists; reflexivity | right; right; eexists; reflexivity].
  - destruct (is_KeyError e); cbn;
      [left; eexists; reflexivity | right; right; eexists; reflexivity].
Qed.

(** What a passed comparison says of the schema and the document. *)
Lemma compare_event_fields_accepts self schema event :
  result (compare_event_fields self schema event) = Ret true ->
  exists required R items,
    py_getitem schema "required" = Ret required
    /\ py_set required = Ret R
    /\ event_or_own self event = VDict items
    /\ R = field_set items.
Proof.
  unfold compare_event_fields.
  destruct (py_getitem schema "required") as [r | e] eqn:Er; cbn;
    [| destruct (is_KeyError e); cbn; discriminate].
  destruct (py_set r) as [R | e] eqn:ER; cbn;
    [| destruct (is_KeyError e); cbn; discriminate].
  destruct (event_or_own self event) as [| | | | | items] eqn:Ee; cbn; try discriminate.
  fold (field_set items).
  destruct (set_truthy (R ∖ field_set items)) eqn:E1; cbn; [discriminate |].
  destruct (set_truthy (field_set items ∖ R)) eqn:E2; cbn; [discriminate |].
  intros _. exists r, R, items.
  split; [reflexivity |]. split; [exact ER |]. split; [reflexivity |].
  apply differences_empty; apply set_truthy_false; assumption.
Qed.

(** A field that is no mapping and does not pass stops the walk: the turn
    returns false or raises. *)
Lemma check_field_flat_fails recur self schema key value :
  isinstance value Tdict = false ->
  scalar_field_passes schema (key, value) = false ->
  result (check_field recur self schema (key, value) tt) = Ret (inr false)
  \/ exists e, result (check_field recur self schema (key, value) tt) = Raise e.
Proof.
  intros Hd. unfold scalar_field_passes, declared_class, check_field, field_schema.
  cbn [fst snd]. rewrite bind_assoc.
  destruct (py_getitem schema "properties") as [props | e];
    [rewrite bind_lift_ret | intros _; right; eexists; reflexivity].
  destruct (py_getitem props key) as [sub | e];
    [rewrite bind_lift_ret | intros _; right; eexists; reflexivity].
  destruct (py_getitem sub "type") as [declared | e];
    [rewrite bind_lift_ret | intros _; right; eexists; reflexivity].
  unfold _get_custom_type, get_custom_type, mapping_getitem.
  destruct declared as [| b | n | t | l | d];
    try (intros _; left; reflexivity); try (intros _; right; eexists; reflexivity).
  cbn [py_hash].
  destruct (assoc t TYPE_MAPPING) as [cls |]; [| intros _; left; reflexivity].
  rewrite Hd, andb_true_r. intros Hi.
  left. cbn. rewrite Hi. reflexivity.
Qed.

Lemma flat_walk recur self schema items :
  forallb (fun field => negb (isinstance (snd field) Tdict)) items = true ->
  if forallb (scalar_field_passes schema) items then
    for_each items tt (check_field recur self schema) = ret (inl tt)
  else
    result (for_each items tt (check_field recur self schema)) = Ret (inr false)
    \/ exists e, result (for_each items tt (check_field recur self schema)) = Raise e.
Proof.
  induction items as [| [key value] items IH]; cbn [forallb for_each]; [reflexivity |].
  intros [Hv Hitems]%andb_true_iff. cbn [snd] in Hv. apply negb_true_iff in Hv.
  specialize (IH Hitems).
  destruct (scalar_field_passes schema (key, value)) eqn:Ep; cbn [andb].
  - rewrite (check_field_scalar recur self _ _ Ep), bind_ret.
    exact IH.
  - destruct (check_field_flat_fails recur self schema key value Hv Ep) as [H | [e H]];
      destruct (check_field recur self schema (key, value) tt) as [l [c | e']];
      cbn in H |- *; try discriminate.
    + injection H as ->. left. reflexivity.
    + right. eexists. reflexivity.
Qed.

Lemma flat_document_validates self schema event items :
  event_or_own self event = VDict items ->
  forallb (fun field => negb (isinstance (snd field) Tdict)) items = true ->
  (result (validate_event_content self schema event) = Ret true
   <-> result (compare_event_fields self schema event) = Ret true
       /\ forallb (scalar_field_passes schema) items = true)
  /\ (result (validate_event_content self schema event) = Ret true ->
      validate_event_content self schema event
      = ([(INFO, FieldsRegistered); (INFO, ContentValidated)], Ret true)).
Proof.
  intros He Hflat.
  rewrite validate_event_content_unfold.
  pose proof (flat_walk (validate_event_content self) self schema items Hflat) as Hw.
  assert (validate_event_content_body (validate_event_content self) self schema event
          = (ok <- compare_event_fields self schema event ;;
             if negb ok then ret false
             else
               looped <- for_each items tt
                           (check_field (validate_event_content self) self schema) ;;
               match looped with
               | inr r => ret r
               | inl _ => log INFO ContentValidated ;; ret true
               end)) as ->.
  { unfold validate_event_content_body.
    rewrite <- (compare_event_fields_own self schema event), He.
    cbn [py_items]. apply bind_ext. intros _ ok _.
    destruct (negb ok); [reflexivity |]. rewrite bind_lift_ret. reflexivity. }
  destruct (compare_event_fields_shape self schema event) as [[msg Hc] | [Hc | [e Hc]]];
    rewrite Hc; cbn [bind negb logs result fst snd ret].
  - split; [split; [discriminate | intros [[=] _]] | discriminate].
  - destruct (forallb (scalar_field_passes schema) items).
    + rewrite Hw. cbn. split; [split; [auto | reflexivity] | reflexivity].
    + destruct Hw as [Hw | [e Hw]];
        destruct (for_each items tt _) as [l [[[] | r] | e']]; cbn in Hw |- *;
        try discriminate.
      * injection Hw as ->.
        split; [split; [discriminate | intros [_ [=]]] | discriminate].
      * split; [split; [discriminate | intros [_ [=]]] | discriminate].
  - split; [split; [discriminate | intros [[=] _]] | discriminate].
Qed.

(** A field that has not the type its schema declares, for want of the
    type or of the declaration, stops the walk whatever the recursive call
    would do: the turn returns false or raises. *)
Lemma check_field_stops self schema key value :
  match declared_class schema key with
  | Some cls => isinstance value cls = false
  | None => True
  end ->
  exists l o,
    (o = Ret (inr false) \/ exists e, o = Raise e)
    /\ forall recur, check_field recur self schema (key, value) tt = (l, o).
Proof.
  assert (forall recur (P : M (unit + bool) -> Prop),
            P (sub <- field_schema schema key ;;
               declared <- lift (py_getitem sub "type") ;;
               custom_type <- _get_custom_type self declared None ;;
               match custom_type with
               | None => ret (inr false)
               | Some custom_type =>
                   if negb (isinstance value custom_type) then
                     log ERROR (FieldTypeDiverges key declared (py_type_name value)) ;;
                     ret (inr false)
                   else if isinstance value Tdict then
                     r <- recur sub value ;; ret (inr r)
                   else ret (inl tt)
               end) ->
            P (check_field recur self schema (key, value) tt)) as Hunfold
    by (intros recur P HP; exact HP).
  unfold declared_class.
  destruct (py_getitem schema "properties") as [props | e] eqn:E1.
  2: { intros _. exists [], (Raise e). split; [right; eauto |].
       intros recur. apply Hunfold. unfold field_schema. rewrite E1. reflexivity. }
  destruct (py_getitem props key) as [sub | e] eqn:E2.
  2: { intros _. exists [], (Raise e). split; [right; eauto |].
       intros recur. apply Hunfold. unfold field_schema. rewrite E1. cbn. rewrite E2.
       reflexivity. }
  destruct (py_getitem sub "type") as [declared | e] eqn:E3.
  2: { intros _. exists [], (Raise e). split; [right; eauto |].
       intros recur. apply Hunfold. unfold field_schema. rewrite E1. cbn. rewrite E2.
       cbn. rewrite E3. reflexivity. }
  assert (forall recur,
            check_field recur self schema (key, value) tt
            = (custom_type <- _get_custom_type self declared None ;;
               match custom_type with
               | None => ret (inr false)
               | Some custom_type =>
                   if negb (isinstance value custom_type) then
                     log ERROR (FieldTypeDiverges key declared (py_type_name value)) ;;
                     ret (inr false)
                   else if isinstance value Tdict then
                     r <- recur sub value ;; ret (inr r)
                   else ret (inl tt)
               end)) as Hturn.
  { intros recur. apply Hunfold. unfold field_schema. rewrite E1. cbn. rewrite E2.
    cbn. rewrite E3. cbn. destruct (_get_custom_type self declared None) as [l [c | e]];
      reflexivity. }
  clear Hunfold E1 E2 E3.
  destruct declared as [| b | n | t | l | d].
  1-3: intros _; eexists [(ERROR, CustomTypeNotFound _)], (Ret (inr false));
       split; [left; reflexivity | intros recur; rewrite Hturn; reflexivity].
  2-3: intros _; exists [], (Raise TypeError);
       split; [right; eauto | intros recur; rewrite Hturn; reflexivity].
  destruct (assoc t TYPE_MAPPING) as [cls |] eqn:Ea.
  - intros Hi.
    exists [(ERROR, FieldTypeDiverges key (VStr t) (py_type_name value))], (Ret (inr false)).
    split; [left; reflexivity |].
    intros recur. rewrite Hturn.
    unfold _get_custom_type, get_custom_type, mapping_getitem. cbn [py_hash].
    rewrite Ea. cbn. rewrite Hi. reflexivity.
  - intros _. exists [(ERROR, CustomTypeNotFound (VStr t))], (Ret (inr false)).
    split; [left; reflexivity |].
    intros recur. rewrite Hturn.
    unfold _get_custom_type, get_custom_type, mapping_getitem. cbn [py_hash].
    rewrite Ea. reflexivity.
Qed.

Lemma walk_stops self schema pre :
  forallb (fun field => negb (isinstance (snd field) Tdict)) pre = true ->
  forallb (scalar_field_passes schema) pre = false ->
  exists l o,
    (o = Ret (inr false) \/ exists e, o = Raise e)
    /\ forall recur rest,
         for_each (pre ++ rest) tt (check_field recur self schema) = (l, o).
Proof.
  induction pre as [| [key value] pre IH]; cbn [forallb]; [discriminate |].
  intros [Hv Hflat]%andb_true_iff Hp. cbn [snd] in Hv. apply negb_true_iff in Hv.
  destruct (scalar_field_passes schema (key, value)) eqn:Ep; cbn [andb] in Hp.
  - destruct (IH Hflat Hp) as (l & o & Ho & Hw). exists l, o. split; [exact Ho |].
    intros recur rest. cbn [app for_each].
    rewrite (check_field_scalar recur self _ _ Ep), bind_ret. apply Hw.
  - destruct (check_field_stops self schema key value) as (l & o & Ho & Hc).
    { unfold scalar_field_passes in Ep. cbn [fst snd] in Ep.
      destruct (declared_class schema key); [| exact I].
      rewrite Hv, andb_true_r in Ep. exact Ep. }
    destruct Ho as [-> | [e ->]].
    + exists (l ++ []), (Ret (inr false)). split; [left; reflexivity |].
      intros recur rest. cbn [app for_each]. rewrite Hc. reflexivity.
    + exists l, (Raise e). split; [right; eauto |].
      intros recur rest. cbn [app for_each]. rewrite Hc. reflexivity.
Qed.

(** The walk that does not reach its first mapping-valued field: the
    method returns false or raises, and what the recursive call would do
    plays no part. *)
Lemma walk_stops_before_first_nested self schema pre key value post :
  forallb (fun field => negb (isinstance (snd field) Tdict)) pre = true ->
  ~ (result (compare_event_fields self schema (VDict (pre ++ (key, VDict value) :: post)))
     = Ret true
     /\ forallb (scalar_field_passes schema) pre = true
     /\ declared_class schema key = Some Tdict) ->
  exists l o,
    (o = Ret false \/ exists e, o = Raise e)
    /\ forall recur,
         validate_event_content_body recur self schema
           (VDict (pre ++ (key, VDict value) :: post)) = (l, o).
Proof.
  intros Hflat Hnot.
  unfold validate_event_content_body.
  assert (event_or_own self (VDict (pre ++ (key, VDict value) :: post))
          = VDict (pre ++ (key, VDict value) :: post)) as ->
    by (apply event_or_own_truthy; destruct pre; reflexivity).
  destruct (compare_event_fields_shape self schema
              (VDict (pre ++ (key, VDict value) :: post))) as [[msg Hc] | [Hc | [e Hc]]];
    rewrite Hc in Hnot |- *; cbn [bind negb logs result fst snd ret lift py_items].
  - eexists _, _. split; [left; reflexivity | intros recur; reflexivity].
  - destruct (forallb (scalar_field_passes schema) pre) eqn:Hpre.
    + destruct (check_field_stops self schema key (VDict value)) as (l & o & Ho & Hk).
      { destruct (declared_class schema key) as [[| | |] |]; try exact I; try reflexivity.
        exfalso. apply Hnot. auto. }
      assert (forall recur,
                for_each (pre ++ (key, VDict value) :: post) tt (check_field recur self schema)
                = bind (l, o) (fun c => match c with
                                        | inl s' => for_each post s' (check_field recur self schema)
                                        | inr r => ret (inr r)
                                        end)) as Hw.
      { intros recur. rewrite for_each_skip.
        - cbn [for_each]. rewrite Hk. reflexivity.
        - intros x Hx. apply check_field_scalar.
          rewrite forallb_forall in Hpre. apply Hpre. exact Hx. }
      destruct Ho as [-> | [e ->]].
      * eexists _, _. split; [left; reflexivity |].
        intros recur. rewrite Hw. cbn. reflexivity.
      * eexists _, _. split; [right; eexists; reflexivity |].
        intros recur. rewrite Hw. cbn. reflexivity.
    + destruct (walk_stops self schema pre Hflat Hpre) as (l & o & Ho & Hw).
      destruct Ho as [-> | [e ->]].
      * eexists _, _. split; [left; reflexivity |].
        intros recur. rewrite Hw. cbn. reflexivity.
      * eexists _, _. split; [right; eexists; reflexivity |].
        intros recur. rewrite Hw. cbn. reflexivity.
  - eexists _, _. split; [right; eexists; reflexivity | intros recur; reflexivity].
Qed.

End ValidateEventContent.

Section ValidatorClaims.
Import event_validator.

Lemma compare_event_fields_keys self schema items items' :
  items <> [] -> map fst items = map fst items' ->
  compare_event_fields self schema (VDict items)
  = compare_event_fields self schema (VDict items').
Proof.
  intros Hne Hkeys.
  assert (items' <> []) as Hne' by (intros ->; destruct items; [congruence | discriminate]).
  unfold compare_event_fields.
  rewrite !event_or_own_truthy by (destruct items, items'; cbn; congruence).
  cbn [py_keys]. rewrite Hkeys. reflexivity.
Qed.

(** The early return, at the method itself: once the walk reaches the first
    mapping-valued field, what follows it plays no part. *)
Lemma first_nested_field_decides
    self schema pre key value post sub :
  result (compare_event_fields self schema (VDict (pre ++ (key, VDict value) :: post)))
  = Ret true ->
  forallb (scalar_field_passes schema) pre = true ->
  field_schema schema key = ret sub ->
  declared_class schema key = Some Tdict ->
  validate_event_content self schema (VDict (pre ++ (key, VDict value) :: post))
  = ((INFO, FieldsRegistered) :: logs (validate_event_content self sub (VDict value)),
     result (validate_event_content self sub (VDict value))).
Proof.
  intros Hc Hpre Hsub Hcls.
  rewrite validate_event_content_unfold.
  apply validate_event_content_body_first_nested; assumption.
Qed.

(** C1, amended. Take a document whose first mapping-valued field is
    [key]: the fields before it are no mappings. Provided the walk reaches
    that field (the field comparison of this level passes, the fields
    before it have their declared types, and [key] is declared an object),
    the method logs the comparison and then returns exactly what the
    recursive call on that field returns. The fields after [key] are
    abandoned: replacing them by any fields of the same names, valid or
    not, changes nothing. When the walk does not reach that field, the
    method returns false or raises, and no recursive call is made: its
    body gives the method's result whatever is put in the place of the
    recursive call. *)
Theorem validate_event_content_returns_first_nested
    (self : Validation) (schema : pyval) (pre : list (string * pyval))
    (key : string) (value post : list (string * pyval)) (sub : pyval) :
  (result (compare_event_fields self schema (VDict (pre ++ (key, VDict value) :: post)))
   = Ret true ->
   forallb (scalar_field_passes schema) pre = true ->
   field_schema schema key = ret sub ->
   declared_class schema key = Some Tdict ->
   validate_event_content self schema (VDict (pre ++ (key, VDict value) :: post))
   = ((INFO, FieldsRegistered) :: logs (validate_event_content self sub (VDict value)),
      result (validate_event_content self sub (VDict value)))
   /\ forall post', map fst post' = map fst post ->
        validate_event_content self schema (VDict (pre ++ (key, VDict value) :: post'))
        = validate_event_content self schema (VDict (pre ++ (key, VDict value) :: post)))
  /\ (forallb (fun field => negb (isinstance (snd field) Tdict)) pre = true ->
      ~ (result (compare_event_fields self schema
                   (VDict (pre ++ (key, VDict value) :: post))) = Ret true
         /\ forallb (scalar_field_passes schema) pre = true
         /\ declared_class schema key = Some Tdict) ->
      (result (validate_event_content self schema
                 (VDict (pre ++ (key, VDict value) :: post))) = Ret false
       \/ exists e, result (validate_event_content self schema
                              (VDict (pre ++ (key, VDict value) :: post))) = Raise e)
      /\ forall recur,
           validate_event_content_body recur self schema
             (VDict (pre ++ (key, VDict value) :: post))
           = validate_event_content self schema
               (VDict (pre ++ (key, VDict value) :: post))).
Proof.
  split.
  - intros Hc Hpre Hsub Hcls.
    assert (forall post', map fst post' = map fst post ->
              validate_event_content self schema (VDict (pre ++ (key, VDict value) :: post'))
              = ((INFO, FieldsRegistered) :: logs (validate_event_content self sub (VDict value)),
                 result (validate_event_content self sub (VDict value)))) as H.
    { intros post' Hkeys.
      apply first_nested_field_decides; try assumption.
      rewrite <- Hc. f_equal. apply compare_event_fields_keys.
      - destruct pre; discriminate.
      - rewrite !map_app. cbn [map fst]. rewrite Hkeys. reflexivity. }
    split.
    + apply H. reflexivity.
    + intros post' Hkeys. rewrite (H post' Hkeys), (H post eq_refl). reflexivity.
  - intros Hflat Hnot.
    destruct (walk_stops_before_first_nested self schema pre key value post Hflat Hnot)
      as (l & o & Ho & Hbody).
    rewrite validate_event_content_unfold, !Hbody.
    split; [exact Ho |]. intros recur. apply Hbody.
Qed.

End ValidatorClaims.

(** C1 as stated, for every document with two mapping-valued fields, does
    not hold: the walk may stop before it reaches the first of them. Each
    document below has the objects [a] and [b]. The method returns false,
    because a required field is missing, because the field before [a] has
    the wrong type, or because [a] is not declared an object; the
    recursive call on [a] that the claim names returns true. *)
Lemma validate_event_content_stops_before_first_nested :
  two_objects.method_and_recursion two_objects.schema
    (VDict [("a", two_objects.a); ("b", two_objects.b)]) "a"
  = (Ret false, Ret true)
  /\ two_objects.method_and_recursion two_objects.schema
       (VDict [("n", VStr "seven"); ("a", two_objects.a); ("b", two_objects.b)]) "a"
     = (Ret false, Ret true)
  /\ two_objects.method_and_recursion two_objects.text_schema
       (VDict [("a", two_objects.a); ("b", two_objects.b)]) "a"
     = (Ret false, Ret true).
Proof. repeat split; vm_compute; reflexivity. Qed.

Lemma validate_event_content_returns_first_nested_witness :
  (event_validator.validate_event_content
     (event_validator.Build_Validation two_objects.document)
     two_objects.schema two_objects.document
   = ([(INFO, FieldsRegistered); (INFO, FieldsRegistered); (INFO, ContentValidated)],
      Ret true)
   /\ event_validator.validate_event_content
        (event_validator.Build_Validation two_objects.document)
        (two_objects.object_of "y") (VDict [("y", VStr "oops")])
      = ([(INFO, FieldsRegistered);
          (ERROR, FieldTypeDiverges "y" (VStr "integer") "str")],
         Ret false))
  /\ forall recur,
       event_validator.validate_event_content_body recur
         (event_validator.Build_Validation two_objects.document)
         two_objects.schema (VDict [("a", two_objects.a); ("b", two_objects.b)])
       = ([(ERROR, MissingRequiredFields {[HStr "n"]})], Ret false).
Proof.
  split; [split |].
  - change two_objects.document
      with (VDict ([("n", VInt 7)] ++ ("a", VDict [("x", VInt 1)])
                     :: [("b", VDict [("y", VStr "oops")])])) at 2.
    rewrite (proj1 (proj1 (validate_event_content_returns_first_nested
                             (event_validator.Build_Validation two_objects.document)
                             two_objects.schema
                             [("n", VInt 7)] "a" [("x", VInt 1)]
                             [("b", VDict [("y", VStr "oops")])]
                             (two_objects.object_of "x"))
                      ltac:(vm_compute; reflexivity) eq_refl eq_refl eq_refl)).
    vm_compute. reflexivity.
  - vm_compute. reflexivity.
  - intros recur.
    change (VDict [("a", two_objects.a); ("b", two_objects.b)])
      with (VDict ([] ++ ("a", VDict [("x", VInt 1)]) :: [("b", two_objects.b)])).
    rewrite (proj2 (proj2 (validate_event_content_returns_first_nested
                             (event_validator.Build_Validation two_objects.document)
                             two_objects.schema
                             [] "a" [("x", VInt 1)] [("b", two_objects.b)] VNone)
                      eq_refl
                      ltac:(intros [H _]; vm_compute in H; discriminate H))).
    vm_compute. reflexivity.
Defined.

Section ValidatorOwnEvent.
Import event_validator.

(** C9. An empty mapping or [None] given as the event is replaced by the
    event the validator was built with, in [validate_event_content] and in
    [compare_event_fields] alike, for every schema node. So when the walk
    reaches a field whose value is the empty mapping (as in C1: the level's
    comparison passes, the fields before it have their types, the field is
    declared an object), the call does not fail on an empty document: it
    validates the validator's own top-level event against the field's
    sub-schema. What is compared and walked then is the validator's own
    event: given a falsy event, [compare_event_fields] compares the
    required set with the fields of the own event, and reports the
    difference from them; and on an own event without mapping fields,
    [validate_event_content] returns true exactly when the required set is
    the field set of the own event and each of its fields has its declared
    type. *)
Theorem falsy_event_is_replaced_by_own_event (self : Validation) (schema : pyval) :
  validate_event_content self schema (VDict []) = validate_event_content self schema (event self)
  /\ validate_event_content self schema VNone = validate_event_content self schema (event self)
  /\ compare_event_fields self schema (VDict []) = compare_event_fields self schema (event self)
  /\ compare_event_fields self schema VNone = compare_event_fields self schema (event self)
  /\ (forall pre key post sub,
       result (compare_event_fields self schema (VDict (pre ++ (key, VDict []) :: post)))
       = Ret true ->
       forallb (scalar_field_passes schema) pre = true ->
       field_schema schema key = ret sub ->
       declared_class schema key = Some Tdict ->
       validate_event_content self schema (VDict (pre ++ (key, VDict []) :: post))
       = ((INFO, FieldsRegistered) :: logs (validate_event_content self sub (event self)),
          result (validate_event_content self sub (event self))))
  /\ (forall given required R items,
        py_truthy given = false ->
        py_getitem schema "required" = Ret required ->
        py_set required = Ret R ->
        event self = VDict items ->
        compare_event_fields self schema given
        = if set_truthy (R ∖ field_set items) then
            ([(ERROR, MissingRequiredFields (R ∖ field_set items))], Ret false)
          else if set_truthy (field_set items ∖ R) then
            ([(ERROR, UnregisteredFields (field_set items ∖ R))], Ret false)
          else ([(INFO, FieldsRegistered)], Ret true))
  /\ (forall given items,
        py_truthy given = false ->
        event self = VDict items ->
        forallb (fun field => negb (isinstance (snd field) Tdict)) items = true ->
        (result (validate_event_content self schema given) = Ret true
         <-> (exists required,
                py_getitem schema "required" = Ret required
                /\ py_set required = Ret (field_set items))
             /\ forallb (scalar_field_passes schema) items = true)).
Proof.
  assert (forall s e, py_truthy e = false ->
            validate_event_content self s e = validate_event_content self s (event self)) as Hv.
  { intros s e He. rewrite (validate_event_content_own self s e).
    rewrite (event_or_own_falsy _ _ He). reflexivity. }
  assert (forall e, py_truthy e = false ->
            compare_event_fields self schema e = compare_event_fields self schema (event self)) as Hc.
  { intros e He. rewrite (compare_event_fields_own self schema e).
    rewrite (event_or_own_falsy _ _ He). reflexivity. }
  split; [apply Hv; reflexivity |].
  split; [apply Hv; reflexivity |].
  split; [apply Hc; reflexivity |].
  split; [apply Hc; reflexivity |].
  split; [| split].
  - intros pre key post sub H1 H2 H3 H4.
    rewrite (first_nested_field_decides
               self schema pre key [] post sub H1 H2 H3 H4).
    rewrite (Hv sub (VDict []) eq_refl). reflexivity.
  - intros given required R items Hg Hr HR Hown.
    apply (compare_event_fields_cases _ _ _ _ _ _ Hr HR).
    rewrite (event_or_own_falsy _ _ Hg). exact Hown.
  - intros given items Hg Hown Hflat.
    assert (event_or_own self given = VDict items) as He
      by (rewrite (event_or_own_falsy _ _ Hg); exact Hown).
    rewrite (proj1 (flat_document_validates self schema given items He Hflat)).
    split; intros [Hcmp Hfields]; (split; [| exact Hfields]).
    + apply compare_event_fields_accepts in Hcmp
        as (required & R & items' & Hr & HR & He' & ->).
      rewrite He in He'. injection He' as <-. exists required. auto.
    + destruct Hcmp as (required & Hr & HR).
      rewrite (compare_event_fields_cases _ _ _ _ _ _ Hr HR He).
      rewrite difference_diag_L.
      assert (set_truthy (∅ : gset hkey) = false) as -> by (apply set_truthy_false; reflexivity).
      reflexivity.
Qed.

End ValidatorOwnEvent.

Lemma falsy_event_is_replaced_by_own_event_witness :
  event_validator.validate_event_content
    (event_validator.Build_Validation empty_nested.document)
    empty_nested.schema empty_nested.document
  = ((INFO, FieldsRegistered)
       :: logs (event_validator.validate_event_content
                  (event_validator.Build_Validation empty_nested.document)
                  empty_nested.inner empty_nested.document),
     Ret false)
  /\ event_validator.compare_event_fields
       (event_validator.Build_Validation empty_nested.document)
       empty_nested.inner (VDict [])
     = ([(INFO, FieldsRegistered)], Ret true)
  /\ event_validator.compare_event_fields
       (event_validator.Build_Validation fixtures.event_without_address)
       fixtures.get_schema (VDict [])
     = ([(ERROR, MissingRequiredFields {[HStr "address"]})], Ret false).
Proof.
  destruct (falsy_event_is_replaced_by_own_event
              (event_validator.Build_Validation empty_nested.document)
              empty_nested.schema) as (_ & _ & _ & _ & Hnested & _).
  destruct (falsy_event_is_replaced_by_own_event
              (event_validator.Build_Validation empty_nested.document)
              empty_nested.inner) as (_ & _ & Hcompare & _).
  destruct (falsy_event_is_replaced_by_own_event
              (event_validator.Build_Validation fixtures.event_without_address)
              fixtures.get_schema) as (_ & _ & _ & _ & _ & Hown & _).
  split; [| split].
  - change empty_nested.document with (VDict ([] ++ ("a", VDict []) :: [])) at 2.
    rewrite (Hnested [] "a" [] empty_nested.inner
               ltac:(vm_compute; reflexivity) eq_refl eq_refl eq_refl).
    f_equal.
  - rewrite Hcompare. vm_compute. reflexivity.
  - rewrite (Hown (VDict [])
               (VList [VStr "eid"; VStr "documentNumber"; VStr "name"; VStr "age";
                       VStr "address"])
               (list_to_set [HStr "eid"; HStr "documentNumber"; HStr "name";
                             HStr "age"; HStr "address"])
               [("eid", VStr "3e628a05-7a4a-4bf3-8770-084c11601a12");
                ("documentNumber", VStr "42323235600");
                ("name", VStr "Joseph");
                ("age", VInt 32)]
               eq_refl eq_refl eq_refl eq_refl).
    vm_compute. reflexivity.
Defined.

(** ** Schema nodes without [properties] or [type] *)

(** C4, which the code does not meet. Only the lookup of [required] is
    inside a [try ... except KeyError], and there the method does log an
    error and return false. [schema["properties"][key]["type"]] is
    evaluated outside any handler: a schema node that lacks [properties],
    or a field's schema that lacks [type], makes [validate_event_content]
    raise [KeyError] to its caller, with no failure result and no error
    record. *)
Theorem validate_event_content_raises_KeyError :
  event_validator.validate_event_content
    (event_validator.Build_Validation (VDict [("a", VInt 1)]))
    (VDict [("required", VList [VStr "a"])]) VNone
  = ([(INFO, FieldsRegistered)], Raise (KeyError (VStr "properties")))
  /\ event_validator.validate_event_content
       (event_validator.Build_Validation (VDict [("a", VInt 1)]))
       (VDict [("required", VList [VStr "a"]);
               ("properties", VDict [("a", VDict [("description", VStr "d")])])])
       VNone
     = ([(INFO, FieldsRegistered)], Raise (KeyError (VStr "type")))
  /\ event_validator.compare_event_fields
       (event_validator.Build_Validation (VDict [("a", VInt 1)]))
       (VDict [("properties", VDict [("a", VDict [("type", VStr "integer")])])])
       VNone
     = ([(ERROR, SchemaWithoutRequired)], Ret false).
Proof. repeat split; vm_compute; reflexivity. Qed.

(** ** format_table_columns: the recursion is well defined *)

Section ColumnsRecursion.
Import json_schema_to_hive.

Lemma item_depth (k : string) (v : pyval) (d : list (string * pyval)) :
  In (k, v) d -> depth v < depth (VDict d).
Proof.
  cbn [depth]. unfold list_max.
  induction d as [| [k' v'] d IH]; cbn; [tauto |].
  intros [[= -> ->] | H]; [lia |]. specialize (IH H). lia.
Qed.

Lemma py_items_returns v l items :
  lift (py_items v) = (l, Ret items) -> v = VDict items.
Proof. destruct v; cbn; intros [= <- <-] || intros [=]. reflexivity. Qed.

Lemma format_table_columns_body_ext recur1 recur2 self col_dict separator :
  (forall props sep, depth props < depth col_dict -> recur1 props sep = recur2 props sep) ->
  format_table_columns_body recur1 self col_dict separator
  = format_table_columns_body recur2 self col_dict separator.
Proof.
  intros H. unfold format_table_columns_body.
  apply bind_ext. intros l items ->%py_items_returns.
  apply (f_equal (fun m => bind m _)).
  apply for_each_ext. intros [key value] st Hin%item_depth.
  apply bind_ext. intros _ st1 _.
  apply bind_ext. intros _ declared _.
  apply (f_equal (fun m => bind m _)).
  destruct (py_eq_str declared "object"); [| reflexivity].
  apply (f_equal (fun m => bind m _)).
  apply (f_equal (fun m => try_except m _ _)).
  apply bind_ext. intros l' props [Hprops%py_getitem_depth _]%lift_returns.
  rewrite H by lia. reflexivity.
Qed.

Lemma format_table_columns_fuel_irrelevant n m self col_dict separator :
  depth col_dict < n -> depth col_dict < m ->
  format_table_columns_fuel n self col_dict separator
  = format_table_columns_fuel m self col_dict separator.
Proof.
  revert m col_dict separator.
  induction n as [| n IH]; intros [| m] col_dict separator Hn Hm; try lia.
  cbn [format_table_columns_fuel].
  apply format_table_columns_body_ext.
  intros props sep Hd. apply IH; lia.
Qed.

(** The method satisfies the equation its source text states. *)
Lemma format_table_columns_unfold self col_dict separator :
  format_table_columns self col_dict separator
  = format_table_columns_body (format_table_columns self) self col_dict separator.
Proof.
  unfold format_table_columns at 1. cbn [format_table_columns_fuel].
  apply format_table_columns_body_ext.
  intros props sep Hd. unfold format_table_columns.
  apply format_table_columns_fuel_irrelevant; lia.
Qed.

End ColumnsRecursion.

(** ** format_table_columns on a field without [type] or [description] *)

(** C3, which the code does not meet. The three handlers of
    [format_table_columns] are [except NameError], and a missing key raises
    [KeyError]: nothing is caught or logged, the siblings are not rendered,
    and the exception leaves the method (and [create_table] with it). Only
    an unknown type name is logged and survived, rendered as [None]. *)
Theorem format_table_columns_raises_KeyError (q : json_schema_to_hive.Query) :
  let good := VDict [("type", VStr "string"); ("description", VStr "x")] in
  json_schema_to_hive.format_table_columns q
    (VDict [("b", good); ("a", VDict [("description", VStr "d")])]) ""
  = ([], Raise (KeyError (VStr "type")))
  /\ json_schema_to_hive.format_table_columns q
       (VDict [("b", good); ("a", VDict [("type", VStr "string")])]) ""
     = ([], Raise (KeyError (VStr "description")))
  /\ result (json_schema_to_hive.create_table q
               (VDict [("b", good); ("a", VDict [("description", VStr "d")])])
               VNone VNone VNone VNone VNone VNone VNone VNone VNone)
     = Raise (KeyError (VStr "type"))
  /\ json_schema_to_hive.format_table_columns q
       (VDict [("a", VDict [("type", VStr "text"); ("description", VStr "d")]);
               ("b", good)]) ""
     = ([(ERROR, CustomTypeNotFound (VStr "text"))],
        Ret ("a None COMMENT 'd'," +:+ nl +:+ "b varchar COMMENT 'x'")).
Proof. repeat split; vm_compute; reflexivity. Qed.

(** ** format_table_properties *)

Section TableProperties.
Import json_schema_to_hive.

(** C8. [format_table_properties] logs nothing and returns the pairs
    ['key' = 'value'] of the mapping in its order, joined by commas. A
    value is rendered as [str] renders it: a text as itself, [True] as
    [True] (not [true]), [False] as [False], [None] as [None], an integer in
    decimal. So [{"has_encrypted_data": True}] gives
    ['has_encrypted_data' = 'True'], and [create_table] wraps it into the
    TBLPROPERTIES clause. *)
Theorem format_table_properties_pairs (self : Query) (items : list (string * pyval)) :
  format_table_properties self (VDict items) = ret (comma_joined_pairs items)
  /\ (forall s, py_str (VStr s) = s)
  /\ py_str (VBool true) = "True"
  /\ py_str (VBool false) = "False"
  /\ py_str VNone = "None"
  /\ py_str (VInt 32) = "32"
  /\ format_table_properties self (VDict [("has_encrypted_data", VBool true)])
     = ret "'has_encrypted_data' = 'True'"
  /\ result (create_table self VNone VNone VNone VNone VNone VNone VNone VNone VNone
               (VDict [("has_encrypted_data", VBool true)]))
     = Ret (table_head self
            +:+ nl +:+ "TBLPROPERTIES ('has_encrypted_data' = 'True')").
Proof.
  split; [| repeat split; reflexivity].
  unfold format_table_properties. cbn [py_items]. rewrite bind_lift_ret.
  f_equal.
  induction items as [| [key value] [| [key' value'] rest] IH]; [reflexivity .. |].
  cbn [map String.concat comma_joined_pairs] in *.
  fold (property_pair key value). rewrite <- IH. reflexivity.
Qed.

End TableProperties.

(** ** create_table as an ordered list of clauses *)

Lemma append_nil_r (s : string) : s +:+ "" = s.
Proof.
  induction s as [| c s IH]; [reflexivity |].
  change (String c (s +:+ "") = String c s). rewrite IH. reflexivity.
Qed.

Lemma append_assoc (s1 s2 s3 : string) : (s1 +:+ s2) +:+ s3 = s1 +:+ (s2 +:+ s3).
Proof.
  induction s1 as [| c s1 IH]; [reflexivity |].
  change (String c ((s1 +:+ s2) +:+ s3) = String c (s1 +:+ (s2 +:+ s3))).
  rewrite IH. reflexivity.
Qed.

Section CreateTable.
Import json_schema_to_hive.

Lemma sequence_run_clauses {B} builders query (k : string -> M B) :
  bind (sequence builders) (fun fragments => k (fold_left String.append fragments query))
  = run_clauses builders query k.
Proof.
  revert query. induction builders as [| c cs IH]; intros query; cbn [sequence run_clauses].
  - rewrite bind_ret. reflexivity.
  - rewrite bind_assoc. apply bind_ext. intros _ f _.
    rewrite bind_assoc. rewrite <- IH. apply bind_ext. intros _ fs _.
    rewrite bind_ret. reflexivity.
Qed.

Lemma noted_step {B} (present : bool) note text query (k : string -> M B) :
  bind (if present then log INFO note ;; ret (query +:+ nl +:+ text) else ret query) k
  = bind (noted_clause present note text) (fun f => k (query +:+ f)).
Proof.
  unfold noted_clause. destruct present.
  - rewrite !bind_assoc. apply bind_ext. intros _ _ _. rewrite !bind_ret. reflexivity.
  - rewrite !bind_ret, append_nil_r. reflexivity.
Qed.

Lemma rendered_step {B} (present : bool) (render : M string) note wrap query
    (k : string -> M B) :
  bind (if present then x <- render ;; log INFO note ;; ret (query +:+ nl +:+ wrap x)
        else ret query) k
  = bind (rendered_clause present render note wrap) (fun f => k (query +:+ f)).
Proof.
  unfold rendered_clause. destruct present.
  - rewrite !bind_assoc. apply bind_ext. intros _ x _.
    rewrite !bind_assoc. apply bind_ext. intros _ _ _. rewrite !bind_ret. reflexivity.
  - rewrite !bind_ret, append_nil_r. reflexivity.
Qed.

Lemma clustering_step {B} clustering_params num_buckets query (k : string -> M B) :
  bind (if py_truthy clustering_params || py_truthy num_buckets then
          if py_truthy clustering_params && py_truthy num_buckets then
            cols <- lift (str_join "," clustering_params) ;;
            log INFO IncludedClustering ;;
            ret (query +:+ nl +:+ "CLUSTERED BY (" +:+ cols +:+ ") INTO "
                       +:+ py_str num_buckets +:+ " BUCKETS")
          else log WARNING ClusteringNeedsBoth ;; ret query
        else ret query) k
  = bind (clustering_clause clustering_params num_buckets) (fun f => k (query +:+ f)).
Proof.
  unfold clustering_clause, clustered_by.
  destruct (py_truthy clustering_params), (py_truthy num_buckets); cbn [andb orb].
  - rewrite !bind_assoc. apply bind_ext. intros _ x _.
    rewrite !bind_assoc. apply bind_ext. intros _ _ _. rewrite !bind_ret. reflexivity.
  - rewrite !bind_assoc. apply bind_ext. intros _ _ _. rewrite !bind_ret, append_nil_r.
    reflexivity.
  - rewrite !bind_assoc. apply bind_ext. intros _ _ _. rewrite !bind_ret, append_nil_r.
    reflexivity.
  - rewrite !bind_ret, append_nil_r. reflexivity.
Qed.

(** [create_table] is the assembler over the nine clause builders. *)
Lemma create_table_assemble self col_params tb_desc partition_params
    clustering_params num_buckets row_format file_format serde_properties
    location tbl_properties :
  create_table self col_params tb_desc partition_params clustering_params
    num_buckets row_format file_format serde_properties location tbl_properties
  = assemble self
      (clauses self col_params tb_desc partition_params clustering_params
         num_buckets row_format file_format serde_properties location tbl_properties).
Proof.
  unfold create_table, assemble, clauses.
  apply bind_ext. intros _ _ _. apply bind_ext. intros _ _ _.
  rewrite (sequence_run_clauses _ (table_head self)
             (fun query => log INFO QueryEnd ;; log INFO (QueryText query) ;; ret query)).
  cbn [run_clauses]. fold (table_head self).
  rewrite (rendered_step _ _ _ (fun x => "(" +:+ x +:+ ")")).
  apply bind_ext. intros _ f1 _.
  rewrite noted_step. apply bind_ext. intros _ f2 _.
  rewrite (rendered_step _ _ _ (fun x => "PARTITIONED BY (" +:+ x +:+ ")")).
  apply bind_ext. intros _ f3 _.
  rewrite clustering_step. apply bind_ext. intros _ f4 _.
  rewrite noted_step. apply bind_ext. intros _ f5 _.
  rewrite noted_step. apply bind_ext. intros _ f6 _.
  rewrite (rendered_step _ _ _ (fun x => "WITH SERDEPROPERTIES (" +:+ x +:+ ")")).
  apply bind_ext. intros _ f7 _.
  rewrite noted_step. apply bind_ext. intros _ f8 _.
  rewrite (rendered_step _ _ _ (fun x => "TBLPROPERTIES (" +:+ x +:+ ")")).
  apply bind_ext. intros _ f9 _.
  reflexivity.
Qed.

End CreateTable.

(** ** Warnings *)

Lemma count_warnings_app l1 l2 :
  count_warnings (l1 ++ l2) = count_warnings l1 + count_warnings l2.
Proof.
  induction l1 as [| [[] msg] l1 IH]; cbn; rewrite ?IH; reflexivity.
Qed.

Lemma quiet_ret {A} (a : A) : quiet (ret a).
Proof. reflexivity. Qed.

Lemma quiet_raise {A} (e : exc) : quiet (@raise A e).
Proof. reflexivity. Qed.

Lemma quiet_lift {A} (o : outcome A) : quiet (lift o).
Proof. reflexivity. Qed.

Lemma quiet_log_INFO msg : quiet (log INFO msg).
Proof. reflexivity. Qed.

Lemma quiet_log_ERROR msg : quiet (log ERROR msg).
Proof. reflexivity. Qed.

Lemma quiet_bind {A B} (m : M A) (f : A -> M B) :
  quiet m -> (forall a, quiet (f a)) -> quiet (bind m f).
Proof.
  unfold quiet. destruct m as [l [a | e]]; cbn; intros Hm Hf; [| exact Hm].
  rewrite count_warnings_app, Hm. apply Hf.
Qed.

Lemma quiet_try_except {A} (m : M A) caught (handler : M A) :
  quiet m -> quiet handler -> quiet (try_except m caught handler).
Proof.
  unfold quiet. destruct m as [l [a | e]]; cbn; intros Hm Hh; [exact Hm |].
  destruct (caught e); cbn; [| exact Hm].
  rewrite count_warnings_app, Hm. exact Hh.
Qed.

Lemma quiet_for_each {A S R} (xs : list A) (s : S) (body : A -> S -> M (S + R)) :
  (forall x s', quiet (body x s')) -> quiet (for_each xs s body).
Proof.
  intros H. revert s. induction xs as [| x xs IH]; intros s; cbn [for_each].
  - apply quiet_ret.
  - apply quiet_bind; [apply H |]. intros [s' | r]; [apply IH | apply quiet_ret].
Qed.

Lemma quiet_sequence {A} (ms : list (M A)) :
  Forall quiet ms -> quiet (sequence ms).
Proof.
  induction 1 as [| m ms Hm _ IH]; cbn [sequence]; [apply quiet_ret |].
  apply quiet_bind; [exact Hm |]. intros a.
  apply quiet_bind; [exact IH |]. intros rest. apply quiet_ret.
Qed.

Create HintDb quiet.
#[local] Hint Resolve quiet_ret quiet_raise quiet_lift quiet_log_INFO quiet_log_ERROR
  quiet_try_except : quiet.

(** Break a computation down to its logger calls. *)
Ltac quiet_step :=
  match goal with
  | |- quiet (bind _ _) => apply quiet_bind; [| intros ?]
  | |- quiet (for_each _ _ _) => apply quiet_for_each; intros [? ?] ?
  | |- quiet (try_except _ _ _) => apply quiet_try_except
  | |- quiet (if ?b then _ else _) => destruct b
  | |- quiet (match ?x with _ => _ end) => destruct x
  | |- quiet _ => solve [auto with quiet]
  end.

Section QuietFormatters.
Import json_schema_to_hive.

Lemma quiet_get_custom_type {T} (mapping : list (string * T)) custom_type override :
  quiet (get_custom_type mapping custom_type override).
Proof. unfold get_custom_type. repeat quiet_step. Qed.

Lemma quiet_read_local {A} (x : option A) : quiet (read_local x).
Proof. destruct x; reflexivity. Qed.

Lemma quiet_format_table_columns_body recur self col_dict separator :
  (forall d sep, quiet (recur d sep)) ->
  quiet (format_table_columns_body recur self col_dict separator).
Proof.
  intros Hrec. unfold format_table_columns_body, _get_custom_type.
  repeat first [ apply quiet_get_custom_type | apply quiet_read_local | apply Hrec
               | quiet_step ].
Qed.

Lemma quiet_format_table_columns self col_dict separator :
  quiet (format_table_columns self col_dict separator).
Proof.
  unfold format_table_columns. generalize (S (depth col_dict)) as n.
  intros n. revert col_dict separator.
  induction n as [| n IH]; intros col_dict separator; cbn [format_table_columns_fuel].
  - apply quiet_raise.
  - apply quiet_format_table_columns_body. exact IH.
Qed.

Lemma quiet_format_table_properties self tb_properties :
  quiet (format_table_properties self tb_properties).
Proof. unfold format_table_properties. repeat quiet_step. Qed.

Lemma quiet_noted_clause present note text : quiet (noted_clause present note text).
Proof. unfold noted_clause. repeat quiet_step. Qed.

Lemma quiet_rendered_clause present render note wrap :
  quiet render -> quiet (rendered_clause present render note wrap).
Proof. intros H. unfold rendered_clause. repeat first [exact H | quiet_step]. Qed.

End QuietFormatters.

(** ** What create_table returns *)

Lemma result_bind {A B} (m : M A) (f : A -> M B) :
  result (bind m f)
  = match result m with Ret a => result (f a) | Raise e => Raise e end.
Proof. destruct m as [l [a | e]]; reflexivity. Qed.

Lemma logs_bind {A B} (m : M A) (f : A -> M B) :
  logs (bind m f)
  = logs m ++ match result m with Ret a => logs (f a) | Raise _ => [] end.
Proof. destruct m as [l [a | e]]; cbn; rewrite ?app_nil_r; reflexivity. Qed.

Lemma sequence_results {A} (ms : list (M A)) (xs : list A) :
  Forall2 (fun m x => result m = Ret x) ms xs -> result (sequence ms) = Ret xs.
Proof.
  induction 1 as [| m x ms xs Hm _ IH]; cbn [sequence]; [reflexivity |].
  rewrite result_bind, Hm, result_bind, IH. reflexivity.
Qed.

Section CreateTableResult.
Import json_schema_to_hive.

Lemma result_assemble self builders fragments :
  result (sequence builders) = Ret fragments ->
  result (assemble self builders)
  = Ret (fold_left String.append fragments (table_head self)).
Proof.
  intros H. unfold assemble. rewrite !result_bind. cbn [log result snd].
  rewrite H. reflexivity.
Qed.

Lemma result_noted_clause present note text :
  result (noted_clause present note text) = Ret (clause_text present text).
Proof. destruct present; reflexivity. Qed.

Lemma result_rendered_clause (present : bool) (render : M string) note wrap x :
  (present = true -> result render = Ret x) ->
  result (rendered_clause present render note wrap) = Ret (clause_text present (wrap x)).
Proof.
  destruct present; [| reflexivity]. intros H. cbn [rendered_clause clause_text].
  rewrite result_bind, (H eq_refl). reflexivity.
Qed.

Lemma result_clustering_clause clustering_params num_buckets columns :
  (py_truthy clustering_params && py_truthy num_buckets = true ->
   str_join "," clustering_params = Ret columns) ->
  result (clustering_clause clustering_params num_buckets)
  = Ret (clause_text (py_truthy clustering_params && py_truthy num_buckets)
           (clustered_by columns num_buckets)).
Proof.
  unfold clustering_clause.
  destruct (py_truthy clustering_params), (py_truthy num_buckets); cbn [andb orb];
    [| reflexivity ..].
  intros H. rewrite result_bind. cbn [lift result snd]. rewrite (H eq_refl). reflexivity.
Qed.

(** C7. With every optional parameter left out, [create_table] returns
    exactly [CREATE EXTERNAL TABLE IF NOT EXISTS db.tb]. In general it is
    the assembler over the nine clause builders, and whenever the columns,
    partition columns, clustering columns and the two property lists that
    are present render, the statement is the head followed by the clauses
    of the present inputs in the fixed order: columns, comment, partition,
    clustering, row format, stored-as, serde properties, location, table
    properties. *)
Theorem create_table_clause_order (self : Query)
    (col_params tb_desc partition_params clustering_params num_buckets
     row_format file_format serde_properties location tbl_properties : pyval)
    (columns partition clustering serde props : string) :
  (py_truthy col_params = true ->
   result (format_table_columns self col_params "") = Ret columns) ->
  (py_truthy partition_params = true ->
   result (format_table_columns self partition_params "") = Ret partition) ->
  (py_truthy clustering_params && py_truthy num_buckets = true ->
   str_join "," clustering_params = Ret clustering) ->
  (py_truthy serde_properties = true ->
   result (format_table_properties self serde_properties) = Ret serde) ->
  (py_truthy tbl_properties = true ->
   result (format_table_properties self tbl_properties) = Ret props) ->
  result (create_table self VNone VNone VNone VNone VNone VNone VNone VNone VNone VNone)
  = Ret ("CREATE EXTERNAL TABLE IF NOT EXISTS " +:+ db_name self +:+ "." +:+ tb_name self)
  /\ create_table self col_params tb_desc partition_params clustering_params
       num_buckets row_format file_format serde_properties location tbl_properties
     = assemble self
         (clauses self col_params tb_desc partition_params clustering_params
            num_buckets row_format file_format serde_properties location tbl_properties)
  /\ result (create_table self col_params tb_desc partition_params clustering_params
               num_buckets row_format file_format serde_properties location
               tbl_properties)
     = Ret (fold_left String.append
              [ clause_text (py_truthy col_params) ("(" +:+ columns +:+ ")");
                clause_text (py_truthy tb_desc) ("COMMENT '" +:+ py_str tb_desc +:+ "'");
                clause_text (py_truthy partition_params)
                  ("PARTITIONED BY (" +:+ partition +:+ ")");
                clause_text (py_truthy clustering_params && py_truthy num_buckets)
                  (clustered_by clustering num_buckets);
                clause_text (py_truthy row_format)
                  ("ROW FORMAT '" +:+ py_str row_format +:+ "'");
                clause_text (py_truthy file_format) ("STORED AS " +:+ py_str file_format);
                clause_text (py_truthy serde_properties)
                  ("WITH SERDEPROPERTIES (" +:+ serde +:+ ")");
                clause_text (py_truthy location)
                  ("LOCATION '" +:+ py_str location +:+ "'");
                clause_text (py_truthy tbl_properties)
                  ("TBLPROPERTIES (" +:+ props +:+ ")") ]
              ("CREATE EXTERNAL TABLE IF NOT EXISTS " +:+ db_name self +:+ "."
                 +:+ tb_name self)).
Proof.
  intros Hcols Hpart Hclus Hserde Hprops.
  split; [reflexivity |]. split; [apply create_table_assemble |].
  rewrite create_table_assemble. fold (table_head self).
  apply result_assemble, sequence_results. unfold clauses.
  repeat first
    [ apply List.Forall2_nil
    | apply List.Forall2_cons
    | apply result_noted_clause
    | apply (result_rendered_clause _ _ _ (fun x => "(" +:+ x +:+ ")")); assumption
    | apply (result_rendered_clause _ _ _ (fun x => "PARTITIONED BY (" +:+ x +:+ ")"));
      assumption
    | apply (result_rendered_clause _ _ _ (fun x => "WITH SERDEPROPERTIES (" +:+ x +:+ ")"));
      assumption
    | apply (result_rendered_clause _ _ _ (fun x => "TBLPROPERTIES (" +:+ x +:+ ")"));
      assumption
    | apply result_clustering_clause; assumption ].
Qed.

End CreateTableResult.

(** ** The clustering clause *)

Lemma sequence_app_cons {A} (before after : list (M A)) (c : M A) :
  sequence (before ++ c :: after)
  = (xs <- sequence before ;; y <- c ;; zs <- sequence after ;; ret (xs ++ y :: zs)).
Proof.
  induction before as [| m before IH]; cbn [sequence app].
  - rewrite bind_ret. reflexivity.
  - rewrite bind_assoc. apply bind_ext. intros _ a _.
    rewrite IH, !bind_assoc. apply bind_ext. intros _ xs _.
    rewrite bind_ret, !bind_assoc. apply bind_ext. intros _ y _.
    rewrite !bind_assoc. apply bind_ext. intros _ zs _.
    rewrite !bind_ret. reflexivity.
Qed.

Lemma fold_left_append (l : list string) (q : string) :
  fold_left String.append l q = q +:+ fold_left String.append l "".
Proof.
  revert q. induction l as [| x l IH]; intros q; cbn [fold_left].
  - rewrite append_nil_r. reflexivity.
  - rewrite (IH (q +:+ x)), (IH ("" +:+ x)), append_assoc. reflexivity.
Qed.

Section Clustering.
Import json_schema_to_hive.

(** A builder [c] that returns [f] after logging [w], put between the
    builders [before] and [after]: against the statement built with
    nothing in its place, the statement has [f] inserted at one point, and
    the log has the warnings of [w] and no other. *)
Lemma assemble_insert self (before after : list (M string)) (q : string) :
  quiet (sequence before) -> quiet (sequence after) ->
  result (assemble self (before ++ ret "" :: after)) = Ret q ->
  exists pre post,
    q = pre +:+ post
    /\ forall (c : M string) w f, c = (w, Ret f) ->
         result (assemble self (before ++ c :: after)) = Ret (pre +:+ f +:+ post)
         /\ count_warnings (logs (assemble self (before ++ c :: after)))
            = count_warnings w.
Proof.
  unfold quiet, assemble. intros Hqa Hqb.
  rewrite !bind_log. cbn beta. cbn [result logs fst snd].
  rewrite sequence_app_cons.
  destruct (sequence before) as [la [fa | ea]] eqn:Ea; [| discriminate].
  destruct (sequence after) as [lb [fb | eb]] eqn:Eb; [| discriminate].
  cbn in Hqa, Hqb. cbn. intros [= <-].
  exists (fold_left String.append fa (table_head self)),
         (fold_left String.append fb "").
  split.
  - rewrite fold_left_app. cbn [fold_left].
    rewrite append_nil_r. apply fold_left_append.
  - intros c w f Hc. rewrite sequence_app_cons, Ea, Eb, Hc. cbn. split.
    + rewrite fold_left_app. cbn [fold_left].
      rewrite fold_left_append, append_assoc. reflexivity.
    + rewrite !count_warnings_app, Hqa, Hqb. cbn. lia.
Qed.

Lemma quiet_clauses_before self col_params tb_desc partition_params :
  quiet (sequence (clauses_before self col_params tb_desc partition_params)).
Proof.
  apply quiet_sequence. unfold clauses_before.
  repeat first [ apply List.Forall_nil | apply List.Forall_cons
               | apply quiet_noted_clause
               | apply quiet_rendered_clause, quiet_format_table_columns ].
Qed.

Lemma quiet_clauses_after self row_format file_format serde_properties location
    tbl_properties :
  quiet (sequence (clauses_after self row_format file_format serde_properties
                     location tbl_properties)).
Proof.
  apply quiet_sequence. unfold clauses_after.
  repeat first [ apply List.Forall_nil | apply List.Forall_cons
               | apply quiet_noted_clause
               | apply quiet_rendered_clause, quiet_format_table_properties ].
Qed.

(** C6. Fix the other parameters, and let [q] be the statement built
    without clustering arguments. A parameter is supplied when it is
    truthy, as everywhere in [create_table]. When the clustering columns
    and the bucket count are not both supplied, the build returns [q]
    itself, so no clustering text comes from this call, and it logs exactly
    one warning when one of the two is supplied and none when neither is.
    When both are supplied (the columns being a sequence of names), the
    build returns [q] with the clause [CLUSTERED BY (cols) INTO n BUCKETS]
    inserted, and logs no warning. *)
Theorem create_table_clustering (self : Query)
    (col_params tb_desc partition_params clustering_params num_buckets
     row_format file_format serde_properties location tbl_properties : pyval)
    (q : string) :
  result (create_table self col_params tb_desc partition_params VNone VNone
            row_format file_format serde_properties location tbl_properties)
  = Ret q ->
  (py_truthy clustering_params && py_truthy num_buckets = false ->
   result (create_table self col_params tb_desc partition_params
             clustering_params num_buckets
             row_format file_format serde_properties location tbl_properties)
   = Ret q
   /\ count_warnings
        (logs (create_table self col_params tb_desc partition_params
                 clustering_params num_buckets
                 row_format file_format serde_properties location tbl_properties))
      = if xorb (py_truthy clustering_params) (py_truthy num_buckets) then 1 else 0)
  /\ (py_truthy clustering_params && py_truthy num_buckets = true ->
      forall columns, str_join "," clustering_params = Ret columns ->
      exists pre post,
        q = pre +:+ post
        /\ result (create_table self col_params tb_desc partition_params
                     clustering_params num_buckets
                     row_format file_format serde_properties location tbl_properties)
           = Ret (pre +:+ (nl +:+ clustered_by columns num_buckets) +:+ post)
        /\ count_warnings
             (logs (create_table self col_params tb_desc partition_params
                      clustering_params num_buckets
                      row_format file_format serde_properties location
                      tbl_properties))
           = 0).
Proof.
  intros Hplain. rewrite create_table_assemble in Hplain.
  change (clauses self col_params tb_desc partition_params VNone VNone
            row_format file_format serde_properties location tbl_properties)
    with (clauses_before self col_params tb_desc partition_params
            ++ ret "" :: clauses_after self row_format file_format serde_properties
                           location tbl_properties) in Hplain.
  destruct (assemble_insert _ _ _ _
              (quiet_clauses_before _ _ _ _) (quiet_clauses_after _ _ _ _ _ _) Hplain)
    as (pre & post & Hq & Hins).
  rewrite !create_table_assemble.
  change (clauses self col_params tb_desc partition_params clustering_params num_buckets
            row_format file_format serde_properties location tbl_properties)
    with (clauses_before self col_params tb_desc partition_params
            ++ clustering_clause clustering_params num_buckets
            :: clauses_after self row_format file_format serde_properties
                 location tbl_properties).
  split.
  - intros Hboth.
    assert (clustering_clause clustering_params num_buckets
            = ((if xorb (py_truthy clustering_params) (py_truthy num_buckets)
                then [(WARNING, ClusteringNeedsBoth)] else []), Ret "")) as Hc.
    { unfold clustering_clause.
      destruct (py_truthy clustering_params), (py_truthy num_buckets);
        try discriminate; reflexivity. }
    destruct (Hins _ _ _ Hc) as [Hr Hw]. split.
    + rewrite Hr, Hq. reflexivity.
    + rewrite Hw. destruct (xorb _ _); reflexivity.
  - intros Hboth columns Hjoin.
    assert (clustering_clause clustering_params num_buckets
            = ([(INFO, IncludedClustering)],
               Ret (nl +:+ clustered_by columns num_buckets))) as Hc.
    { unfold clustering_clause. rewrite Hboth, Hjoin. reflexivity. }
    destruct (Hins _ _ _ Hc) as [Hr Hw].
    exists pre, post. split; [exact Hq |]. split; [exact Hr | exact Hw].
Qed.

End Clustering.

Lemma create_table_clause_order_witness :
  result (json_schema_to_hive.create_table hive_fixtures.create_query
            hive_fixtures.col_params
            (VStr "The root schema comprises the entire JSON document.")
            hive_fixtures.partition_params
            (VList [VStr "age"]) (VInt 32)
            (VStr hive_fixtures.row_format) (VStr "PARQUET")
            hive_fixtures.serde_properties
            (VStr "s3://iti-query-results/")
            hive_fixtures.tbl_properties)
  = Ret hive_fixtures.expected_full.
Proof.
  destruct (create_table_clause_order hive_fixtures.create_query
              hive_fixtures.col_params
              (VStr "The root schema comprises the entire JSON document.")
              hive_fixtures.partition_params
              (VList [VStr "age"]) (VInt 32)
              (VStr hive_fixtures.row_format) (VStr "PARQUET")
              hive_fixtures.serde_properties
              (VStr "s3://iti-query-results/")
              hive_fixtures.tbl_properties
              hive_fixtures.expected_columns
              "age tinyint COMMENT 'An explanation about the purpose of this instance.'"
              "age"
              "'parquet.compress' = 'SNAPPY','serialization.format' = '1'"
              "'has_encrypted_data' = 'True'"
              ltac:(intros _; vm_compute; reflexivity)
              ltac:(intros _; vm_compute; reflexivity)
              ltac:(intros _; vm_compute; reflexivity)
              ltac:(intros _; vm_compute; reflexivity)
              ltac:(intros _; vm_compute; reflexivity)) as (_ & _ & H).
  rewrite H. vm_compute. reflexivity.
Defined.

Lemma create_table_clustering_witness :
  (result (json_schema_to_hive.create_table hive_fixtures.create_query
             VNone VNone VNone (VList [VStr "age"]) VNone VNone VNone VNone VNone VNone)
   = Ret "CREATE EXTERNAL TABLE IF NOT EXISTS db_people.tb_user"
   /\ count_warnings
        (logs (json_schema_to_hive.create_table hive_fixtures.create_query
                 VNone VNone VNone (VList [VStr "age"]) VNone VNone VNone VNone VNone
                 VNone))
      = 1)
  /\ exists pre post,
       "CREATE EXTERNAL TABLE IF NOT EXISTS db_people.tb_user" = pre +:+ post
       /\ result (json_schema_to_hive.create_table hive_fixtures.create_query
                    VNone VNone VNone (VList [VStr "age"]) (VInt 32) VNone VNone VNone
                    VNone VNone)
          = Ret (pre +:+ (nl +:+ "CLUSTERED BY (age) INTO 32 BUCKETS") +:+ post)
       /\ count_warnings
            (logs (json_schema_to_hive.create_table hive_fixtures.create_query
                     VNone VNone VNone (VList [VStr "age"]) (VInt 32) VNone VNone VNone
                     VNone VNone))
          = 0.
Proof.
  split.
  - exact (proj1 (create_table_clustering hive_fixtures.create_query
                    VNone VNone VNone (VList [VStr "age"]) VNone VNone VNone VNone VNone
                    VNone "CREATE EXTERNAL TABLE IF NOT EXISTS db_people.tb_user"
                    eq_refl) eq_refl).
  - exact (proj2 (create_table_clustering hive_fixtures.create_query
                    VNone VNone VNone (VList [VStr "age"]) (VInt 32) VNone VNone VNone
                    VNone VNone "CREATE EXTERNAL TABLE IF NOT EXISTS db_people.tb_user"
                    eq_refl) eq_refl "age" eq_refl).
Defined.

(** ** Schema.get_col_data and the caller's schema *)

Section SchemaStore.
Import json_schema_to_hive.

Lemma keeps_sret {A} (a : A) : keeps_store (sret a).
Proof. intros h. reflexivity. Qed.

Lemma keeps_slift {A} (m : M A) : keeps_store (slift m).
Proof. intros h. reflexivity. Qed.

Lemma keeps_load r : keeps_store (load r).
Proof. intros h. unfold load. destruct (deref h r); reflexivity. Qed.

Lemma keeps_sbind {A B} (m : SM A) (f : A -> SM B) :
  keeps_store m -> (forall a, keeps_store (f a)) -> keeps_store (sbind m f).
Proof.
  intros Hm Hf h. unfold sbind. specialize (Hm h).
  destruct (m h) as [h1 [l [a | e]]]; cbn in Hm; subst h1; [| reflexivity].
  specialize (Hf a h). destruct (f a h) as [h2 m2]. exact Hf.
Qed.

Lemma keeps_sfor_each {A S} (xs : list A) (s : S) (body : A -> S -> SM S) :
  (forall x s', keeps_store (body x s')) -> keeps_store (sfor_each xs s body).
Proof.
  intros H. revert s. induction xs as [| x xs IH]; intros s; cbn [sfor_each].
  - apply keeps_sret.
  - apply keeps_sbind; [apply H | intros s'; apply IH].
Qed.

(** Break a computation down to its reads and writes. *)
Ltac keeps_step :=
  match goal with
  | |- keeps_store (sbind _ _) => apply keeps_sbind; [| intros ?]
  | |- keeps_store (sfor_each _ _ _) => apply keeps_sfor_each; intros [? ?] ?
  | |- keeps_store (sret _) => apply keeps_sret
  | |- keeps_store (slift _) => apply keeps_slift
  | |- keeps_store (load _) => apply keeps_load
  | |- keeps_store (if ?b then _ else _) => destruct b
  | |- keeps_store (match ?x with _ => _ end) => destruct x
  end.

Lemma keeps_collect_columns recur schema :
  (forall r, keeps_store (recur r None)) -> keeps_store (collect_columns recur schema).
Proof.
  intros Hrec. unfold collect_columns.
  repeat first [apply Hrec | keeps_step].
Qed.

(** Without a column filter the method writes nothing. *)
Lemma keeps_get_col_data_fuel n self schema :
  keeps_store (get_col_data_fuel n self schema None).
Proof.
  revert schema. induction n as [| n IH]; intros schema; cbn [get_col_data_fuel].
  - apply keeps_slift.
  - unfold get_col_data_body. fold (collect_columns (get_col_data_fuel n self)).
    repeat first [apply keeps_collect_columns; exact IH | keeps_step].
Qed.

Lemma keeps_get_col_data_nested self schema :
  keeps_store (get_col_data_nested self schema None).
Proof. intros h. apply keeps_get_col_data_fuel. Qed.

(** *** The column filter *)

Lemma sbind_returns {A B} (m : SM A) (f : A -> SM B) h h1 l a :
  m h = (h1, (l, Ret a)) ->
  sbind m f h = (fst (f a h1), (l ++ logs (snd (f a h1)), result (snd (f a h1)))).
Proof. intros H. unfold sbind. rewrite H. destruct (f a h1); reflexivity. Qed.

Lemma load_returns h r v : deref h r = Some v -> load r h = (h, ([], Ret v)).
Proof. intros H. unfold load. rewrite H. reflexivity. Qed.

(** The comprehension reads the schema and leaves the store alone. *)
Lemma comprehension_returns h r d props cols acc selected :
  deref h r = Some (VDict d) ->
  dict_get "properties" d = Some (VDict props) ->
  select_columns props cols acc = Some selected ->
  sfor_each cols acc (fun key acc =>
      s <~ load r ;;
      props <~ slift (lift (py_getitem s "properties")) ;;
      x <~ slift (lift (py_getitem props key)) ;;
      sret (dict_set key x acc)) h
  = (h, ([], Ret selected)).
Proof.
  intros Hr Hp. revert acc. induction cols as [| key cols IH]; intros acc; cbn.
  - intros [= ->]. reflexivity.
  - destruct (dict_get key props) as [x |] eqn:Ex; [| discriminate].
    intros Hsel.
    erewrite sbind_returns; cycle 1.
    { erewrite sbind_returns by (apply load_returns; exact Hr).
      cbn. rewrite Hp. cbn. rewrite Ex. reflexivity. }
    cbn. rewrite (IH _ Hsel). reflexivity.
Qed.

Lemma dict_get_set k x d : dict_get k (dict_set k x d) = Some x.
Proof.
  induction d as [| [k' v] d IH]; cbn.
  - rewrite String.eqb_refl. reflexivity.
  - destruct (String.eqb k k') eqn:E; cbn; rewrite E; [reflexivity | exact IH].
Qed.

Lemma follow_write_at path x root v :
  follow path root = Some v -> follow path (write_at path x root) = Some x.
Proof.
  revert root. induction path as [| k path IH]; intros root; cbn; [reflexivity |].
  destruct root as [| | | | | d]; try discriminate.
  destruct (dict_get k d) as [c |] eqn:E; [| discriminate].
  intros H. cbn. rewrite dict_get_set. apply IH. exact H.
Qed.

Lemma deref_store_write h r x v :
  deref h r = Some v -> deref (store_write h r x) r = Some x.
Proof.
  unfold deref, store_write.
  destruct (h !! ref_loc r) as [root |] eqn:E; [| discriminate].
  intros H. rewrite lookup_insert_eq. exact (follow_write_at _ _ _ _ H).
Qed.

Lemma store_write_other h r x l :
  l <> ref_loc r -> store_write h r x !! l = h !! l.
Proof.
  intros Hl. unfold store_write.
  destruct (h !! ref_loc r); [| reflexivity].
  apply lookup_insert_ne. congruence.
Qed.

(** C2, amended. [get_col_data(schema=S, filtered_col=F)] with a non-empty
    [F] of names of [S["properties"]] makes no copy: it assigns the
    selection to [S["properties"]] in the caller's own object. Whatever the
    rest of the call does, the store it leaves is the one it found with
    that one key of [S] rebound; every other object is as it was. *)
Theorem get_col_data_filters_in_place (self : Schema) (h : store) (S : ref)
    (d props selected : list (string * pyval)) (F : list string) :
  deref h S = Some (VDict d) -> d <> [] ->
  dict_get "properties" d = Some (VDict props) ->
  F <> [] ->
  select_columns props F [] = Some selected ->
  fst (get_col_data self (Some S) (Some F) h)
  = store_write h S (VDict (dict_set "properties" (VDict selected) d))
  /\ deref (fst (get_col_data self (Some S) (Some F) h)) S
     = Some (VDict (dict_set "properties" (VDict selected) d))
  /\ forall l, l <> ref_loc S ->
       fst (get_col_data self (Some S) (Some F) h) !! l = h !! l.
Proof.
  intros HS Hd Hp HF Hsel.
  assert (fst (get_col_data self (Some S) (Some F) h)
          = store_write h S (VDict (dict_set "properties" (VDict selected) d))) as Hh.
  { unfold get_col_data, get_col_data_body.
    fold (collect_columns (get_col_data_nested self)).
    erewrite sbind_returns by reflexivity. cbn [fst].
    erewrite sbind_returns; cycle 1.
    { erewrite sbind_returns by (apply load_returns; exact HS).
      cbn. destruct d; [congruence | reflexivity]. }
    cbn [fst negb].
    destruct F as [| key F]; [congruence |].
    erewrite sbind_returns; cycle 1.
    { erewrite sbind_returns
        by (exact (comprehension_returns _ _ _ _ _ _ _ HS Hp Hsel)).
      cbn [fst snd logs result].
      erewrite sbind_returns; cycle 1.
      { unfold setitem. rewrite HS. reflexivity. }
      cbn. reflexivity. }
    cbn [fst].
    apply (keeps_collect_columns (get_col_data_nested self) S).
    intros r. apply keeps_get_col_data_nested. }
  rewrite Hh. split; [reflexivity |]. split.
  - exact (deref_store_write _ _ _ _ HS).
  - intros l Hl. apply store_write_other. exact Hl.
Qed.

(** *** get_col_data: the recursion is well defined *)

Lemma unique_keys_item k x d :
  unique_keys (VDict d) = true -> In (k, x) d ->
  dict_get k d = Some x /\ unique_keys x = true.
Proof.
  cbn [unique_keys]. intros [Hnd Hall]%andb_true_iff Hin.
  apply bool_decide_eq_true in Hnd. rewrite forallb_forall in Hall.
  split; [| exact (Hall _ Hin)].
  clear Hall. induction d as [| [k' v] d IH]; [destruct Hin |].
  cbn in Hnd. apply NoDup_cons in Hnd as [Hk Hnd]. cbn.
  destruct Hin as [[= -> ->] | Hin].
  - rewrite String.eqb_refl. reflexivity.
  - destruct (String.eqb k k') eqn:E; [| exact (IH Hnd Hin)].
    apply String.eqb_eq in E. subst k'. exfalso. apply Hk.
    apply list_elem_of_In. change k with (fst (k, x)). apply in_map. exact Hin.
Qed.

Lemma dict_get_In k x d : dict_get k d = Some x -> In (k, x) d.
Proof.
  induction d as [| [k' v] d IH]; cbn; [discriminate |].
  destruct (String.eqb k k') eqn:E.
  - apply String.eqb_eq in E. intros [= ->]. left. congruence.
  - intros H. right. exact (IH H).
Qed.

Lemma follow_app p q root :
  follow (p ++ q) root
  = match follow p root with Some v => follow q v | None => None end.
Proof.
  revert root. induction p as [| k p IH]; intros root; cbn; [reflexivity |].
  destruct root; try reflexivity.
  destruct (dict_get k d); [apply IH | reflexivity].
Qed.

Lemma deref_sub_ref h r k :
  deref h (sub_ref r k)
  = match deref h r with
    | Some (VDict d) => dict_get k d
    | _ => None
    end.
Proof.
  unfold deref, sub_ref. cbn [ref_loc ref_path].
  destruct (h !! ref_loc r) as [root |]; [| reflexivity].
  rewrite follow_app. destruct (follow (ref_path r) root) as [[] |]; cbn; try reflexivity.
  destruct (dict_get k d); reflexivity.
Qed.

Lemma sbind_ext_at {A B} (m : SM A) (f g : A -> SM B) h :
  (forall h1 l a, m h = (h1, (l, Ret a)) -> f a h1 = g a h1) ->
  sbind m f h = sbind m g h.
Proof.
  intros H. unfold sbind. destruct (m h) as [h1 [l [a | e]]]; [| reflexivity].
  rewrite (H h1 l a eq_refl). reflexivity.
Qed.

Lemma sbind_cong_at {A B} (m m' : SM A) (f : A -> SM B) h :
  m h = m' h -> sbind m f h = sbind m' f h.
Proof. intros H. unfold sbind. rewrite H. reflexivity. Qed.

Lemma sfor_each_ext_at {A S} (xs : list A) (s : S) (f g : A -> S -> SM S) h :
  (forall x s', In x xs -> f x s' h = g x s' h) ->
  (forall x s', keeps_store (f x s')) ->
  sfor_each xs s f h = sfor_each xs s g h.
Proof.
  intros H Hk. revert s. induction xs as [| x xs IH]; intros s; cbn [sfor_each];
    [reflexivity |].
  unfold sbind. rewrite <- (H x s (or_introl eq_refl)).
  pose proof (Hk x s h) as Hh.
  destruct (f x s h) as [h1 [l [s' | e]]]; cbn in Hh; subst h1; [| reflexivity].
  rewrite IH; [reflexivity |].
  intros y s'' Hy. apply H. right. exact Hy.
Qed.

Lemma slift_returns {A} (o : outcome A) h h1 l a :
  slift (lift o) h = (h1, (l, Ret a)) -> h1 = h /\ o = Ret a.
Proof. unfold slift, lift. intros [= <- <- ->]. split; reflexivity. Qed.

Lemma py_getitem_dict v k x :
  py_getitem v k = Ret x -> exists d, v = VDict d /\ dict_get k d = Some x.
Proof.
  destruct v; cbn; try discriminate.
  destruct (dict_get k d) eqn:E; [| discriminate].
  intros [= <-]. exists d. split; [reflexivity | exact E].
Qed.

Lemma dict_get_truthy k d x : dict_get k d = Some x -> py_truthy (VDict d) = true.
Proof. destruct d; [discriminate | reflexivity]. Qed.

(** The reading part calls itself on the object-typed columns only, each
    a truthy mapping nested in the schema it reads. *)
Lemma collect_columns_ext recur1 recur2 r h v :
  deref h r = Some v -> unique_keys v = true ->
  (forall key value,
     deref h (sub_ref (sub_ref r "properties") key) = Some value ->
     py_truthy value = true -> unique_keys value = true -> depth value < depth v ->
     recur1 (Some (sub_ref (sub_ref r "properties") key)) None h
     = recur2 (Some (sub_ref (sub_ref r "properties") key)) None h) ->
  (forall x, keeps_store (recur1 x None)) ->
  collect_columns recur1 r h = collect_columns recur2 r h.
Proof.
  intros Hr Hu Hrec Hk. unfold collect_columns.
  apply sbind_ext_at. intros ? ? s Hs.
  rewrite (load_returns _ _ _ Hr) in Hs. injection Hs as <- _ <-.
  apply sbind_ext_at. intros ? ? props [-> Hp]%slift_returns.
  apply sbind_ext_at. intros ? ? items [-> Hi]%slift_returns.
  destruct (py_getitem_dict _ _ _ Hp) as (d & -> & Hd).
  destruct props; try discriminate. injection Hi as ->.
  destruct (unique_keys_item _ _ _ Hu (dict_get_In _ _ _ Hd)) as [_ Hup].
  apply sbind_cong_at. apply sfor_each_ext_at.
  - intros [key value] col_dict Hin.
    apply sbind_ext_at. intros ? ? t [-> Ht]%slift_returns.
    apply sbind_ext_at. intros ? ? desc [-> _]%slift_returns.
    apply sbind_ext_at. intros ? ? t' [-> _]%slift_returns.
    destruct (py_eq_str t' "object"); [| reflexivity].
    apply sbind_cong_at. apply (Hrec key value).
    + rewrite !deref_sub_ref, Hr, Hd.
      exact (proj1 (unique_keys_item _ _ _ Hup Hin)).
    + destruct (py_getitem_dict _ _ _ Ht) as (dv & -> & Hdv).
      exact (dict_get_truthy _ _ _ Hdv).
    + exact (proj2 (unique_keys_item _ _ _ Hup Hin)).
    + pose proof (dict_get_depth _ _ _ Hd).
      pose proof (dict_get_depth _ _ _ (proj1 (unique_keys_item _ _ _ Hup Hin))). lia.
  - intros [key value] col_dict. repeat first [apply Hk | keeps_step].
Qed.

(** A call without a filter on a truthy mapping: the body reads that
    mapping. *)
Lemma get_col_data_body_ext recur1 recur2 self r h v :
  deref h r = Some v -> py_truthy v = true -> unique_keys v = true ->
  (forall key value,
     deref h (sub_ref (sub_ref r "properties") key) = Some value ->
     py_truthy value = true -> unique_keys value = true -> depth value < depth v ->
     recur1 (Some (sub_ref (sub_ref r "properties") key)) None h
     = recur2 (Some (sub_ref (sub_ref r "properties") key)) None h) ->
  (forall x, keeps_store (recur1 x None)) ->
  get_col_data_body recur1 self (Some r) None h
  = get_col_data_body recur2 self (Some r) None h.
Proof.
  intros Hr Ht Hu Hrec Hk. unfold get_col_data_body.
  fold (collect_columns recur1). fold (collect_columns recur2).
  apply sbind_ext_at. intros ? ? [] [= <- _].
  apply sbind_ext_at. intros ? ? schema Hs.
  erewrite sbind_returns in Hs by (apply load_returns; exact Hr).
  cbn in Hs. rewrite Ht in Hs. cbn in Hs. injection Hs as <- _ <-.
  apply sbind_ext_at. intros ? ? [] [= <- _].
  exact (collect_columns_ext _ _ _ _ _ Hr Hu Hrec Hk).
Qed.

Lemma get_col_data_fuel_irrelevant n m self r h v :
  deref h r = Some v -> py_truthy v = true -> unique_keys v = true ->
  depth v < n -> depth v < m ->
  get_col_data_fuel n self (Some r) None h = get_col_data_fuel m self (Some r) None h.
Proof.
  revert m r v. induction n as [| n IH]; intros [| m] r v Hr Ht Hu Hn Hm; try lia.
  cbn [get_col_data_fuel].
  apply (get_col_data_body_ext _ _ _ _ _ _ Hr Ht Hu).
  - intros key value Hv Htv Huv Hd. apply (IH m _ value); try assumption; lia.
  - intros x. apply keeps_get_col_data_fuel.
Qed.

(** On a mapping as Python builds it, a recursive call has the fuel it
    needs: it is the method itself. *)
Lemma get_col_data_nested_unfold self r h v :
  deref h r = Some v -> py_truthy v = true -> unique_keys v = true ->
  get_col_data_nested self (Some r) None h = get_col_data self (Some r) None h.
Proof.
  intros Hr Ht Hu. unfold get_col_data, get_col_data_nested at 1, call_fuel.
  cbn [get_col_data_fuel].
  apply (get_col_data_body_ext _ _ _ _ _ _ Hr Ht Hu).
  - intros key value Hv Htv Huv Hd.
    unfold get_col_data_nested, call_fuel, depth_at. rewrite Hr, Hv.
    apply (get_col_data_fuel_irrelevant _ _ _ _ _ value); try assumption; lia.
  - intros x. apply keeps_get_col_data_fuel.
Qed.

End SchemaStore.

(** C2 as stated does not hold: the call returns, and the caller's schema
    has lost four of its five properties. *)
Lemma get_col_data_shrinks_caller_schema :
  result (snd (json_schema_to_hive.get_col_data filter_example.self
                 (Some filter_example.S) (Some ["age"]) filter_example.h))
  = Ret (VDict [("age", hive_fixtures.column "integer")])
  /\ filter_example.property_names filter_example.h
     = Some ["eid"; "documentNumber"; "name"; "age"; "address"]
  /\ filter_example.property_names filter_example.after = Some ["age"]
  /\ json_schema_to_hive.deref filter_example.after filter_example.S
     <> json_schema_to_hive.deref filter_example.h filter_example.S.
Proof.
  repeat split; try (vm_compute; reflexivity).
  intros H. vm_compute in H. discriminate H.
Qed.

Lemma get_col_data_filters_in_place_witness :
  json_schema_to_hive.deref filter_example.after filter_example.S
  = Some (VDict (dict_set "properties"
                   (VDict [("age", fixtures.leaf "age" "age" "integer" (VInt 32))])
                   fixtures.root_items)).
Proof.
  refine (proj1 (proj2 (get_col_data_filters_in_place
                          filter_example.self filter_example.h filter_example.S
                          fixtures.root_items fixtures.root_properties
                          [("age", fixtures.leaf "age" "age" "integer" (VInt 32))]
                          ["age"] eq_refl _ eq_refl _ eq_refl))); discriminate.
Defined.

(** * More of the two programs

    The rest of the methods' behaviour, and the entry points. *)

(** ** The checks before the schema is read *)

Section ValidatorChecks.
Import event_validator.

(** X1. The two checks [handler] makes before it reads the schema each
    return a boolean and log one record, an error exactly when the answer
    is false. Both answer true exactly when the event is a mapping that is
    not empty: [{}] is a mapping but empty, and a text or a list that is
    not empty is no mapping. *)
Theorem pre_checks_accept_non_empty_mappings (self : Validation) :
  answers (validate_event_not_empty self)
  /\ answers (validate_event_data_structure self)
  /\ (result (validate_event_not_empty self) = Ret true
      /\ result (validate_event_data_structure self) = Ret true
      <-> exists field fields, event self = VDict (field :: fields)).
Proof.
  unfold validate_event_not_empty, validate_event_data_structure, answers.
  split; [| split].
  - destruct (negb (py_truthy (event self))); cbn.
    + exists false. eexists. reflexivity.
    + exists true. eexists. reflexivity.
  - destruct (negb (isinstance (event self) Tdict)); cbn.
    + exists false. eexists. reflexivity.
    + exists true. eexists. reflexivity.
  - destruct self as [[| b | n | s | l | [| field fields]]];
      cbn [event_validator.event py_truthy isinstance negb].
    all: split; [intros [H1 H2] | intros (f & fs & H)]; try discriminate.
    all: try (cbn in H2; discriminate).
    all: try (cbn in H1; discriminate).
    + exists field, fields. reflexivity.
    + split; reflexivity.
Qed.

End ValidatorChecks.

(** ** _get_custom_type on any value *)

Section CustomTypeCases.

(** X2. [_get_custom_type] without an override, in both files. A text
    that TYPE_MAPPING has gives its entry and logs nothing; a text it does
    not have gives [None] and one error record that names it. Any other
    hashable value ([None], a boolean, an integer) is not found either:
    [None] and one error record. A list or a mapping is unhashable: the
    lookup raises [TypeError], which [except KeyError] does not catch. *)
Theorem get_custom_type_cases
    (v : event_validator.Validation) (q : json_schema_to_hive.Query)
    (custom_type : pyval) :
  (forall name, custom_type = VStr name ->
     event_validator._get_custom_type v custom_type None
     = match assoc name event_validator.TYPE_MAPPING with
       | Some cls => ret (Some cls)
       | None => ([(ERROR, CustomTypeNotFound custom_type)], Ret None)
       end
     /\ json_schema_to_hive._get_custom_type q custom_type None
        = match assoc name json_schema_to_hive.TYPE_MAPPING with
          | Some keyword => ret (Some keyword)
          | None => ([(ERROR, CustomTypeNotFound custom_type)], Ret None)
          end)
  /\ ((exists k, py_hash custom_type = Ret k) -> (forall name, custom_type <> VStr name) ->
      event_validator._get_custom_type v custom_type None
      = ([(ERROR, CustomTypeNotFound custom_type)], Ret None)
      /\ json_schema_to_hive._get_custom_type q custom_type None
         = ([(ERROR, CustomTypeNotFound custom_type)], Ret None))
  /\ (py_hash custom_type = Raise TypeError ->
      event_validator._get_custom_type v custom_type None = ([], Raise TypeError)
      /\ json_schema_to_hive._get_custom_type q custom_type None = ([], Raise TypeError)).
Proof.
  unfold event_validator._get_custom_type, json_schema_to_hive._get_custom_type,
    get_custom_type, mapping_getitem.
  split; [| split].
  - intros name ->. cbn [py_hash].
    split; [destruct (assoc name event_validator.TYPE_MAPPING)
           | destruct (assoc name json_schema_to_hive.TYPE_MAPPING)]; reflexivity.
  - intros [k Hk] Hn. rewrite Hk.
    destruct custom_type as [| b | n | s | l | d]; try discriminate;
      try (exfalso; exact (Hn s eq_refl)); injection Hk as <-; split; reflexivity.
  - intros ->. split; reflexivity.
Qed.

End CustomTypeCases.

(** ** compare_event_fields: what it answers, and when it raises *)

Section CompareAnswers.
Import event_validator.

Lemma hash_all_names names : hash_all (map VStr names) = Ret (map HStr names).
Proof. induction names as [| n names IH]; cbn; [| rewrite IH]; reflexivity. Qed.

Lemma py_set_names names :
  py_set (VList (map VStr names)) = Ret (list_to_set (map HStr names)).
Proof. unfold py_set. cbn [py_iter]. rewrite hash_all_names. reflexivity. Qed.

Lemma compare_event_fields_without_required self fields event :
  dict_get "required" fields = None ->
  compare_event_fields self (VDict fields) event
  = ([(ERROR, SchemaWithoutRequired)], Ret false).
Proof.
  intros H. unfold compare_event_fields. cbn [py_getitem]. rewrite H. reflexivity.
Qed.

(** X3. On a schema mapping whose [required], if it has one, is a list of
    texts, and a document that is a mapping, [compare_event_fields] does
    not raise: it returns a boolean and logs exactly one record, an error
    exactly when it returns false. Without [required] the answer is false
    with the record of the missing parameter, whatever the document is,
    even one that is no mapping. *)
Theorem compare_event_fields_answers
    (self : Validation) (fields : list (string * pyval)) (event : pyval)
    (items : list (string * pyval)) :
  event_or_own self event = VDict items ->
  (dict_get "required" fields = None
   \/ exists names, dict_get "required" fields = Some (VList (map VStr names))) ->
  answers (compare_event_fields self (VDict fields) event)
  /\ (dict_get "required" fields = None ->
      forall other, compare_event_fields self (VDict fields) other
                    = ([(ERROR, SchemaWithoutRequired)], Ret false)).
Proof.
  intros He Hr. split.
  - destruct Hr as [Hr | [names Hr]].
    + rewrite (compare_event_fields_without_required _ _ _ Hr).
      exists false. eexists. reflexivity.
    + erewrite compare_event_fields_cases;
        [| cbn [py_getitem]; rewrite Hr; reflexivity | apply py_set_names | exact He].
      destruct (set_truthy _); [exists false; eexists; reflexivity |].
      destruct (set_truthy _); [exists false | exists true]; eexists; reflexivity.
  - intros H other. apply compare_event_fields_without_required. exact H.
Qed.

(** X4. [compare_event_fields] reads [required] and the document as sets
    of names: two schemas whose [required] lists hold the same names (in
    any order, any number of times) and two documents with the same keys
    (in any order, with any values) get the same answer, and a record of
    the same level that reports the same set of names. The order in which
    the record's text lists the names of that set is not part of the
    record, and may differ. *)
Theorem compare_event_fields_reads_sets
    (self : Validation) (schema1 schema2 event1 event2 : pyval)
    (names1 names2 : list string) (items1 items2 : list (string * pyval)) :
  py_getitem schema1 "required" = Ret (VList (map VStr names1)) ->
  py_getitem schema2 "required" = Ret (VList (map VStr names2)) ->
  event_or_own self event1 = VDict items1 ->
  event_or_own self event2 = VDict items2 ->
  (forall name, In name names1 <-> In name names2) ->
  (forall key, In key (map fst items1) <-> In key (map fst items2)) ->
  compare_event_fields self schema1 event1 = compare_event_fields self schema2 event2.
Proof.
  intros H1 H2 He1 He2 Hn Hk.
  rewrite (compare_event_fields_cases _ _ _ _ _ _ H1 (py_set_names _) He1).
  rewrite (compare_event_fields_cases _ _ _ _ _ _ H2 (py_set_names _) He2).
  assert (forall l1 l2 : list string, (forall x, In x l1 <-> In x l2) ->
            (list_to_set (map HStr l1) : gset hkey) = list_to_set (map HStr l2)) as Hset.
  { intros l1 l2 H. apply set_eq. intros x.
    rewrite !elem_of_list_to_set, !list_elem_of_In, !in_map_iff.
    split; intros (s & <- & Hs); exists s; (split; [reflexivity | apply H; exact Hs]). }
  unfold field_set. rewrite (Hset _ _ Hn), (Hset _ _ Hk). reflexivity.
Qed.

End CompareAnswers.

Section CompareMalformed.
Import event_validator.

Lemma py_set_raises v e : py_set v = Raise e -> e = TypeError.
Proof.
  unfold py_set. destruct v as [| b | n | s | l | d]; cbn [py_iter];
    try (intros [= <-]; reflexivity).
  - destruct (hash_all (map VStr (chars s))) eqn:E; [discriminate |].
    intros [= <-]. revert e0 E. induction (chars s) as [| c cs IH]; cbn; [discriminate |].
    intros e0. destruct (hash_all (map VStr cs)); [discriminate |].
    intros [= <-]. apply (IH e eq_refl).
  - destruct (hash_all l) eqn:E; [discriminate |]. intros [= <-].
    revert e0 E. induction l as [| x l IH]; cbn; [discriminate |].
    intros e0. destruct (py_hash x) eqn:Ex.
    + destruct (hash_all l); [discriminate |]. intros [= <-]. apply (IH e eq_refl).
    + intros [= <-]. destruct x; cbn in Ex; congruence.
  - destruct (hash_all (map (fun p => VStr (fst p)) d)) eqn:E; [discriminate |].
    intros [= <-]. revert e0 E. induction d as [| p d IH]; cbn; [discriminate |].
    intros e0. destruct (hash_all _); [discriminate |].
    intros [= <-]. apply (IH e eq_refl).
Qed.

(** X5. Only the missing [required] key is caught. A schema that is no
    mapping raises [TypeError]; so does a [required] that cannot be made
    into a set (it is not iterable, or holds a list or a mapping); and
    when [required] is fine but the document compared is no mapping,
    [.keys()] raises [AttributeError]. Nothing is logged in these cases. *)
Theorem compare_event_fields_raises_on_malformed_input
    (self : Validation) (schema event : pyval) :
  ((forall fields, schema <> VDict fields) ->
   compare_event_fields self schema event = ([], Raise TypeError))
  /\ (forall required e,
        py_getitem schema "required" = Ret required -> py_set required = Raise e ->
        compare_event_fields self schema event = ([], Raise TypeError))
  /\ (forall required R,
        py_getitem schema "required" = Ret required -> py_set required = Ret R ->
        (forall items, event_or_own self event <> VDict items) ->
        compare_event_fields self schema event = ([], Raise AttributeError)).
Proof.
  unfold compare_event_fields. split; [| split].
  - intros Hs. destruct schema as [| | | | | fields]; try reflexivity.
    exfalso. exact (Hs fields eq_refl).
  - intros required e Hr He. rewrite Hr. cbn [lift bind logs result fst snd app].
    rewrite He. rewrite (py_set_raises _ _ He). reflexivity.
  - intros required R Hr HR He. rewrite Hr. cbn [lift bind logs result fst snd app].
    rewrite HR. cbn.
    destruct (event_or_own self event) as [| | | | | items]; try reflexivity.
    exfalso. exact (He items eq_refl).
Qed.

End CompareMalformed.

(** ** validate_event_content: the walk over the fields *)

Section ValidatorWalk.
Import event_validator.

Lemma validate_event_content_body_accepts recur self schema event :
  result (validate_event_content_body recur self schema event) = Ret true ->
  result (compare_event_fields self schema event) = Ret true.
Proof.
  unfold validate_event_content_body.
  rewrite (compare_event_fields_own self schema event).
  destruct (compare_event_fields_shape self schema (event_or_own self event))
    as [[msg ->] | [-> | [e ->]]]; cbn; congruence.
Qed.

(** X6. Whenever [validate_event_content] returns true, the schema has a
    [required] list and the document validated (the event given, or the
    validator's own) is a mapping whose set of keys is exactly the
    required set. *)
Theorem validate_event_content_accepts_required_fields
    (self : Validation) (schema event : pyval) :
  result (validate_event_content self schema event) = Ret true ->
  exists required R items,
    py_getitem schema "required" = Ret required
    /\ py_set required = Ret R
    /\ event_or_own self event = VDict items
    /\ R = field_set items.
Proof.
  rewrite validate_event_content_unfold. intros H.
  apply compare_event_fields_accepts.
  exact (validate_event_content_body_accepts _ _ _ _ H).
Qed.

(** X7. On a document none of whose fields is a mapping,
    [validate_event_content] returns true exactly when the field
    comparison passes and every field is an instance of the class its
    declared type names. It then logs the record of the comparison and the
    record of the validated content, and nothing else. *)
Theorem validate_event_content_flat
    (self : Validation) (schema event : pyval) (items : list (string * pyval)) :
  event_or_own self event = VDict items ->
  forallb (fun field => negb (isinstance (snd field) Tdict)) items = true ->
  (result (validate_event_content self schema event) = Ret true
   <-> result (compare_event_fields self schema event) = Ret true
       /\ forallb (scalar_field_passes schema) items = true)
  /\ (result (validate_event_content self schema event) = Ret true ->
      validate_event_content self schema event
      = ([(INFO, FieldsRegistered); (INFO, ContentValidated)], Ret true)).
Proof. apply flat_document_validates. Qed.

(** X22. [isinstance(True, int)] holds: in a document without mapping
    fields that validates, an integer value may be replaced by a boolean,
    and the document still validates. The converse fails: an integer is no
    instance of [bool]. *)
Theorem validate_event_content_takes_booleans_for_integers
    (self : Validation) (schema : pyval) (pre : list (string * pyval))
    (key : string) (n : Z) (b : bool) (post : list (string * pyval)) :
  forallb (fun field => negb (isinstance (snd field) Tdict)) (pre ++ post) = true ->
  result (validate_event_content self schema (VDict (pre ++ (key, VInt n) :: post)))
  = Ret true ->
  result (validate_event_content self schema (VDict (pre ++ (key, VBool b) :: post)))
  = Ret true
  /\ isinstance (VInt n) Tbool = false.
Proof.
  intros Hflat Hv. split; [| reflexivity].
  assert (forall value, isinstance value Tdict = false ->
            forallb (fun field => negb (isinstance (snd field) Tdict))
              (pre ++ (key, value) :: post) = true) as Hflat'.
  { intros value Hd. rewrite forallb_app in Hflat |- *.
    apply andb_true_iff in Hflat as [H1 H2]. cbn [forallb snd].
    rewrite H1, H2, Hd. reflexivity. }
  assert (forall value, event_or_own self (VDict (pre ++ (key, value) :: post))
                        = VDict (pre ++ (key, value) :: post)) as Hown
    by (intros value; apply event_or_own_truthy; destruct pre; reflexivity).
  apply (flat_document_validates self schema _ _ (Hown (VInt n))
           (Hflat' (VInt n) eq_refl)) in Hv as [Hc Hp].
  apply (flat_document_validates self schema _ _ (Hown (VBool b))
           (Hflat' (VBool b) eq_refl)).
  split.
  - rewrite <- Hc. f_equal. apply compare_event_fields_keys.
    + destruct pre; discriminate.
    + rewrite !map_app. reflexivity.
  - rewrite forallb_app in Hp |- *. apply andb_true_iff in Hp as [H1 H2].
    cbn [forallb] in H2 |- *. apply andb_true_iff in H2 as [Hk H2].
    rewrite H1, H2, andb_true_r. cbn [andb].
    unfold scalar_field_passes in Hk |- *. cbn [fst snd] in Hk |- *.
    destruct (declared_class schema key) as [[| | |] |]; cbn in Hk |- *;
      congruence.
Qed.

End ValidatorWalk.

Section ValidatorFirstFailure.
Import event_validator.

(** X8. The walk stops at the first field that fails. Let the comparison
    pass and the fields before [key] be scalars of their declared types.
    If the type declared for [key] is a name TYPE_MAPPING does not have,
    the method returns false after the error of the unknown type; if it
    names a class the value is no instance of, false after the error of
    the diverging type; if it is a list or a mapping, the method raises
    [TypeError]. The fields after [key] play no part. *)
Theorem validate_event_content_first_failure
    (self : Validation) (schema : pyval) (pre : list (string * pyval))
    (key : string) (value : pyval) (post : list (string * pyval))
    (sub declared : pyval) :
  result (compare_event_fields self schema (VDict (pre ++ (key, value) :: post)))
  = Ret true ->
  forallb (scalar_field_passes schema) pre = true ->
  field_schema schema key = ret sub ->
  py_getitem sub "type" = Ret declared ->
  (forall name, declared = VStr name -> assoc name TYPE_MAPPING = None ->
     validate_event_content self schema (VDict (pre ++ (key, value) :: post))
     = ([(INFO, FieldsRegistered); (ERROR, CustomTypeNotFound declared)], Ret false))
  /\ (forall name cls, declared = VStr name -> assoc name TYPE_MAPPING = Some cls ->
      isinstance value cls = false ->
      validate_event_content self schema (VDict (pre ++ (key, value) :: post))
      = ([(INFO, FieldsRegistered);
          (ERROR, FieldTypeDiverges key declared (py_type_name value))], Ret false))
  /\ (py_hash declared = Raise TypeError ->
      validate_event_content self schema (VDict (pre ++ (key, value) :: post))
      = ([(INFO, FieldsRegistered)], Raise TypeError)).
Proof.
  intros Hc Hpre Hsub Ht.
  assert (forall turn,
            check_field (validate_event_content self) self schema (key, value) tt = turn ->
            validate_event_content self schema (VDict (pre ++ (key, value) :: post))
            = (let walk :=
                 looped <- (c <- turn ;;
                            match c with
                            | inl s' =>
                                for_each post s'
                                  (check_field (validate_event_content self) self schema)
                            | inr r => ret (inr r)
                            end) ;;
                 match looped with
                 | inr r => ret r
                 | inl _ => log INFO ContentValidated ;; ret true
                 end in
               ((INFO, FieldsRegistered) :: logs walk, result walk))) as Hwalk.
  { intros turn <-. rewrite validate_event_content_unfold.
    unfold validate_event_content_body.
    assert (event_or_own self (VDict (pre ++ (key, value) :: post))
            = VDict (pre ++ (key, value) :: post)) as ->.
    { apply event_or_own_truthy. destruct pre; reflexivity. }
    rewrite (compare_event_fields_true _ _ _ Hc).
    cbn [py_items bind negb]. rewrite bind_lift_ret.
    rewrite for_each_skip
      by (intros x Hx; apply check_field_scalar;
          rewrite forallb_forall in Hpre; apply Hpre; exact Hx).
    reflexivity. }
  assert (forall custom_type,
            _get_custom_type self declared None = custom_type ->
            check_field (validate_event_content self) self schema (key, value) tt
            = (custom_type <- custom_type ;;
               match custom_type with
               | None => ret (inr false)
               | Some custom_type =>
                   if negb (isinstance value custom_type) then
                     log ERROR (FieldTypeDiverges key declared (py_type_name value)) ;;
                     ret (inr false)
                   else if isinstance value Tdict then
                     r <- validate_event_content self sub value ;; ret (inr r)
                   else ret (inl tt)
               end)) as Hturn.
  { intros custom_type <-. unfold check_field.
    rewrite Hsub, bind_ret, Ht, bind_lift_ret. reflexivity. }
  split; [| split].
  - intros name -> Hname.
    rewrite (Hwalk _ (Hturn _ eq_refl)).
    unfold _get_custom_type, get_custom_type, mapping_getitem. cbn [py_hash].
    rewrite Hname. reflexivity.
  - intros name cls -> Hname Hi.
    rewrite (Hwalk _ (Hturn _ eq_refl)).
    unfold _get_custom_type. rewrite (get_custom_type_known _ None _ _ Hname (or_introl eq_refl)).
    rewrite bind_ret, Hi. reflexivity.
  - intros Hh.
    rewrite (Hwalk _ (Hturn _ eq_refl)).
    unfold _get_custom_type, get_custom_type, mapping_getitem. rewrite Hh. reflexivity.
Qed.

End ValidatorFirstFailure.

Section ValidatorLog.
Import event_validator.

Lemma only_info_nil : only_info [].
Proof. constructor. Qed.

Lemma check_field_explained recur self schema field :
  (forall sub value, explained (recur sub value)) ->
  turn_explained (check_field recur self schema field tt).
Proof.
  intros Hrec. destruct field as [key value]. unfold check_field, field_schema.
  rewrite bind_assoc.
  destruct (py_getitem schema "properties") as [props | e];
    [rewrite bind_lift_ret | apply only_info_nil].
  destruct (py_getitem props key) as [sub | e];
    [rewrite bind_lift_ret | apply only_info_nil].
  destruct (py_getitem sub "type") as [declared | e];
    [rewrite bind_lift_ret | apply only_info_nil].
  assert (_get_custom_type self declared None
          = ([(ERROR, CustomTypeNotFound declared)], Ret None)
          \/ (exists cls, _get_custom_type self declared None = ret (Some cls))
          \/ (exists e, _get_custom_type self declared None = ([], Raise e))) as Hct.
  { unfold _get_custom_type, get_custom_type, mapping_getitem.
    destruct (py_hash declared) as [[| n | s] | e]; cbn [lift bind try_except is_KeyError];
      try (left; reflexivity).
    - destruct (assoc s TYPE_MAPPING) as [cls |];
        [right; left; exists cls | left]; reflexivity.
    - destruct (is_KeyError e) eqn:E; [left | right; right; exists e]; cbn; rewrite ?E;
        reflexivity. }
  destruct Hct as [-> | [[cls ->] | [e ->]]].
  - unfold turn_explained. cbn. exists [], (CustomTypeNotFound declared).
    split; [reflexivity | apply only_info_nil].
  - rewrite bind_ret. destruct (negb (isinstance value cls)).
    + unfold turn_explained. cbn. eexists [], _. split; [reflexivity | apply only_info_nil].
    + destruct (isinstance value Tdict); [| reflexivity].
      specialize (Hrec sub value). unfold explained in Hrec. unfold turn_explained.
      destruct (recur sub value) as [l [[|] | e]]; cbn in Hrec |- *;
        rewrite ?app_nil_r; exact Hrec.
  - apply only_info_nil.
Qed.

Lemma walk_explained recur self schema items :
  (forall sub value, explained (recur sub value)) ->
  turn_explained (for_each items tt (check_field recur self schema)).
Proof.
  intros Hrec. induction items as [| field items IH]; cbn [for_each]; [reflexivity |].
  pose proof (check_field_explained recur self schema field Hrec) as Ht.
  unfold turn_explained in Ht.
  destruct (check_field recur self schema field tt) as [l [[[] | [|]] | e]];
    cbn in Ht |- *.
  - subst l. unfold turn_explained in IH |- *. cbn. exact IH.
  - unfold turn_explained. cbn. rewrite app_nil_r. exact Ht.
  - unfold turn_explained. cbn. rewrite app_nil_r. exact Ht.
  - exact Ht.
Qed.

Lemma validate_event_content_body_explained recur self schema event :
  (forall sub value, explained (recur sub value)) ->
  explained (validate_event_content_body recur self schema event).
Proof.
  intros Hrec. unfold validate_event_content_body.
  destruct (compare_event_fields_shape self schema (event_or_own self event))
    as [[msg ->] | [-> | [e ->]]].
  - unfold explained. cbn. exists [], msg. split; [reflexivity | apply only_info_nil].
  - cbn [bind negb logs result fst snd].
    destruct (py_items (event_or_own self event)) as [items | e].
    + rewrite bind_lift_ret.
      pose proof (walk_explained recur self schema items Hrec) as Hw.
      unfold turn_explained in Hw. unfold explained.
      destruct (for_each items tt (check_field recur self schema))
        as [l [[[] | [|]] | e]]; cbn in Hw |- *.
      * subst l. repeat constructor.
      * rewrite app_nil_r. constructor; [reflexivity | exact Hw].
      * destruct Hw as (l' & msg & -> & Hl'). rewrite app_nil_r.
        exists ((INFO, FieldsRegistered) :: l'), msg.
        split; [reflexivity | constructor; [reflexivity | exact Hl']].
      * constructor; [reflexivity | exact Hw].
    + unfold explained. cbn. repeat constructor.
  - apply only_info_nil.
Qed.

Lemma validate_event_content_fuel_explained n self schema event :
  explained (validate_event_content_fuel n self schema event).
Proof.
  revert schema event. induction n as [| n IH]; intros schema event.
  - apply only_info_nil.
  - cbn [validate_event_content_fuel].
    apply validate_event_content_body_explained. exact IH.
Qed.

(** X9. [validate_event_content] logs an [ERROR] record exactly when it
    returns false, and that record is then the last one; when it returns
    true or raises, every record it logged is an [INFO] record. *)
Theorem validate_event_content_explains_rejection
    (self : Validation) (schema event : pyval) :
  explained (validate_event_content self schema event)
  /\ (In ERROR (map fst (logs (validate_event_content self schema event)))
      <-> result (validate_event_content self schema event) = Ret false).
Proof.
  pose proof (validate_event_content_fuel_explained (S (depth schema)) self schema event)
    as H.
  fold (validate_event_content self schema event) in H.
  split; [exact H |].
  unfold explained, only_info in H.
  destruct (validate_event_content self schema event) as [l [[|] | e]]; cbn in H |- *.
  - split; [| discriminate]. intros (r & Hr & Hin)%in_map_iff.
    rewrite List.Forall_forall in H. specialize (H r Hin). congruence.
  - split; [reflexivity |]. intros _. destruct H as (l' & msg & -> & _).
    rewrite map_app. apply in_or_app. right. left. reflexivity.
  - split; [| discriminate]. intros (r & Hr & Hin)%in_map_iff.
    rewrite List.Forall_forall in H. specialize (H r Hin). congruence.
Qed.

End ValidatorLog.

(** ** format_table_columns on well-formed columns *)

Section ColumnsEquations.
Import json_schema_to_hive.

Lemma parse_columns_cons key value cols :
  parse_columns (VDict ((key, value) :: cols))
  = match parse_column key value, parse_columns (VDict cols) with
    | Some c, Some cs => Some (c :: cs)
    | _, _ => None
    end.
Proof.
  cbn [parse_columns]. unfold parse_column.
  destruct value as [| | | | | fields]; try reflexivity.
  destruct (dict_get "type" fields) as [[| | | type | |] |]; try reflexivity.
  destruct (dict_get "description" fields) as [description |]; try reflexivity.
  destruct (String.eqb type "object"); [| reflexivity].
  assert ((fix properties (fs : list (string * pyval)) : option (list column) :=
             match fs with
             | [] => None
             | (k, x) :: fs' =>
                 if String.eqb "properties" k then parse_columns x else properties fs'
             end) fields
          = match dict_get "properties" fields with
            | Some props => parse_columns props
            | None => None
            end) as ->.
  { induction fields as [| [k x] fields IH]; cbn [dict_get]; [reflexivity |].
    destruct (String.eqb "properties" k); [reflexivity | exact IH]. }
  destruct (dict_get "properties" fields); reflexivity.
Qed.

Lemma schema_columns_properties fields :
  schema_columns (VDict fields)
  = match dict_get "properties" fields with
    | Some (VDict props) =>
        collect (map (fun p => schema_column (fst p) (snd p)) props)
    | _ => None
    end.
Proof.
  cbn [schema_columns].
  induction fields as [| [k x] fields IH]; cbn [dict_get]; [reflexivity |].
  destruct (String.eqb "properties" k); [| exact IH].
  destruct x as [| | | | | props]; try reflexivity.
  clear IH. induction props as [| [key value] props IH]; [reflexivity |].
  cbn [map collect fst snd]. rewrite <- IH. reflexivity.
Qed.

End ColumnsEquations.

Section ColumnsClosedForm.
Import json_schema_to_hive.

Lemma get_custom_type_unknown {T} (mapping : list (string * T)) name :
  assoc name mapping = None ->
  get_custom_type mapping (VStr name) None
  = ([(ERROR, CustomTypeNotFound (VStr name))], Ret None).
Proof.
  intros H. unfold get_custom_type, mapping_getitem. cbn [py_hash]. rewrite H. reflexivity.
Qed.

Lemma for_each_columns
    (body : string * pyval -> locals -> M (locals + Empty_set)) separator cols :
  forall cs st,
  parse_columns (VDict cols) = Some cs ->
  (forall key value st c,
     In (key, value) cols -> parse_column key value = Some c ->
     exists st1,
       body (key, value) st = (type_errors c, Ret (inl st1))
       /\ col_data_list st1 = col_data_list st ++ [column_text separator c]) ->
  exists st',
    for_each cols st body = (flat_map type_errors cs, Ret (inl st'))
    /\ col_data_list st' = col_data_list st ++ map (column_text separator) cs.
Proof.
  induction cols as [| [key value] cols IH]; intros cs st Hp Hbody.
  - injection Hp as <-. exists st. cbn. rewrite app_nil_r. split; reflexivity.
  - rewrite parse_columns_cons in Hp.
    destruct (parse_column key value) as [c |] eqn:Ec; [| discriminate].
    destruct (parse_columns (VDict cols)) as [cs' |] eqn:Ecs; [| discriminate].
    injection Hp as <-.
    destruct (Hbody key value st c (or_introl eq_refl) Ec) as (st1 & Hb & Hl).
    destruct (IH cs' st1 eq_refl) as (st' & Hf & Hl').
    { intros k v s c' Hin. apply Hbody. right. exact Hin. }
    exists st'. cbn [for_each]. rewrite Hb. cbn [bind]. rewrite Hf.
    cbn [logs result fst snd flat_map map]. split; [reflexivity |].
    rewrite Hl', Hl, <- app_assoc. reflexivity.
Qed.

(** Run a turn of the loop whose reads are known. *)
Ltac run_turn_with known :=
  repeat first
    [ known
    | rewrite bind_lift_ret
    | rewrite bind_ret
    | progress cbn [bind try_except lift ret log logs result fst snd app read_local
                    col_data col_data_list obj_columns comment fmt_type type_errors
                    column_text py_eq_str String.eqb Ascii.eqb Bool.eqb flat_map]
    | match goal with H : py_truthy _ = _ |- _ => rewrite H end ];
  rewrite ?app_nil_r;
  eexists; (split; [reflexivity |]);
  cbn [col_data_list column_text]; unfold comment_text, columns_text;
  repeat match goal with H : py_truthy _ = _ |- _ => rewrite H end;
  rewrite ?append_nil_r; reflexivity.

Ltac run_turn := run_turn_with fail.

Lemma format_table_columns_body_closed_form recur self separator cols cs :
  parse_columns (VDict cols) = Some cs ->
  (forall key fields props inner,
     In (key, VDict fields) cols ->
     dict_get "properties" fields = Some props ->
     parse_columns props = Some inner ->
     recur props ":" = (flat_map type_errors inner, Ret (columns_text ":" inner))) ->
  format_table_columns_body recur self (VDict cols) separator
  = (flat_map type_errors cs, Ret (columns_text separator cs)).
Proof.
  intros Hp Hrec. unfold format_table_columns_body.
  cbn [py_items]. rewrite bind_lift_ret.
  match goal with |- context [for_each cols ?st0 ?b] =>
    destruct (for_each_columns b separator cols cs st0 Hp) as (st' & -> & Hl)
  end.
  - intros key value st c Hin Hc. unfold parse_column in Hc.
    destruct value as [| | | | | fields]; try discriminate.
    destruct (dict_get "type" fields) as [[| | | type | |] |] eqn:Et; try discriminate.
    destruct (dict_get "description" fields) as [description |] eqn:Ed; try discriminate.
    cbn [py_getitem]. rewrite !Et, !Ed.
    unfold _get_custom_type. rewrite bind_lift_ret. cbn [py_eq_str].
    destruct (String.eqb type "object") eqn:Eo.
    + apply String.eqb_eq in Eo. subst type.
      destruct (dict_get "properties" fields) as [props |] eqn:Ep; [| discriminate].
      destruct (parse_columns props) as [inner |] eqn:Ei; [| discriminate].
      injection Hc as <-.
      rewrite (get_custom_type_known TYPE_MAPPING None "object" "struct" eq_refl
                 (or_introl eq_refl)).
      pose proof (Hrec key fields props inner Hin Ep Ei) as Hr.
      unfold comment_text. destruct (py_truthy description) eqn:Ey;
        run_turn_with ltac:(first [rewrite Ep | rewrite Hr]).
    + injection Hc as <-. cbn [type_errors column_text].
      destruct (assoc type TYPE_MAPPING) as [kw |] eqn:Ea.
      * rewrite (get_custom_type_known TYPE_MAPPING None type kw Ea (or_introl eq_refl)).
        unfold comment_text. destruct (py_truthy description) eqn:Ey;
          run_turn_with ltac:(rewrite Eo).
      * rewrite (get_custom_type_unknown TYPE_MAPPING type Ea).
        unfold comment_text. destruct (py_truthy description) eqn:Ey;
          run_turn_with ltac:(rewrite Eo).
  - cbn [bind logs result fst snd ret]. rewrite app_nil_r, Hl. reflexivity.
Qed.

End ColumnsClosedForm.

Section ColumnsTheorems.
Import json_schema_to_hive.

Lemma parse_columns_mapping v cs : parse_columns v = Some cs -> exists cols, v = VDict cols.
Proof. destruct v; try discriminate. intros _. eexists. reflexivity. Qed.

Lemma format_table_columns_fuel_closed_form n self col_dict separator cs :
  depth col_dict < n ->
  parse_columns col_dict = Some cs ->
  format_table_columns_fuel n self col_dict separator
  = (flat_map type_errors cs, Ret (columns_text separator cs)).
Proof.
  revert col_dict separator cs.
  induction n as [| n IH]; intros col_dict separator cs Hn Hp; [lia |].
  destruct (parse_columns_mapping _ _ Hp) as [cols ->].
  cbn [format_table_columns_fuel].
  apply format_table_columns_body_closed_form; [exact Hp |].
  intros key fields props inner Hin Hprops Hinner.
  apply IH; [| exact Hinner].
  pose proof (item_depth _ _ _ Hin). pose proof (dict_get_depth _ _ _ Hprops). lia.
Qed.

(** X10. On a column mapping that reads as the columns [cs] (each entry
    has a text for [type], a [description] and, for an object, such a
    mapping for [properties]), [format_table_columns] does not raise. It
    returns the columns in the mapping's order, joined by a comma and a
    line break, each as [name<separator> keyword] followed by its comment
    when the description is truthy; an object shows its own columns
    between [<] and [>] with [:] for separator, at every depth. It logs
    one error for each type name TYPE_MAPPING does not have, and shows the
    text [None] for it. *)
Theorem format_table_columns_renders
    (self : Query) (col_dict : pyval) (separator : string) (cs : list column) :
  parse_columns col_dict = Some cs ->
  format_table_columns self col_dict separator
  = (flat_map type_errors cs, Ret (columns_text separator cs)).
Proof.
  intros Hp. unfold format_table_columns.
  apply format_table_columns_fuel_closed_form; [lia | exact Hp].
Qed.

End ColumnsTheorems.

(** ** The records of create_table *)

Section CreateTableLog.
Import json_schema_to_hive.

(** X11. The log of [create_table] starts with the records of the start
    and of the table name; when the method returns a statement, the log
    ends with the end record followed by the record that holds that very
    statement. *)
Theorem create_table_logs_its_statement (self : Query)
    (col_params tb_desc partition_params clustering_params num_buckets
     row_format file_format serde_properties location tbl_properties : pyval) :
  let run := create_table self col_params tb_desc partition_params clustering_params
               num_buckets row_format file_format serde_properties location
               tbl_properties in
  (exists notes, logs run = (INFO, QueryStart) :: (INFO, IncludedName) :: notes)
  /\ (forall query, result run = Ret query ->
      exists notes,
        logs run = (INFO, QueryStart) :: (INFO, IncludedName) :: notes
                   ++ [(INFO, QueryEnd); (INFO, QueryText query)]).
Proof.
  intros run. subst run. rewrite create_table_assemble. unfold assemble.
  destruct (sequence _) as [notes [fragments | e]];
    cbn [bind log ret logs result fst snd app].
  - split; [eexists; reflexivity |].
    intros query [= <-]. exists notes. reflexivity.
  - split; [eexists; reflexivity | discriminate].
Qed.

Lemma format_table_properties_mapping self items :
  format_table_properties self (VDict items) = ret (comma_joined_pairs items).
Proof.
  unfold format_table_properties. cbn [py_items]. rewrite bind_lift_ret.
  f_equal.
  induction items as [| [key value] [| [key' value'] rest] IH]; [reflexivity .. |].
  cbn [map String.concat comma_joined_pairs] in *.
  fold (property_pair key value). rewrite <- IH. reflexivity.
Qed.

Lemma str_join_names sep names :
  str_join sep (VList (map VStr names)) = Ret (String.concat sep names).
Proof.
  unfold str_join. cbn [py_iter].
  assert (all_str (map VStr names) = Ret names) as ->; [| reflexivity].
  induction names as [| name names IH]; cbn; [| rewrite IH]; reflexivity.
Qed.

(** X23. On well-formed arguments [create_table] does not raise, and the
    statement is known in full. Let each of the column mapping and the
    partition mapping be falsy or read as columns, the clustering columns
    (when they and the bucket number are truthy) be a list of texts, and
    each of the two property arguments be falsy or a mapping. Then the
    method returns the head followed, in the fixed order, by the clause of
    each truthy argument: the columns and the partition columns as
    [format_table_columns] shows them, the clustering names joined by
    commas, and the properties as comma-joined ['key' = 'value'] pairs. *)
Theorem create_table_returns_on_well_formed_input (self : Query)
    (col_params tb_desc partition_params clustering_params num_buckets
     row_format file_format serde_properties location tbl_properties : pyval)
    (columns partition : list column) (names : list string)
    (serde props : list (string * pyval)) :
  (py_truthy col_params = true -> parse_columns col_params = Some columns) ->
  (py_truthy partition_params = true -> parse_columns partition_params = Some partition) ->
  (py_truthy clustering_params && py_truthy num_buckets = true ->
   clustering_params = VList (map VStr names)) ->
  (py_truthy serde_properties = true -> serde_properties = VDict serde) ->
  (py_truthy tbl_properties = true -> tbl_properties = VDict props) ->
  result (create_table self col_params tb_desc partition_params clustering_params
            num_buckets row_format file_format serde_properties location tbl_properties)
  = Ret (fold_left String.append
           [ clause_text (py_truthy col_params) ("(" +:+ columns_text "" columns +:+ ")");
             clause_text (py_truthy tb_desc) ("COMMENT '" +:+ py_str tb_desc +:+ "'");
             clause_text (py_truthy partition_params)
               ("PARTITIONED BY (" +:+ columns_text "" partition +:+ ")");
             clause_text (py_truthy clustering_params && py_truthy num_buckets)
               (clustered_by (String.concat "," names) num_buckets);
             clause_text (py_truthy row_format)
               ("ROW FORMAT '" +:+ py_str row_format +:+ "'");
             clause_text (py_truthy file_format) ("STORED AS " +:+ py_str file_format);
             clause_text (py_truthy serde_properties)
               ("WITH SERDEPROPERTIES (" +:+ comma_joined_pairs serde +:+ ")");
             clause_text (py_truthy location) ("LOCATION '" +:+ py_str location +:+ "'");
             clause_text (py_truthy tbl_properties)
               ("TBLPROPERTIES (" +:+ comma_joined_pairs props +:+ ")") ]
           (table_head self)).
Proof.
  intros Hcols Hpart Hclus Hserde Hprops.
  rewrite create_table_assemble.
  apply result_assemble, sequence_results. unfold clauses.
  repeat first
    [ apply List.Forall2_nil
    | apply List.Forall2_cons
    | apply result_noted_clause
    | apply (result_rendered_clause _ _ _ (fun x => "(" +:+ x +:+ ")"));
      intros Ht; unfold format_table_columns;
      rewrite (format_table_columns_fuel_closed_form _ self _ "" columns);
      [reflexivity | lia | exact (Hcols Ht)]
    | apply (result_rendered_clause _ _ _ (fun x => "PARTITIONED BY (" +:+ x +:+ ")"));
      intros Ht; unfold format_table_columns;
      rewrite (format_table_columns_fuel_closed_form _ self _ "" partition);
      [reflexivity | lia | exact (Hpart Ht)]
    | apply (result_rendered_clause _ _ _ (fun x => "WITH SERDEPROPERTIES (" +:+ x +:+ ")"));
      intros Ht; rewrite (Hserde Ht), format_table_properties_mapping; reflexivity
    | apply (result_rendered_clause _ _ _ (fun x => "TBLPROPERTIES (" +:+ x +:+ ")"));
      intros Ht; rewrite (Hprops Ht), format_table_properties_mapping; reflexivity
    | apply result_clustering_clause;
      intros Ht; rewrite (Hclus Ht); apply str_join_names ].
Qed.

End CreateTableLog.

(** ** get_col_data: the filter *)

Section SchemaFilter.
Import json_schema_to_hive.

Lemma run_eta {A} (p : store * M A) : (fst p, (logs (snd p), result (snd p))) = p.
Proof. destruct p as [h [l o]]. reflexivity. Qed.

Lemma sbind_raises {A B} (m : SM A) (f : A -> SM B) h h1 l e :
  m h = (h1, (l, Raise e)) -> sbind m f h = (h1, (l, Raise e)).
Proof. intros H. unfold sbind. rewrite H. reflexivity. Qed.

(** The method as the choice of its schema, the filter and the reading. *)
Lemma get_col_data_on_mapping self S filtered_col h d :
  deref h S = Some (VDict d) -> d <> [] ->
  get_col_data self (Some S) filtered_col h
  = ((slift (log INFO ColDataStart) ;;~
      match filtered_col with
      | Some ((_ :: _) as cols) =>
          filtered <~
            sfor_each cols [] (fun key acc =>
              s <~ load S ;;
              props <~ slift (lift (py_getitem s "properties")) ;;
              x <~ slift (lift (py_getitem props key)) ;;
              sret (dict_set key x acc)) ;;
          setitem S "properties" (VDict filtered) ;;~
          slift (log INFO (ColDataFiltered cols))
      | _ => sret tt
      end ;;~
      collect_columns (get_col_data_nested self) S) h).
Proof.
  intros HS Hd. unfold get_col_data, get_col_data_body.
  fold (collect_columns (get_col_data_nested self)).
  apply sbind_ext_at. intros ? ? [] [= <- _].
  erewrite sbind_returns; cycle 1.
  { erewrite sbind_returns by (apply load_returns; exact HS).
    cbn. destruct d; [congruence | reflexivity]. }
  cbn [fst snd logs result app negb].
  rewrite run_eta. reflexivity.
Qed.


(** X12. Without a column filter [get_col_data] leaves every schema
    object as it found it, whatever it returns or raises; and an empty
    filter list is no filter: the call does what the call without a filter
    does. *)
Theorem get_col_data_without_filter_keeps_schema
    (self : Schema) (schema : option ref) (h : store) :
  fst (get_col_data self schema None h) = h
  /\ get_col_data self schema (Some []) h = get_col_data self schema None h.
Proof.
  split; [| reflexivity].
  unfold get_col_data, get_col_data_body.
  fold (collect_columns (get_col_data_nested self)).
  apply keeps_sbind; [apply keeps_slift | intros _].
  apply keeps_sbind.
  - destruct schema as [r |]; [| apply keeps_sret].
    apply keeps_sbind; [apply keeps_load | intros v; apply keeps_sret].
  - intros r. apply keeps_sbind; [apply keeps_sret | intros _].
    apply keeps_collect_columns. intros r'. apply keeps_get_col_data_nested.
Qed.

(** X24. A schema argument that is falsy (an empty mapping, [None]) is
    replaced by the object's own schema, with or without a filter: the
    call is the call that leaves the argument out. *)
Theorem get_col_data_falsy_schema_is_own_schema
    (self : Schema) (r : ref) (filtered_col : option (list string))
    (h : store) (v : pyval) :
  deref h r = Some v -> py_truthy v = false ->
  get_col_data self (Some r) filtered_col h = get_col_data self None filtered_col h.
Proof.
  intros Hr Ht. unfold get_col_data, get_col_data_body.
  apply sbind_ext_at. intros h1 l [] [= <- _].
  apply sbind_cong_at.
  erewrite sbind_returns by (apply load_returns; exact Hr).
  cbn. rewrite Ht. reflexivity.
Qed.

Lemma comprehension_raises h r d props pre key post acc :
  deref h r = Some (VDict d) ->
  dict_get "properties" d = Some (VDict props) ->
  (forall name, In name pre -> dict_get name props <> None) ->
  dict_get key props = None ->
  sfor_each (pre ++ key :: post) acc (fun key acc =>
      s <~ load r ;;
      props <~ slift (lift (py_getitem s "properties")) ;;
      x <~ slift (lift (py_getitem props key)) ;;
      sret (dict_set key x acc)) h
  = (h, ([], Raise (KeyError (VStr key)))).
Proof.
  intros Hr Hp Hpre Hkey. revert acc.
  induction pre as [| name pre IH]; intros acc; cbn [app sfor_each].
  - unfold sbind at 1.
    erewrite sbind_returns by (apply load_returns; exact Hr).
    cbn. rewrite Hp. cbn. rewrite Hkey. reflexivity.
  - destruct (dict_get name props) as [x |] eqn:Ex;
      [| exfalso; apply (Hpre name); [left; reflexivity | exact Ex]].
    erewrite sbind_returns; cycle 1.
    { erewrite sbind_returns by (apply load_returns; exact Hr).
      cbn. rewrite Hp. cbn. rewrite Ex. reflexivity. }
    rewrite IH by (intros n Hn; apply Hpre; right; exact Hn). reflexivity.
Qed.

(** X13. A filter that names a column the schema does not have raises
    [KeyError] for the first such name, after the start record only, and
    the schema is not written: the selection is built before it is
    assigned. *)
Theorem get_col_data_filter_missing_column
    (self : Schema) (h : store) (S : ref) (d props : list (string * pyval))
    (pre : list string) (key : string) (post : list string) :
  deref h S = Some (VDict d) -> d <> [] ->
  dict_get "properties" d = Some (VDict props) ->
  (forall name, In name pre -> dict_get name props <> None) ->
  dict_get key props = None ->
  get_col_data self (Some S) (Some (pre ++ key :: post)) h
  = (h, ([(INFO, ColDataStart)], Raise (KeyError (VStr key)))).
Proof.
  intros HS Hd Hp Hpre Hkey.
  rewrite (get_col_data_on_mapping _ _ _ _ _ HS Hd).
  erewrite sbind_returns by reflexivity. cbn [fst snd logs result slift log].
  erewrite sbind_raises; [reflexivity |].
  pose proof (comprehension_raises _ _ _ _ _ _ post [] HS Hp Hpre Hkey) as Hc.
  destruct pre as [| c pre]; cbn [app] in Hc |- *;
    (erewrite sbind_raises; [reflexivity | exact Hc]).
Qed.

(** X14. The filter stays: after [get_col_data(schema=S, filtered_col=F)],
    a call on [S] without a filter returns (or raises) what the filtered
    call did, and changes nothing more. *)
Theorem get_col_data_filter_persists
    (self : Schema) (h : store) (S : ref)
    (d props selected : list (string * pyval)) (F : list string) :
  deref h S = Some (VDict d) -> d <> [] ->
  dict_get "properties" d = Some (VDict props) ->
  F <> [] ->
  select_columns props F [] = Some selected ->
  let filtered := get_col_data self (Some S) (Some F) h in
  let again := get_col_data self (Some S) None (fst filtered) in
  fst again = fst filtered
  /\ result (snd again) = result (snd filtered)
  /\ logs (snd filtered)
     = (INFO, ColDataStart) :: (INFO, ColDataFiltered F) :: tl (logs (snd again)).
Proof.
  intros HS Hd Hp HF Hsel filtered again.
  set (d' := dict_set "properties" (VDict selected) d).
  set (h1 := store_write h S (VDict d')).
  assert (deref h1 S = Some (VDict d')) as HS1 by exact (deref_store_write _ _ _ _ HS).
  assert (d' <> []) as Hd'.
  { unfold d'. destruct d as [| [k v] d]; [congruence |]. cbn [dict_set].
    destruct (String.eqb "properties" k); discriminate. }
  assert (filtered
          = (fst (collect_columns (get_col_data_nested self) S h1),
             ((INFO, ColDataStart) :: (INFO, ColDataFiltered F)
                :: logs (snd (collect_columns (get_col_data_nested self) S h1)),
              result (snd (collect_columns (get_col_data_nested self) S h1))))) as Hf.
  { unfold filtered. rewrite (get_col_data_on_mapping _ _ _ _ _ HS Hd).
    erewrite sbind_returns by reflexivity. cbn [fst snd logs result slift log].
    destruct F as [| key F]; [congruence |].
    erewrite sbind_returns; cycle 1.
    { erewrite sbind_returns
        by (exact (comprehension_returns _ _ _ _ _ _ _ HS Hp Hsel)).
      cbn [fst snd logs result].
      erewrite sbind_returns; cycle 1.
      { unfold setitem. rewrite HS. reflexivity. }
      cbn. reflexivity. }
    reflexivity. }
  assert (fst filtered = h1) as Hh.
  { rewrite Hf. cbn [fst].
    apply (keeps_collect_columns (get_col_data_nested self) S).
    intros r. apply keeps_get_col_data_nested. }
  assert (again
          = (fst (collect_columns (get_col_data_nested self) S h1),
             ((INFO, ColDataStart)
                :: logs (snd (collect_columns (get_col_data_nested self) S h1)),
              result (snd (collect_columns (get_col_data_nested self) S h1))))) as Ha.
  { unfold again. rewrite Hh. rewrite (get_col_data_on_mapping _ _ _ _ _ HS1 Hd').
    erewrite sbind_returns by reflexivity. cbn [fst snd logs result slift log].
    erewrite sbind_returns by reflexivity. reflexivity. }
  rewrite Ha, Hf. cbn [fst snd logs result tl]. repeat split.
Qed.

End SchemaFilter.

(** ** get_col_data: the columns it returns *)

Section SchemaClosedForm.
Import json_schema_to_hive.

Lemma dict_set_fresh k x d :
  ~ In k (map fst d) -> dict_set k x d = d ++ [(k, x)].
Proof.
  induction d as [| [k' v] d IH]; cbn; [reflexivity |].
  intros H. destruct (String.eqb k k') eqn:E.
  - apply String.eqb_eq in E. subst k'. tauto.
  - rewrite IH by tauto. reflexivity.
Qed.

Lemma dict_set_last k x y d :
  ~ In k (map fst d) -> dict_set k y (d ++ [(k, x)]) = d ++ [(k, y)].
Proof.
  induction d as [| [k' v] d IH]; cbn.
  - rewrite String.eqb_refl. reflexivity.
  - intros H. destruct (String.eqb k k') eqn:E.
    + apply String.eqb_eq in E. subst k'. tauto.
    + rewrite IH by tauto. reflexivity.
Qed.

Lemma schema_column_name key value c :
  schema_column key value = Some c -> fst (column_entry c) = key.
Proof.
  unfold schema_column. destruct value as [| | | | | vf]; try discriminate.
  destruct (dict_get "type" vf) as [[| | | type | |] |]; try discriminate.
  destruct (dict_get "description" vf) as [d |]; try discriminate.
  destruct (String.eqb type "object").
  - destruct (schema_columns (VDict vf)); [| discriminate]. intros [= <-]. reflexivity.
  - intros [= <-]. reflexivity.
Qed.

Lemma slift_lift_returns {A} (a : A) h : slift (lift (Ret a)) h = (h, ([], Ret a)).
Proof. reflexivity. Qed.

(** One turn of the loop of [get_col_data] on a property the schema
    declares well. *)
Lemma collect_turn (recur : option ref -> option (list string) -> SM pyval)
    r h key value c acc :
  schema_column key value = Some c ->
  ~ In key (map fst acc) ->
  (forall inner, schema_columns value = Some inner ->
     recur (Some (sub_ref (sub_ref r "properties") key)) None h
     = (h, (col_data_log inner, Ret (col_dict_of inner)))) ->
  (t <~ slift (lift (py_getitem value "type")) ;;
   d <~ slift (lift (py_getitem value "description")) ;;
   let entry := [("type", t); ("description", d)] in
   let col_dict := dict_set key (VDict entry) acc in
   t <~ slift (lift (py_getitem value "type")) ;;
   if py_eq_str t "object" then
     nested <~ recur (Some (sub_ref (sub_ref r "properties") key)) None ;;
     sret (dict_set key (VDict (dict_set "properties" nested entry)) col_dict)
   else sret col_dict) h
  = (h, (column_log c, Ret (acc ++ [column_entry c]))).
Proof.
  intros Hc Hfresh Hrec. unfold schema_column in Hc.
  destruct value as [| | | | | vf]; try discriminate.
  destruct (dict_get "type" vf) as [[| | | type | |] |] eqn:Et; try discriminate.
  destruct (dict_get "description" vf) as [d |] eqn:Ed; try discriminate.
  cbn [py_getitem]. rewrite !Et, !Ed.
  erewrite sbind_returns by apply slift_lift_returns. cbn [fst snd logs result app].
  erewrite sbind_returns by apply slift_lift_returns. cbn [fst snd logs result app].
  erewrite sbind_returns by apply slift_lift_returns. cbn [fst snd logs result app].
  cbn [py_eq_str].
  destruct (String.eqb type "object") eqn:Eo.
  - apply String.eqb_eq in Eo. subst type.
    destruct (schema_columns (VDict vf)) as [inner |] eqn:Ei; [| discriminate].
    injection Hc as <-.
    erewrite sbind_returns by (apply Hrec; reflexivity).
    cbn [fst snd logs result app sret ret].
    rewrite (dict_set_fresh key _ acc Hfresh).
    rewrite (dict_set_last key _ _ acc Hfresh).
    cbn [column_log column_entry col_data_log]. rewrite app_nil_r. reflexivity.
  - injection Hc as <-. cbn [sret ret column_log column_entry].
    rewrite dict_set_fresh by exact Hfresh. reflexivity.
Qed.

Lemma collect_loop (body : string * pyval -> list (string * pyval) -> SM (list (string * pyval)))
    h props :
  forall cs acc,
  collect (map (fun p => schema_column (fst p) (snd p)) props) = Some cs ->
  NoDup (map fst acc ++ map fst props) ->
  (forall key value c acc,
     In (key, value) props -> schema_column key value = Some c ->
     ~ In key (map fst acc) ->
     body (key, value) acc h = (h, (column_log c, Ret (acc ++ [column_entry c])))) ->
  sfor_each props acc body h
  = (h, (flat_map column_log cs, Ret (acc ++ map column_entry cs))).
Proof.
  induction props as [| [key value] props IH]; intros cs acc Hcs Hnd Hbody.
  - injection Hcs as <-. cbn. rewrite app_nil_r. reflexivity.
  - cbn [map collect fst snd] in Hcs.
    destruct (schema_column key value) as [c |] eqn:Ec; [| discriminate].
    destruct (collect _) as [cs' |] eqn:Ecs; [| discriminate].
    injection Hcs as <-.
    cbn [map fst] in Hnd.
    assert (~ In key (map fst acc)) as Hfresh.
    { apply NoDup_app in Hnd as (_ & Hd & _). intros Hin.
      apply (Hd key); [apply list_elem_of_In; exact Hin | left]. }
    cbn [sfor_each].
    erewrite sbind_returns by (apply Hbody; [left; reflexivity | exact Ec | exact Hfresh]).
    rewrite (IH cs' (acc ++ [column_entry c]) eq_refl).
    + cbn [fst snd logs result flat_map map]. rewrite <- app_assoc. reflexivity.
    + rewrite map_app. cbn [map]. rewrite (schema_column_name _ _ _ Ec).
      rewrite <- app_assoc. exact Hnd.
    + intros k v c' acc' Hin. apply Hbody. right. exact Hin.
Qed.

End SchemaClosedForm.

Section SchemaTheorems.
Import json_schema_to_hive.

Lemma schema_columns_mapping v cs :
  schema_columns v = Some cs ->
  exists fields props,
    v = VDict fields /\ dict_get "properties" fields = Some (VDict props)
    /\ collect (map (fun p => schema_column (fst p) (snd p)) props) = Some cs.
Proof.
  destruct v as [| | | | | fields]; try discriminate.
  rewrite schema_columns_properties.
  destruct (dict_get "properties" fields) as [[| | | | | props] |] eqn:E; try discriminate.
  intros H. exists fields, props. repeat split; assumption.
Qed.

Lemma collect_columns_closed_form recur r h v cs :
  deref h r = Some v -> unique_keys v = true ->
  schema_columns v = Some cs ->
  (forall key value inner,
     deref h (sub_ref (sub_ref r "properties") key) = Some value ->
     unique_keys value = true -> depth value < depth v ->
     schema_columns value = Some inner ->
     recur (Some (sub_ref (sub_ref r "properties") key)) None h
     = (h, (col_data_log inner, Ret (col_dict_of inner)))) ->
  collect_columns recur r h
  = (h, (flat_map column_log cs ++ [(INFO, ColDataEnd)], Ret (col_dict_of cs))).
Proof.
  intros Hr Hu Hcs Hrec.
  destruct (schema_columns_mapping _ _ Hcs) as (fields & props & -> & Hp & Hcollect).
  destruct (unique_keys_item _ _ _ Hu (dict_get_In _ _ _ Hp)) as [_ Hup].
  unfold collect_columns.
  erewrite sbind_returns by (apply load_returns; exact Hr).
  cbn [fst snd logs result app py_getitem]. rewrite Hp.
  erewrite sbind_returns by apply slift_lift_returns.
  cbn [fst snd logs result app py_items].
  erewrite sbind_returns by apply slift_lift_returns.
  cbn [fst snd logs result app].
  erewrite sbind_returns; cycle 1.
  { apply (collect_loop _ h props cs [] Hcollect).
    - cbn [map app]. cbn [unique_keys] in Hup.
      apply andb_true_iff in Hup as [Hnd _]. apply bool_decide_eq_true in Hnd. exact Hnd.
    - intros key value c acc Hin Hc Hfresh.
      apply (collect_turn recur r h key value c acc Hc Hfresh).
      intros inner Hinner.
      destruct (unique_keys_item _ _ _ Hup Hin) as [Hget Huv].
      apply (Hrec key value inner).
      + rewrite !deref_sub_ref, Hr, Hp. exact Hget.
      + exact Huv.
      + pose proof (dict_get_depth _ _ _ Hp). pose proof (dict_get_depth _ _ _ Hget). lia.
      + exact Hinner. }
  cbn [fst snd logs result app slift log sbind sret ret]. reflexivity.
Qed.

Lemma schema_columns_truthy v cs : schema_columns v = Some cs -> py_truthy v = true.
Proof.
  intros H. destruct (schema_columns_mapping _ _ H) as (fields & props & -> & Hp & _).
  exact (dict_get_truthy _ _ _ Hp).
Qed.

Lemma get_col_data_closed_form_at n self h :
  forall v r cs,
  depth v < n ->
  deref h r = Some v -> unique_keys v = true ->
  schema_columns v = Some cs ->
  get_col_data self (Some r) None h = (h, (col_data_log cs, Ret (col_dict_of cs))).
Proof.
  induction n as [| n IH]; intros v r cs Hn Hr Hu Hcs; [lia |].
  pose proof (schema_columns_truthy _ _ Hcs) as Ht.
  destruct (schema_columns_mapping _ _ Hcs) as (fields & props & -> & Hp & _).
  rewrite (get_col_data_on_mapping self r None h fields Hr)
    by (intros ->; discriminate).
  erewrite sbind_returns by reflexivity. cbn [fst snd logs result slift log].
  erewrite sbind_returns by reflexivity. cbn [fst snd logs result sret ret app].
  rewrite (collect_columns_closed_form _ r h (VDict fields) cs Hr Hu Hcs).
  - reflexivity.
  - intros key value inner Hv Huv Hd Hinner.
    rewrite (get_col_data_nested_unfold self _ h value Hv
               (schema_columns_truthy _ _ Hinner) Huv).
    apply (IH value); [lia | exact Hv | exact Huv | exact Hinner].
Qed.

Lemma get_col_data_own_schema self filtered_col h v :
  deref h (schema self) = Some v ->
  get_col_data self None filtered_col h
  = get_col_data self (Some (schema self)) filtered_col h.
Proof.
  intros Hr. unfold get_col_data, get_col_data_body.
  apply sbind_ext_at. intros h1 l [] [= <- _].
  apply sbind_cong_at.
  erewrite sbind_returns by (apply load_returns; exact Hr).
  cbn. destruct (negb (py_truthy v)); reflexivity.
Qed.

(** X15. On a schema object that declares the columns [cs] (each property
    has a text for [type] and a [description], an object property being
    such a schema itself), [get_col_data] without a filter returns the
    column mapping of [cs], in the order of [properties]: [type] and
    [description] for a scalar, and the nested mapping under [properties]
    as well for an object. It logs a start and an end record for itself
    and for each object, and writes nothing. The same holds when the
    schema is left out and the object's own schema is read. *)
Theorem get_col_data_collects_declared_columns
    (self : Schema) (h : store) (S : ref) (v : pyval) (cs : list column) :
  deref h S = Some v -> unique_keys v = true ->
  schema_columns v = Some cs ->
  get_col_data self (Some S) None h = (h, (col_data_log cs, Ret (col_dict_of cs)))
  /\ (schema self = S ->
      get_col_data self None None h = (h, (col_data_log cs, Ret (col_dict_of cs)))).
Proof.
  intros Hr Hu Hcs.
  assert (get_col_data self (Some S) None h = (h, (col_data_log cs, Ret (col_dict_of cs))))
    as H by (apply (get_col_data_closed_form_at (Datatypes.S (depth v)) self h v); auto).
  split; [exact H |].
  intros <-. rewrite (get_col_data_own_schema _ _ _ _ Hr). exact H.
Qed.

(** What [get_col_data] returns for a schema is a column mapping that reads
    back as the schema's columns. *)
Lemma parse_col_dict_of n :
  forall v cs, depth v < n -> schema_columns v = Some cs ->
  parse_columns (col_dict_of cs) = Some cs.
Proof.
  induction n as [| n IH]; intros v cs Hn Hcs; [lia |].
  destruct (schema_columns_mapping _ _ Hcs) as (fields & props & -> & Hp & Hcollect).
  assert (forall key value, In (key, value) props -> depth value < n) as Hdepth.
  { intros key value Hin. pose proof (item_depth _ _ _ Hin).
    pose proof (dict_get_depth _ _ _ Hp). lia. }
  clear Hcs Hp Hn. revert cs Hcollect.
  induction props as [| [key value] props IHp]; intros cs Hcollect.
  - injection Hcollect as <-. reflexivity.
  - cbn [map collect fst snd] in Hcollect.
    destruct (schema_column key value) as [c |] eqn:Ec; [| discriminate].
    destruct (collect _) as [cs' |] eqn:Ecs; [| discriminate].
    injection Hcollect as <-.
    unfold col_dict_of. cbn [map].
    destruct (column_entry c) as [name entry] eqn:Ee.
    rewrite parse_columns_cons. fold (col_dict_of cs').
    rewrite (IHp (fun k v Hin => Hdepth k v (or_intror Hin)) cs' eq_refl).
    assert (parse_column name entry = Some c) as ->; [| reflexivity].
    unfold schema_column in Ec.
    destruct value as [| | | | | vf]; try discriminate.
    destruct (dict_get "type" vf) as [[| | | type | |] |]; try discriminate.
    destruct (dict_get "description" vf) as [d |]; try discriminate.
    destruct (String.eqb type "object") eqn:Eo.
    + destruct (schema_columns (VDict vf)) as [inner |] eqn:Ei; [| discriminate].
      injection Ec as <-. injection Ee as <- <-.
      unfold parse_column. cbn [dict_get String.eqb Ascii.eqb Bool.eqb].
      fold (col_dict_of inner).
      rewrite (IH (VDict vf) inner (Hdepth key _ (or_introl eq_refl)) Ei). reflexivity.
    + injection Ec as <-. injection Ee as <- <-.
      unfold parse_column. cbn [dict_get String.eqb Ascii.eqb Bool.eqb].
      rewrite Eo. reflexivity.
Qed.

(** X17. What [get_col_data] collects, [format_table_columns] renders:
    for a schema that declares the columns [cs], the mapping
    [get_col_data] returns reads back as [cs], and [format_table_columns]
    on it returns the text of [cs] without raising. *)
Theorem collected_columns_render
    (self : Schema) (q : Query) (h : store) (S : ref) (v : pyval)
    (cs : list column) (separator : string) :
  deref h S = Some v -> unique_keys v = true ->
  schema_columns v = Some cs ->
  exists col_params,
    result (snd (get_col_data self (Some S) None h)) = Ret col_params
    /\ parse_columns col_params = Some cs
    /\ format_table_columns q col_params separator
       = (flat_map type_errors cs, Ret (columns_text separator cs)).
Proof.
  intros Hr Hu Hcs. exists (col_dict_of cs).
  assert (parse_columns (col_dict_of cs) = Some cs) as Hp
    by (apply (parse_col_dict_of (Datatypes.S (depth v)) v); auto).
  split; [| split; [exact Hp |]].
  - rewrite (get_col_data_closed_form_at (Datatypes.S (depth v)) self h v S cs); auto.
  - apply format_table_columns_fuel_closed_form; [lia | exact Hp].
Qed.

End SchemaTheorems.

Section FilteredColumns.
Import json_schema_to_hive.

Lemma select_columns_keys props F :
  forall acc selected,
  select_columns props F acc = Some selected ->
  NoDup (map fst acc ++ F) ->
  map fst selected = map fst acc ++ F.
Proof.
  induction F as [| key F IH]; intros acc selected; cbn [select_columns].
  - intros [= <-] _. rewrite app_nil_r. reflexivity.
  - destruct (dict_get key props) as [x |]; [| discriminate].
    intros Hsel Hnd.
    assert (~ In key (map fst acc)) as Hfresh.
    { apply NoDup_app in Hnd as (_ & Hd & _). intros Hin.
      apply (Hd key); [apply list_elem_of_In; exact Hin | left]. }
    rewrite (IH _ _ Hsel); rewrite (dict_set_fresh key x acc Hfresh), map_app.
    + rewrite <- app_assoc. reflexivity.
    + rewrite <- app_assoc. exact Hnd.
Qed.

Lemma col_dict_of_names v cs :
  schema_columns v = Some cs ->
  exists fields props,
    v = VDict fields /\ dict_get "properties" fields = Some (VDict props)
    /\ map fst (map column_entry cs) = map fst props.
Proof.
  intros H. destruct (schema_columns_mapping _ _ H) as (fields & props & -> & Hp & Hc).
  exists fields, props. split; [reflexivity | split; [exact Hp |]].
  clear H Hp. revert cs Hc. induction props as [| [key value] props IH]; intros cs.
  - intros [= <-]. reflexivity.
  - cbn [map collect fst snd].
    destruct (schema_column key value) as [c |] eqn:Ec; [| discriminate].
    destruct (collect _) as [cs' |] eqn:Ecs; [| discriminate].
    intros [= <-]. cbn [map]. rewrite (schema_column_name _ _ _ Ec), (IH cs' eq_refl).
    reflexivity.
Qed.

(** X16. With a filter [F] of distinct names of [S["properties"]],
    [get_col_data] returns the columns of [F] only, in the order of [F]:
    the column mapping of the filtered schema, after the start record and
    the record of the filter. *)
Theorem get_col_data_returns_filtered_columns
    (self : Schema) (h : store) (S : ref)
    (d props selected : list (string * pyval)) (F : list string) (cs : list column) :
  deref h S = Some (VDict d) -> d <> [] ->
  dict_get "properties" d = Some (VDict props) ->
  F <> [] -> NoDup F ->
  select_columns props F [] = Some selected ->
  unique_keys (VDict (dict_set "properties" (VDict selected) d)) = true ->
  schema_columns (VDict (dict_set "properties" (VDict selected) d)) = Some cs ->
  snd (get_col_data self (Some S) (Some F) h)
  = ((INFO, ColDataStart) :: (INFO, ColDataFiltered F)
       :: flat_map column_log cs ++ [(INFO, ColDataEnd)],
     Ret (col_dict_of cs))
  /\ py_keys (col_dict_of cs) = Ret F.
Proof.
  intros HS Hd Hp HF Hnd Hsel Hu Hcs.
  set (d' := dict_set "properties" (VDict selected) d) in *.
  set (h1 := store_write h S (VDict d')).
  assert (deref h1 S = Some (VDict d')) as HS1 by exact (deref_store_write _ _ _ _ HS).
  split.
  - rewrite (get_col_data_on_mapping _ _ _ _ _ HS Hd).
    erewrite sbind_returns by reflexivity. cbn [fst snd logs result slift log].
    destruct F as [| key F]; [congruence |].
    erewrite sbind_returns; cycle 1.
    { erewrite sbind_returns
        by (exact (comprehension_returns _ _ _ _ _ _ _ HS Hp Hsel)).
      cbn [fst snd logs result].
      erewrite sbind_returns; cycle 1.
      { unfold setitem. rewrite HS. reflexivity. }
      cbn. reflexivity. }
    cbn [fst snd logs result app]. fold d'. fold h1.
    rewrite (collect_columns_closed_form _ S h1 (VDict d') cs HS1 Hu Hcs).
    + reflexivity.
    + intros k value inner Hv Huv Hdepth Hinner.
      rewrite (get_col_data_nested_unfold self _ h1 value Hv
                 (schema_columns_truthy _ _ Hinner) Huv).
      apply (get_col_data_closed_form_at (Datatypes.S (depth value)) self h1 value);
        auto.
  - destruct (col_dict_of_names _ _ Hcs) as (fields & props' & [= <-] & Hp' & Hnames).
    unfold d' in Hp'. rewrite dict_get_set in Hp'. injection Hp' as <-.
    unfold col_dict_of. cbn [py_keys]. rewrite Hnames.
    rewrite (select_columns_keys _ _ _ _ Hsel) by exact Hnd. reflexivity.
Qed.

End FilteredColumns.

(** ** The logger create_logger leaves *)

Section LoggerSetup.

Lemma create_logger_handlers today n st :
  logger_handlers (Nat.iter n (fun st => fst (create_logger today 20 st)) st)
  = logger_handlers st ++ repeat ("logs/" +:+ "logger_" +:+ today +:+ ".log", 20%Z) n.
Proof.
  induction n as [| n IH].
  - cbn. rewrite app_nil_r. reflexivity.
  - rewrite Nat.iter_succ.
    change (logger_handlers (fst (create_logger today 20 ?s)))
      with (logger_handlers s
            ++ [("logs/" +:+ "logger_" +:+ today +:+ ".log", 20%Z)]).
    rewrite IH, <- app_assoc. f_equal. clear IH.
    induction n as [| n IH]; cbn [repeat app]; [reflexivity |].
    cbn [repeat app] in IH. rewrite IH. reflexivity.
Qed.

(** X25. [create_logger] is not idempotent: every call adds a file handler
    to the one logger of the module. After [n + 1] calls at the default
    level on the same day, starting from a logger without handlers, the
    [logs] folder is there, and each record sent to the logger is written
    [n + 1] times to the file of the day. Both handlers call
    [create_logger] each time they run. *)
Theorem create_logger_adds_a_handler_every_call
    (today : string) (n : nat) (st : logger_state) (r : record) :
  logger_handlers st = [] ->
  let calls := Nat.iter (S n) (fun st => fst (create_logger today 20 st)) st in
  logs_folder calls = true
  /\ length (logger_handlers calls) = S n
  /\ written calls r = repeat ("logs/" +:+ "logger_" +:+ today +:+ ".log", r) (S n).
Proof.
  intros Hst calls.
  assert (logger_handlers calls
          = repeat ("logs/" +:+ "logger_" +:+ today +:+ ".log", 20%Z) (S n)) as Hh
    by (unfold calls; rewrite create_logger_handlers, Hst; reflexivity).
  split; [| split].
  - unfold calls. rewrite Nat.iter_succ.
    change (logs_folder (fst (create_logger today 20 ?s)))
      with (if negb (logs_folder s) then true else logs_folder s).
    destruct (logs_folder _); reflexivity.
  - rewrite Hh. apply repeat_length.
  - unfold written. rewrite Hh.
    assert (logger_level calls = 20%Z) as ->
      by (unfold calls; rewrite Nat.iter_succ; reflexivity).
    assert ((level_number (fst r) <? 20)%Z = false) as Hr
      by (destruct r as [[| |] msg]; reflexivity).
    cbn [Z.eqb]. rewrite Hr. clear Hh calls.
    induction (S n) as [| k IH]; cbn [repeat flat_map snd fst app]; [reflexivity |].
    rewrite Hr. cbn [app]. f_equal. exact IH.
Qed.

End LoggerSetup.

(** ** The entry points *)

Section Entry.

Lemma In_logged a (l : list record) : In a (map Logged l) -> exists r, a = Logged r.
Proof. intros (r & <- & _)%in_map_iff. exists r. reflexivity. Qed.

End Entry.

(** Take a membership in a trace apart; what is left is the actions that
    can be the one looked for. *)
Ltac split_in H Hrest :=
  repeat match type of H with
  | In _ (_ ++ _) => apply in_app_or in H as [H | H]
  | In _ (_ :: _) => destruct H as [H | H]
  | In _ [] => destruct H
  | In _ (map Logged _) => apply In_logged in H as [? H]
  | In _ (match ?x with _ => _ end) => destruct x
  | In _ _ => apply Hrest in H as [? H]
  end;
  try discriminate H.

(** The same, leaving every case. *)
Ltac in_cases H :=
  repeat match type of H with
  | In _ (_ ++ _) => apply in_app_or in H as [H | H]
  | In _ (_ :: _) => destruct H as [H | H]
  | In _ [] => destruct H
  | In _ (map Logged _) => apply In_logged in H as [? H]
  | _ \/ _ => destruct H as [H | H]
  | False => destruct H
  end.

Section ValidatorHandler.
Import event_validator event_validator_handler.

Lemma non_empty_mapping event :
  py_truthy event = true /\ isinstance event Tdict = true
  <-> exists field fields, event = VDict (field :: fields).
Proof.
  split.
  - destruct event as [| | | | | [| field fields]]; cbn; intros [H1 H2]; try discriminate.
    exists field, fields. reflexivity.
  - intros (field & fields & ->). split; reflexivity.
Qed.

Lemma handler_checks event :
  (not_empty <<- call (validate_event_not_empty {| event := event |}) ;;
   if not_empty then call (validate_event_data_structure {| event := event |})
   else eret not_empty)
  = if py_truthy event then
      if isinstance event Tdict then
        ([Logged (INFO, EventNotEmpty); Logged (INFO, EventStructureOk)], Ret true)
      else
        ([Logged (INFO, EventNotEmpty);
          Logged (ERROR, EventWrongStructure (py_type_name event))], Ret false)
    else ([Logged (ERROR, EventEmpty)], Ret false).
Proof.
  unfold validate_event_not_empty, validate_event_data_structure.
  cbn [event_validator.event].
  destruct (py_truthy event), (isinstance event Tdict); reflexivity.
Qed.

(** The actions of [send_event_to_queue]. *)
Lemma send_event_to_queue_trace w event queue_name :
  exists rest,
    trace (send_event_to_queue w event queue_name)
    = GetQueueUrl queue_name
        :: match get_queue_url (sqs w) queue_name with
           | Ret response =>
               match py_getitem response "QueueUrl" with
               | Ret url => SendMessage url event :: rest
               | Raise _ => []
               end
           | Raise _ => []
           end
    /\ (forall a, In a rest -> exists text, a = Printed text)
    /\ (ending (send_event_to_queue w event queue_name) = Ret tt ->
        exists response url,
          get_queue_url (sqs w) queue_name = Ret response
          /\ py_getitem response "QueueUrl" = Ret url).
Proof.
  unfold send_event_to_queue.
  cbn [act ebind trace ending fst snd app].
  destruct (get_queue_url (sqs w) queue_name) as [response | e];
    cbn [answer ebind trace ending fst snd app];
    [| exists []; split; [reflexivity | split; [intros a [] | discriminate]]].
  destruct (py_getitem response "QueueUrl") as [url | e] eqn:Eu;
    cbn [answer act ebind trace ending fst snd app];
    [| exists []; split; [reflexivity | split; [intros a [] | discriminate]]].
  destruct (send_message (sqs w) url event) as [response' | e];
    cbn [answer act ebind trace ending fst snd app];
    [| exists []; split; [reflexivity | split; [intros a [] | discriminate]]].
  destruct (py_getitem response' "ResponseMetadata") as [metadata | e];
    cbn [answer act ebind trace ending fst snd app];
    [| exists []; split; [reflexivity | split; [intros a [] | discriminate]]].
  destruct (py_getitem metadata "HTTPStatusCode") as [code | e];
    cbn [answer act ebind trace ending fst snd app];
    [| exists []; split; [reflexivity | split; [intros a [] | discriminate]]].
  eexists [_]. split; [reflexivity | split].
  - intros a [<- | []]. eexists. reflexivity.
  - intros _. exists response, url. split; [reflexivity | exact Eu].
Qed.

Lemma handler_cases w event :
  (accepted w event
   /\ exists l,
        trace (handler w event)
        = Printed "Logger criado com sucesso!"
          :: map Logged l
          ++ trace (send_event_to_queue w event "valid-events-queue")
          ++ match ending (send_event_to_queue w event "valid-events-queue") with
             | Ret _ => [LoggedEventSent]
             | Raise _ => []
             end)
  \/ (~ accepted w event
      /\ forall a, In a (trace (handler w event)) ->
           a = Printed "Logger criado com sucesso!"
           \/ a = LoggedFileNotFound \/ a = LoggedInvalidJSON \/ exists r, a = Logged r).
Proof.
  unfold handler, create_logger. cbn [act ebind trace ending fst snd app].
  rewrite handler_checks.
  destruct (py_truthy event) eqn:Et; [destruct (isinstance event Tdict) eqn:Ed |].
  - assert (exists field fields, event = VDict (field :: fields)) as Hshape
      by (apply non_empty_mapping; auto).
    cbn [ebind trace ending fst snd].
    destruct (file w) as [| | e | schema] eqn:Ef;
      cbn [read_schema act eret answer ebind trace ending fst snd app py_truthy].
    + right. split; [intros [_ (s & Hs & _)]; congruence |].
      cbn. intros a Hin. in_cases Hin; subst; eauto 6.
    + right. split; [intros [_ (s & Hs & _)]; congruence |].
      cbn. intros a Hin. in_cases Hin; subst; eauto 6.
    + right. split; [intros [_ (s & Hs & _)]; congruence |].
      cbn. intros a Hin. in_cases Hin; subst; eauto 6.
    + destruct (py_truthy schema) eqn:Es; cbn [eret trace fst app].
      * destruct (validate_event_content {| event := event |} schema VNone)
          as [l [[|] | e]] eqn:Ev;
          cbn [call logs result fst snd ebind trace ending app eret].
        -- left. split.
           ++ split; [exact Hshape |]. exists schema. rewrite Ev. auto.
           ++ exists ((INFO, EventNotEmpty) :: (INFO, EventStructureOk) :: l).
              cbn [map app]. do 3 f_equal. f_equal.
              destruct (send_event_to_queue w event "valid-events-queue") as [t [[] | e]];
                cbn; rewrite ?app_nil_r; reflexivity.
        -- right. split.
           ++ intros [_ (s & Hs & _ & Hv)].
              assert (s = schema) as -> by congruence. rewrite Ev in Hv. discriminate.
           ++ rewrite app_nil_r. intros a Hin. in_cases Hin; subst; eauto 6.
        -- right. split.
           ++ intros [_ (s & Hs & _ & Hv)].
              assert (s = schema) as -> by congruence. rewrite Ev in Hv. discriminate.
           ++ intros a Hin. in_cases Hin; subst; eauto 6.
      * right. split.
        -- intros [_ (s & Hf & Hs & _)].
           assert (s = schema) as -> by congruence. congruence.
        -- intros a Hin. in_cases Hin; subst; eauto 6.
  - right. split.
    + intros [Hshape _]. apply non_empty_mapping in Hshape as [_ H]. congruence.
    + cbn. intros a Hin. in_cases Hin; subst; eauto 6.
  - right. split.
    + intros [Hshape _]. apply non_empty_mapping in Hshape as [H _]. congruence.
    + cbn. intros a Hin. in_cases Hin; subst; eauto 6.
Qed.

(** X18. [handler(event)] of the validator sends a message exactly when
    the event passes: the body sent is the event itself, the event is a
    mapping that is not empty, the schema file holds a truthy schema,
    [validate_event_content] returned true, and SQS gave the URL of the
    queue. The only queue it asks for is [valid-events-queue], and it logs
    the success only after a message was sent. *)
Theorem handler_sends_accepted_events
    (w : world) (event : pyval) (url body : pyval) :
  (In (SendMessage url body) (trace (handler w event))
   <-> body = event /\ accepted w event
       /\ exists response,
            get_queue_url (sqs w) "valid-events-queue" = Ret response
            /\ py_getitem response "QueueUrl" = Ret url)
  /\ (forall name, In (GetQueueUrl name) (trace (handler w event)) ->
      name = "valid-events-queue" /\ accepted w event)
  /\ (In LoggedEventSent (trace (handler w event)) ->
      exists url, In (SendMessage url event) (trace (handler w event))).
Proof.
  destruct (send_event_to_queue_trace w event "valid-events-queue")
    as (rest & Hsend & Hrest & Hend).
  destruct (handler_cases w event) as [[Ha [l ->]] | [Hn Hquiet]].
  - rewrite Hsend. clear Hsend.
    destruct (get_queue_url (sqs w) "valid-events-queue") as [response | e].
    + destruct (py_getitem response "QueueUrl") as [queue_url | e] eqn:Eu.
      * split; [split | split].
        -- intros Hin. split_in Hin Hrest.
           injection Hin as <- <-.
           split; [reflexivity |]. split; [exact Ha |]. exists response. auto.
        -- intros (-> & _ & r & [= <-] & Hr). rewrite Eu in Hr. injection Hr as <-.
           right. apply in_or_app. right. right. left. reflexivity.
        -- intros name Hin. split_in Hin Hrest. injection Hin as <-. auto.
        -- intros _. exists queue_url.
           right. apply in_or_app. right. right. left. reflexivity.
      * assert (ending (send_event_to_queue w event "valid-events-queue") <> Ret tt)
          as Hne by (intros (r & u & [= <-] & Hu)%Hend; congruence).
        split; [split | split].
        -- intros Hin. split_in Hin Hrest.
        -- intros (_ & _ & r & [= <-] & Hr). congruence.
        -- intros name Hin. split_in Hin Hrest. injection Hin as <-. auto.
        -- intros Hin. exfalso.
           destruct (ending (send_event_to_queue w event "valid-events-queue")) as [[] |];
             [congruence |].
           split_in Hin Hrest.
    + assert (ending (send_event_to_queue w event "valid-events-queue") <> Ret tt)
        as Hne by (intros (r & u & [=] & _)%Hend).
      split; [split | split].
      * intros Hin. split_in Hin Hrest.
      * intros (_ & _ & r & [=] & _).
      * intros name Hin. split_in Hin Hrest. injection Hin as <-. auto.
      * intros Hin. exfalso.
        destruct (ending (send_event_to_queue w event "valid-events-queue")) as [[] |];
          [congruence |].
        split_in Hin Hrest.
  - split; [split | split].
    + intros [[=] | [[=] | [[=] | [r [=]]]]]%Hquiet.
    + intros (_ & Ha & _). contradiction.
    + intros name [[=] | [[=] | [[=] | [r [=]]]]]%Hquiet.
    + intros [[=] | [[=] | [[=] | [r [=]]]]]%Hquiet.
Qed.

End ValidatorHandler.

Section ValidatorHandlerFields.
Import event_validator event_validator_handler.

(** X19. Every message [handler(event)] sends is a mapping whose keys are
    exactly the [required] names of the schema in the file. *)
Theorem handler_sends_only_required_fields
    (w : world) (event : pyval) (url body : pyval) :
  In (SendMessage url body) (trace (handler w event)) ->
  exists schema required R items,
    file w = FileHolds schema
    /\ py_getitem schema "required" = Ret required
    /\ py_set required = Ret R
    /\ body = VDict items
    /\ R = field_set items.
Proof.
  intros Hin.
  destruct (send_event_to_queue_trace w event "valid-events-queue")
    as (rest & Hsend & Hrest & _).
  destruct (handler_cases w event) as [[Ha [l Ht]] | [Hn Hquiet]].
  - assert (body = event) as ->.
    { rewrite Ht, Hsend in Hin. split_in Hin Hrest. congruence. }
    destruct Ha as [_ (schema & Hf & _ & Hv)].
    rewrite validate_event_content_unfold in Hv.
    apply validate_event_content_body_accepts, compare_event_fields_accepts in Hv.
    destruct Hv as (required & R & items & Hr & HR & He & Heq).
    exists schema, required, R, items. cbn in He. auto.
  - apply Hquiet in Hin as [[=] | [[=] | [[=] | [r [=]]]]].
Qed.

End ValidatorHandlerFields.

Section WithoutSchema.

(** X20. [read_schema] catches a missing file and a file that is no JSON:
    it logs one error for either and returns [None]. A falsy value of the
    file ([{}], [null], ...) it returns as it is. In these three cases
    neither handler asks anything of AWS, and both return; the falsy
    schema is dropped without any record of it. Any other exception of
    [open] or [json.load] (a file that is no UTF-8 text, a folder of that
    name, a file that may not be read) passes both [except] clauses: the
    handler that reads the file ends with that exception, having logged
    nothing about the file and asked nothing of AWS. The validator reads
    the file only for an event that is a mapping and is not empty. *)
Theorem handlers_do_nothing_without_a_schema
    (wv : event_validator_handler.world) (wh : json_schema_to_hive_handler.world)
    (found : schema_file) (event : pyval) :
  event_validator_handler.file wv = found ->
  json_schema_to_hive_handler.file wh = found ->
  (forall schema, found = FileHolds schema -> py_truthy schema = false) ->
  let noted :=
    match found with
    | FileNotFound => [LoggedFileNotFound]
    | InvalidJSON => [LoggedInvalidJSON]
    | Unreadable _ | FileHolds _ => []
    end in
  let ended : outcome unit :=
    match found with
    | Unreadable e => Raise e
    | _ => Ret tt
    end in
  json_schema_to_hive_handler.handler wh
  = (Printed "Logger criado com sucesso!" :: noted, ended)
  /\ ending (event_validator_handler.handler wv event)
     = (if py_truthy event && isinstance event Tdict then ended else Ret tt)
  /\ (forall a, In a (trace (event_validator_handler.handler wv event)) ->
      a = Printed "Logger criado com sucesso!"
      \/ a = LoggedFileNotFound \/ a = LoggedInvalidJSON \/ exists r, a = Logged r)
  /\ ((exists field fields, event = VDict (field :: fields)) ->
      trace (event_validator_handler.handler wv event)
      = Printed "Logger criado com sucesso!"
        :: Logged (INFO, EventNotEmpty) :: Logged (INFO, EventStructureOk) :: noted).
Proof.
  intros Hv Hh Hfalsy noted ended.
  assert (exists schema,
            read_schema found = (noted, match found with
                                        | Unreadable e => Raise e
                                        | _ => Ret schema
                                        end)
            /\ py_truthy schema = false) as (schema & Hread & Hf).
  { subst noted. destruct found as [| | e | v].
    - exists VNone. split; reflexivity.
    - exists VNone. split; reflexivity.
    - exists VNone. split; reflexivity.
    - exists v. split; [reflexivity | apply Hfalsy; reflexivity]. }
  split; [| split; [| split]].
  - unfold json_schema_to_hive_handler.handler, create_logger. rewrite Hh, Hread.
    subst ended. destruct found; cbn [act ebind trace ending fst snd];
      rewrite ?Hf; cbn; rewrite ?app_nil_r; reflexivity.
  - unfold event_validator_handler.handler, create_logger.
    cbn [act ebind trace ending fst snd app]. rewrite handler_checks.
    destruct (py_truthy event); [destruct (isinstance event Tdict) |]; try reflexivity.
    cbn [ebind trace ending fst snd andb]. rewrite Hv, Hread.
    subst ended. destruct found; cbn [ebind trace ending fst snd];
      rewrite ?Hf; reflexivity.
  - destruct (handler_cases wv event) as [[Ha _] | [_ Hquiet]]; [| exact Hquiet].
    destruct Ha as [_ (s & Hs & Ht & _)]. rewrite Hv in Hs.
    rewrite (Hfalsy s Hs) in Ht. discriminate.
  - intros (field & fields & ->).
    unfold event_validator_handler.handler, create_logger.
    cbn [act ebind trace ending fst snd app]. rewrite handler_checks.
    cbn [py_truthy isinstance ebind trace ending fst snd]. rewrite Hv, Hread.
    destruct found; cbn [ebind trace ending fst snd];
      rewrite ?Hf; cbn; rewrite ?app_nil_r; reflexivity.
Qed.

End WithoutSchema.

Section HiveHandler.
Import json_schema_to_hive json_schema_to_hive_handler.

Lemma call_on_returns {A} (h h' : store) (m : SM A) l a :
  m h = (h', (l, Ret a)) -> call_on h m = (map Logged l, Ret (h', a)).
Proof. intros H. unfold call_on. rewrite H. cbn. rewrite app_nil_r. reflexivity. Qed.

Lemma ebind_returns {A B} (m : Entry A) (f : A -> Entry B) l a :
  m = (l, Ret a) -> ebind m f = (l ++ trace (f a), ending (f a)).
Proof. intros ->. reflexivity. Qed.

Lemma handler_create_table q cs description :
  parse_columns (col_dict_of cs) = Some cs ->
  result (create_table q (col_dict_of cs) description (col_dict_of cs)
            (VList [VStr "age"]) (VInt 32)
            (VStr "org.apache.hadoop.hive.ql.io.parquet.serde.ParquetHiveSerDe")
            (VStr "PARQUET")
            (VDict [("parquet.compress", VStr "SNAPPY");
                    ("serialization.format", VStr "1")])
            (VStr "s3://iti-query-results/")
            (VDict [("has_encrypted_data", VBool true)]))
  = Ret (fold_left String.append
           [ clause_text (py_truthy (col_dict_of cs)) ("(" +:+ columns_text "" cs +:+ ")");
             clause_text (py_truthy description)
               ("COMMENT '" +:+ py_str description +:+ "'");
             clause_text (py_truthy (col_dict_of cs))
               ("PARTITIONED BY (" +:+ columns_text "" cs +:+ ")");
             nl +:+ "CLUSTERED BY (age) INTO 32 BUCKETS";
             nl +:+ "ROW FORMAT 'org.apache.hadoop.hive.ql.io.parquet.serde.ParquetHiveSerDe'";
             nl +:+ "STORED AS PARQUET";
             nl +:+ "WITH SERDEPROPERTIES ('parquet.compress' = 'SNAPPY','serialization.format' = '1')";
             nl +:+ "LOCATION 's3://iti-query-results/'";
             nl +:+ "TBLPROPERTIES ('has_encrypted_data' = 'True')" ]
           (table_head q)).
Proof.
  intros Hp. rewrite create_table_assemble.
  apply result_assemble, sequence_results. unfold clauses.
  assert (result (format_table_columns q (col_dict_of cs) "") = Ret (columns_text "" cs))
    as Hcols.
  { unfold format_table_columns.
    rewrite (format_table_columns_fuel_closed_form _ q _ "" cs); [reflexivity | lia | exact Hp]. }
  repeat first
    [ apply List.Forall2_nil
    | apply List.Forall2_cons
    | apply result_noted_clause
    | apply (result_rendered_clause _ _ _ (fun x => "(" +:+ x +:+ ")")); intros _; exact Hcols
    | apply (result_rendered_clause _ _ _ (fun x => "PARTITIONED BY (" +:+ x +:+ ")"));
      intros _; exact Hcols
    | reflexivity ].
Qed.

(** X21. The statement [handler()] of the generator builds for a schema
    that declares the columns [cs]. PARTITION_PARAMS is the empty list, so
    the second [get_col_data] call is not filtered, and the PARTITIONED BY
    clause lists every column, as the column list does. The handler
    prints the statement; with the module's [_ATHENA_CLIENT] left at
    [None] it then raises [AttributeError] and starts no query; with a
    client it starts the query with the output location of the file. *)
Theorem handler_builds_statement
    (w : world) (v : pyval) (cs : list column) (description : pyval) :
  file w = FileHolds v -> unique_keys v = true ->
  schema_columns v = Some cs ->
  py_getitem v "description" = Ret description ->
  let query := handler_statement cs description in
  exists records,
    trace (handler w)
    = Printed "Logger criado com sucesso!"
      :: map Logged records
      ++ Printed ("Query: " +:+ query)
         :: match _ATHENA_CLIENT w with
            | None => []
            | Some _ => [StartQueryExecution query "s3://iti-query-results/"]
            end
    /\ ending (handler w)
       = match _ATHENA_CLIENT w with
         | None => Raise AttributeError
         | Some client =>
             match start_query_execution client query "s3://iti-query-results/" with
             | Ret _ => Ret tt
             | Raise e => Raise e
             end
         end.
Proof.
  intros Hf Hu Hcs Hd query.
  set (S := {| ref_loc := 0; ref_path := [] |}).
  set (self := {| schema := S |}).
  set (h := ({[ 0 := v ]} : store)).
  assert (deref h S = Some v) as HS
    by (unfold deref, h; cbn; rewrite lookup_singleton_eq; reflexivity).
  assert (get_col_data self None None h = (h, (col_data_log cs, Ret (col_dict_of cs)))) as Hcol.
  { rewrite (get_col_data_own_schema self None h v HS).
    apply (get_col_data_closed_form_at (Datatypes.S (depth v)) self h v S cs); auto. }
  assert (get_tb_comment self h = (h, ([(INFO, TableComment)], Ret description))) as Hcomment.
  { unfold get_tb_comment.
    erewrite sbind_returns by reflexivity. cbn [fst snd logs result slift log].
    erewrite sbind_returns by (apply load_returns; exact HS).
    cbn [fst snd logs result slift lift app]. rewrite Hd. reflexivity. }
  assert (parse_columns (col_dict_of cs) = Some cs) as Hp
    by (apply (parse_col_dict_of (Datatypes.S (depth v)) v); auto).
  pose proof (handler_create_table {| tb_name := "tb_user"; db_name := "db_people" |}
                cs description Hp) as Hq.
  change (fold_left _ _ _) with query in Hq.
  destruct (create_table _ _ _ _ _ _ _ _ _ _ _) as [L o] eqn:Ect in Hq.
  cbn [result snd] in Hq. subst o.
  assert (handler w
          = (Printed "Logger criado com sucesso!"
               :: map Logged (col_data_log cs ++ (INFO, TableComment) :: col_data_log cs ++ L)
               ++ trace (create_hive_table_with_athena w query),
             ending (create_hive_table_with_athena w query))) as ->.
  { unfold handler, create_logger, act. cbn [snd].
    rewrite (ebind_returns _ _ _ _ eq_refl).
    rewrite Hf. unfold read_schema, eret.
    rewrite (ebind_returns _ _ _ _ eq_refl).
    rewrite (schema_columns_truthy _ _ Hcs).
    fold S. fold self. fold h.
    rewrite (ebind_returns _ _ _ _ (call_on_returns _ _ _ _ _ Hcol)).
    rewrite (ebind_returns _ _ _ _ (call_on_returns _ _ _ _ _ Hcomment)).
    change (get_col_data self None (Some [])) with (get_col_data self None None).
    rewrite (ebind_returns _ _ _ _ (call_on_returns _ _ _ _ _ Hcol)).
    rewrite Ect. unfold call. cbn [logs result fst snd].
    rewrite (ebind_returns _ _ _ _ eq_refl).
    cbn [trace ending fst snd app].
    rewrite !map_app. cbn [map]. rewrite !map_app, <- !app_assoc. cbn [app].
    rewrite <- !app_assoc. reflexivity. }
  exists (col_data_log cs ++ (INFO, TableComment) :: col_data_log cs ++ L).
  unfold create_hive_table_with_athena.
  destruct (_ATHENA_CLIENT w) as [client |].
  - cbn [act ebind trace ending fst snd app answer eret].
    destruct (start_query_execution client query "s3://iti-query-results/");
      cbn [act ebind trace ending fst snd app answer eret];
      rewrite ?app_nil_r; split; reflexivity.
  - cbn [act ebind trace ending fst snd app answer eret].
    rewrite ?app_nil_r; split; reflexivity.
Qed.

End HiveHandler.

(** ** The statements above at the values of the tests *)

Lemma compare_event_fields_answers_witness :
  answers (event_validator.compare_event_fields
             {| event_validator.event := fixtures.event_ok |} fixtures.get_schema VNone).
Proof.
  apply (compare_event_fields_answers
           {| event_validator.event := fixtures.event_ok |} fixtures.root_items VNone
           [("eid", VStr "3e628a05-7a4a-4bf3-8770-084c11601a12");
            ("documentNumber", VStr "42323235600");
            ("name", VStr "Joseph");
            ("age", VInt 32);
            ("address", entry_fixtures.address)]).
  - reflexivity.
  - right. exists ["eid"; "documentNumber"; "name"; "age"; "address"]. reflexivity.
Defined.

Lemma compare_event_fields_reads_sets_witness :
  event_validator.compare_event_fields {| event_validator.event := VNone |}
    (VDict [("required", VList [VStr "a"; VStr "b"])])
    (VDict [("a", VInt 1); ("b", VInt 2)])
  = event_validator.compare_event_fields {| event_validator.event := VNone |}
      (VDict [("required", VList [VStr "b"; VStr "a"; VStr "b"])])
      (VDict [("b", VNone); ("a", VNone)]).
Proof.
  apply (compare_event_fields_reads_sets {| event_validator.event := VNone |}
           _ _ _ _ ["a"; "b"] ["b"; "a"; "b"]
           [("a", VInt 1); ("b", VInt 2)] [("b", VNone); ("a", VNone)]);
    try reflexivity.
  - intros name. simpl. tauto.
  - intros key. simpl. tauto.
Defined.

Lemma validate_event_content_accepts_required_fields_witness :
  exists required R items,
    py_getitem fixtures.get_schema "required" = Ret required
    /\ py_set required = Ret R
    /\ event_validator.event_or_own
         {| event_validator.event := fixtures.event_ok |} VNone = VDict items
    /\ R = field_set items.
Proof.
  apply (validate_event_content_accepts_required_fields
           {| event_validator.event := fixtures.event_ok |} fixtures.get_schema VNone).
  vm_compute. reflexivity.
Defined.

Lemma validate_event_content_flat_witness :
  event_validator.validate_event_content
    {| event_validator.event := entry_fixtures.address |} fixtures.address_schema VNone
  = ([(INFO, FieldsRegistered); (INFO, ContentValidated)], Ret true).
Proof.
  apply (validate_event_content_flat
           {| event_validator.event := entry_fixtures.address |}
           fixtures.address_schema VNone
           [("street", VStr "St. Blue"); ("number", VInt 3); ("mailAddress", VBool true)]
           eq_refl eq_refl).
  vm_compute. reflexivity.
Defined.

Lemma validate_event_content_first_failure_witness :
  event_validator.validate_event_content
    {| event_validator.event := VNone |} fixtures.get_schema
    (VDict ([("eid", VStr "3e628a05-7a4a-4bf3-8770-084c11601a12");
             ("documentNumber", VStr "42323235600");
             ("name", VStr "Joseph")]
            ++ ("age", VStr "32") :: [("address", entry_fixtures.address)]))
  = ([(INFO, FieldsRegistered);
      (ERROR, FieldTypeDiverges "age" (VStr "integer") "str")], Ret false).
Proof.
  refine (proj1 (proj2 (validate_event_content_first_failure
                          {| event_validator.event := VNone |} fixtures.get_schema
                          _ "age" (VStr "32") _
                          (fixtures.leaf "age" "age" "integer" (VInt 32))
                          (VStr "integer") _ _ _ _))
                "integer" Tint eq_refl eq_refl eq_refl);
    vm_compute; reflexivity.
Defined.

Lemma format_table_columns_renders_witness :
  json_schema_to_hive.format_table_columns hive_fixtures.create_query
    hive_fixtures.col_params ""
  = ([], Ret hive_fixtures.expected_columns).
Proof.
  rewrite (format_table_columns_renders hive_fixtures.create_query
             hive_fixtures.col_params "" entry_fixtures.declared eq_refl).
  vm_compute. reflexivity.
Defined.

Lemma get_col_data_filter_missing_column_witness :
  json_schema_to_hive.get_col_data filter_example.self (Some filter_example.S)
    (Some ["age"; "salary"; "eid"]) filter_example.h
  = (filter_example.h, ([(INFO, ColDataStart)], Raise (KeyError (VStr "salary")))).
Proof.
  apply (get_col_data_filter_missing_column filter_example.self filter_example.h
           filter_example.S fixtures.root_items fixtures.root_properties
           ["age"] "salary" ["eid"]); try reflexivity.
  - discriminate.
  - intros name [<- | []]. discriminate.
Defined.

Lemma get_col_data_filter_persists_witness :
  result (snd (json_schema_to_hive.get_col_data filter_example.self
                 (Some filter_example.S) None filter_example.after))
  = Ret (VDict [("age", hive_fixtures.column "integer")]).
Proof.
  unfold filter_example.after.
  rewrite (proj1 (proj2 (get_col_data_filter_persists
                           filter_example.self filter_example.h filter_example.S
                           fixtures.root_items fixtures.root_properties
                           [("age", fixtures.leaf "age" "age" "integer" (VInt 32))]
                           ["age"] eq_refl ltac:(discriminate) eq_refl
                           ltac:(discriminate) eq_refl))).
  vm_compute. reflexivity.
Defined.

Lemma get_col_data_collects_declared_columns_witness :
  json_schema_to_hive.get_col_data filter_example.self None None filter_example.h
  = (filter_example.h,
     (col_data_log entry_fixtures.declared, Ret hive_fixtures.col_params)).
Proof.
  exact (proj2 (get_col_data_collects_declared_columns
                  filter_example.self filter_example.h filter_example.S
                  fixtures.get_schema entry_fixtures.declared eq_refl eq_refl eq_refl)
               eq_refl).
Defined.

Lemma get_col_data_returns_filtered_columns_witness :
  result (snd (json_schema_to_hive.get_col_data filter_example.self
                 (Some filter_example.S) (Some ["age"; "eid"]) filter_example.h))
  = Ret (VDict [("age", hive_fixtures.column "integer");
                ("eid", hive_fixtures.column "string")]).
Proof.
  assert (NoDup ["age"; "eid"]) as Hnd.
  { apply NoDup_cons_2; [| apply NoDup_cons_2; [apply not_elem_of_nil | apply NoDup_nil_2]].
    intros H%list_elem_of_singleton. discriminate H. }
  rewrite (proj1 (get_col_data_returns_filtered_columns
                    filter_example.self filter_example.h filter_example.S
                    fixtures.root_items fixtures.root_properties
                    [("age", fixtures.leaf "age" "age" "integer" (VInt 32));
                     ("eid", fixtures.leaf "eid" "eid" "string"
                               (VStr "3e628a05-7a4a-4bf3-8770-084c11601a12"))]
                    ["age"; "eid"]
                    [Scalar "age" "integer" (VStr hive_fixtures.purpose);
                     Scalar "eid" "string" (VStr hive_fixtures.purpose)]
                    eq_refl ltac:(discriminate) eq_refl ltac:(discriminate) Hnd
                    eq_refl eq_refl eq_refl)).
  reflexivity.
Defined.

Lemma collected_columns_render_witness :
  exists col_params,
    result (snd (json_schema_to_hive.get_col_data filter_example.self
                   (Some filter_example.S) None filter_example.h)) = Ret col_params
    /\ parse_columns col_params = Some entry_fixtures.declared
    /\ json_schema_to_hive.format_table_columns hive_fixtures.create_query col_params ""
       = (flat_map type_errors entry_fixtures.declared,
          Ret (columns_text "" entry_fixtures.declared)).
Proof.
  exact (collected_columns_render filter_example.self hive_fixtures.create_query
           filter_example.h filter_example.S fixtures.get_schema
           entry_fixtures.declared "" eq_refl eq_refl eq_refl).
Defined.

Lemma handler_sends_only_required_fields_witness :
  exists schema required R items,
    event_validator_handler.file entry_fixtures.validator_world = FileHolds schema
    /\ py_getitem schema "required" = Ret required
    /\ py_set required = Ret R
    /\ fixtures.event_ok = VDict items
    /\ R = field_set items.
Proof.
  apply (handler_sends_only_required_fields entry_fixtures.validator_world
           fixtures.event_ok (VStr "https://sqs/valid-events-queue") fixtures.event_ok).
  vm_compute. repeat (first [left; reflexivity | right]).
Defined.

Lemma handlers_do_nothing_without_a_schema_witness :
  (json_schema_to_hive_handler.handler entry_fixtures.hive_world_without_file
   = ([Printed "Logger criado com sucesso!"; LoggedFileNotFound], Ret tt)
   /\ trace (event_validator_handler.handler entry_fixtures.validator_world_without_file
               fixtures.event_ok)
      = [Printed "Logger criado com sucesso!"; Logged (INFO, EventNotEmpty);
         Logged (INFO, EventStructureOk); LoggedFileNotFound])
  /\ json_schema_to_hive_handler.handler entry_fixtures.hive_world_unreadable
     = ([Printed "Logger criado com sucesso!"], Raise UnicodeDecodeError)
  /\ ending (event_validator_handler.handler entry_fixtures.validator_world_unreadable
               fixtures.event_ok)
     = Raise UnicodeDecodeError.
Proof.
  destruct (handlers_do_nothing_without_a_schema
              entry_fixtures.validator_world_without_file
              entry_fixtures.hive_world_without_file FileNotFound fixtures.event_ok
              eq_refl eq_refl ltac:(discriminate)) as (Hh & _ & _ & Hv).
  destruct (handlers_do_nothing_without_a_schema
              entry_fixtures.validator_world_unreadable
              entry_fixtures.hive_world_unreadable (Unreadable UnicodeDecodeError)
              fixtures.event_ok
              eq_refl eq_refl ltac:(discriminate)) as (Hh' & Hv' & _ & _).
  split; [split; [exact Hh | apply Hv; eexists _, _; reflexivity] |].
  split; [exact Hh' | exact Hv'].
Defined.

Lemma handler_builds_statement_witness :
  ending (json_schema_to_hive_handler.handler entry_fixtures.hive_world)
  = Raise AttributeError
  /\ In (Printed ("Query: " +:+ handler_statement entry_fixtures.declared
                                  (VStr "The root schema comprises the entire JSON document.")))
        (trace (json_schema_to_hive_handler.handler entry_fixtures.hive_world)).
Proof.
  destruct (handler_builds_statement entry_fixtures.hive_world fixtures.get_schema
              entry_fixtures.declared
              (VStr "The root schema comprises the entire JSON document.")
              eq_refl eq_refl eq_refl eq_refl) as (records & Ht & He).
  split; [exact He |].
  rewrite Ht. right. apply in_or_app. right. left. reflexivity.
Defined.

Lemma validate_event_content_takes_booleans_for_integers_witness :
  result (event_validator.validate_event_content
            {| event_validator.event := VNone |} fixtures.address_schema
            (VDict ([("street", VStr "St. Blue")]
                    ++ ("number", VBool true) :: [("mailAddress", VBool true)])))
  = Ret true.
Proof.
  apply (validate_event_content_takes_booleans_for_integers
           {| event_validator.event := VNone |} fixtures.address_schema
           [("street", VStr "St. Blue")] "number" 3 true [("mailAddress", VBool true)]);
    vm_compute; reflexivity.
Defined.

Lemma create_table_returns_on_well_formed_input_witness :
  hive_fixtures.same_query hive_fixtures.expected_full
    (json_schema_to_hive.create_table hive_fixtures.create_query
       hive_fixtures.col_params
       (VStr "The root schema comprises the entire JSON document.")
       hive_fixtures.partition_params (VList [VStr "age"]) (VInt 32)
       (VStr hive_fixtures.row_format) (VStr "PARQUET")
       hive_fixtures.serde_properties (VStr "s3://iti-query-results/")
       hive_fixtures.tbl_properties).
Proof.
  unfold hive_fixtures.same_query.
  rewrite (create_table_returns_on_well_formed_input hive_fixtures.create_query
             hive_fixtures.col_params
             (VStr "The root schema comprises the entire JSON document.")
             hive_fixtures.partition_params (VList [VStr "age"]) (VInt 32)
             (VStr hive_fixtures.row_format) (VStr "PARQUET")
             hive_fixtures.serde_properties (VStr "s3://iti-query-results/")
             hive_fixtures.tbl_properties
             entry_fixtures.declared
             [Scalar "age" "integer" (VStr hive_fixtures.purpose)]
             ["age"]
             [("parquet.compress", VStr "SNAPPY"); ("serialization.format", VStr "1")]
             [("has_encrypted_data", VBool true)]
             (fun _ => eq_refl) (fun _ => eq_refl) (fun _ => eq_refl)
             (fun _ => eq_refl) (fun _ => eq_refl)).
  vm_compute. reflexivity.
Defined.

Lemma get_col_data_falsy_schema_is_own_schema_witness :
  json_schema_to_hive.get_col_data filter_example.self
    (Some {| json_schema_to_hive.ref_loc := 1; json_schema_to_hive.ref_path := [] |})
    None (<[ 1 := VDict [] ]> filter_example.h)
  = json_schema_to_hive.get_col_data filter_example.self None None
      (<[ 1 := VDict [] ]> filter_example.h).
Proof.
  apply (get_col_data_falsy_schema_is_own_schema filter_example.self _ None _ (VDict []));
    reflexivity.
Defined.

Lemma create_logger_adds_a_handler_every_call_witness :
  written (fst (create_logger "20240131" 20
                  (fst (create_logger "20240131" 20 entry_fixtures.fresh))))
    (ERROR, EventEmpty)
  = [("logs/logger_20240131.log", (ERROR, EventEmpty));
     ("logs/logger_20240131.log", (ERROR, EventEmpty))].
Proof.
  exact (proj2 (proj2 (create_logger_adds_a_handler_every_call
                         "20240131" 1 entry_fixtures.fresh (ERROR, EventEmpty) eq_refl))).
Defined.

(** ** The repository's tests, run on the model *)

Section ValidatorTests.
Import event_validator fixtures.

Example test_validate_event_not_empty :
  result (validate_event_not_empty {| event := VDict [] |}) = Ret false.
Proof. reflexivity. Qed.

Example test_validate_event_data_structure :
  result (validate_event_data_structure {| event := VStr "24" |}) = Ret false.
Proof. reflexivity. Qed.

Example test_compare_event_fields_missing_required_fields :
  result (compare_event_fields {| event := event_without_address |} get_schema VNone)
  = Ret false.
Proof. vm_compute. reflexivity. Qed.

Example test_compare_event_fields_missing_required_nested_fields :
  let event :=
    VDict [("eid", VStr "3e628a05-7a4a-4bf3-8770-084c11601a12");
           ("documentNumber", VStr "42323235600");
           ("name", VStr "Joseph");
           ("age", VInt 32);
           ("address", VDict [("mailAddress", VBool true)])] in
  result (validate_event_content {| event := event |} get_schema VNone) = Ret false.
Proof. vm_compute. reflexivity. Qed.

Example test_compare_event_fields_unregistered_fields :
  let event :=
    VDict [("eid", VStr "3e628a05-7a4a-4bf3-8770-084c11601a12");
           ("documentType", VStr "CPF");
           ("documentNumber", VStr "42323235600");
           ("name", VStr "Joseph");
           ("age", VInt 32);
           ("address",
            VDict [("street", VStr "St. Blue"); ("number", VInt 3);
                   ("mailAddress", VBool true)])] in
  result (compare_event_fields {| event := event |} get_schema VNone) = Ret false.
Proof. vm_compute. reflexivity. Qed.

Example test_compare_event_fields_unregistered_nested_fields :
  let event :=
    VDict [("eid", VStr "3e628a05-7a4a-4bf3-8770-084c11601a12");
           ("documentNumber", VStr "42323235600");
           ("name", VStr "Joseph");
           ("age", VInt 32);
           ("address",
            VDict [("street", VStr "St. Blue"); ("number", VInt 3);
                   ("complement", VStr "Fundos"); ("mailAddress", VBool true)])] in
  result (validate_event_content {| event := event |} get_schema VNone) = Ret false.
Proof. vm_compute. reflexivity. Qed.

Example test_validate_event_content_field_type :
  let event :=
    VDict [("eid", VStr "3e628a05-7a4a-4bf3-8770-084c11601a12");
           ("documentNumber", VStr "42323235600");
           ("name", VStr "Joseph");
           ("age", VStr "32");
           ("address",
            VDict [("street", VStr "St. Blue"); ("number", VInt 3);
                   ("mailAddress", VBool true)])] in
  result (validate_event_content {| event := event |} get_schema VNone) = Ret false.
Proof. vm_compute. reflexivity. Qed.

Example test_validate_event_content_nested_field_type :
  let event :=
    VDict [("eid", VStr "3e628a05-7a4a-4bf3-8770-084c11601a12");
           ("documentNumber", VStr "42323235600");
           ("name", VStr "Joseph");
           ("age", VInt 32);
           ("address",
            VDict [("street", VStr "St. Blue"); ("number", VStr "3");
                   ("mailAddress", VBool true)])] in
  result (validate_event_content {| event := event |} get_schema VNone) = Ret false.
Proof. vm_compute. reflexivity. Qed.

Example test_validate_event_content_sucessful :
  result (validate_event_content {| event := event_ok |} get_schema VNone) = Ret true.
Proof. vm_compute. reflexivity. Qed.

End ValidatorTests.

Section QueryTests.
Import json_schema_to_hive hive_fixtures.

Example test_create_table_empty :
  result (create_table create_query VNone VNone VNone VNone VNone VNone VNone VNone
            VNone VNone)
  = Ret "CREATE EXTERNAL TABLE IF NOT EXISTS db_people.tb_user".
Proof. reflexivity. Qed.

Example test_create_table_with_cols :
  same_query
    "CREATE EXTERNAL TABLE IF NOT EXISTS db_people.tb_user
        (eid varchar COMMENT 'An explanation about the purpose of this instance.',
        documentNumber varchar COMMENT 'An explanation about the purpose of this instance.',
        name varchar COMMENT 'An explanation about the purpose of this instance.',
        age tinyint COMMENT 'An explanation about the purpose of this instance.',
        address struct <street: varchar COMMENT 'An explanation about the purpose of this instance.',
        number: tinyint COMMENT 'An explanation about the purpose of this instance.',
        mailAddress: boolean COMMENT 'An explanation about the purpose of this instance.'> COMMENT 'An explanation about the purpose of this instance.')"
    (create_table create_query col_params VNone VNone VNone VNone VNone VNone VNone
       VNone VNone).
Proof. vm_compute. reflexivity. Qed.

Example test_create_table_with_comments :
  same_query
    "CREATE EXTERNAL TABLE IF NOT EXISTS db_people.tb_user
        COMMENT 'The root schema comprises the entire JSON document.'"
    (create_table create_query VNone
       (VStr "The root schema comprises the entire JSON document.")
       VNone VNone VNone VNone VNone VNone VNone VNone).
Proof. vm_compute. reflexivity. Qed.

Example test_create_table_with_partition :
  same_query
    "CREATE EXTERNAL TABLE IF NOT EXISTS db_people.tb_user
        PARTITIONED BY (age tinyint COMMENT 'An explanation about the purpose of this instance.')"
    (create_table create_query VNone VNone partition_params VNone VNone VNone VNone
       VNone VNone VNone).
Proof. vm_compute. reflexivity. Qed.

Example test_create_table_with_clustering :
  same_query
    "CREATE EXTERNAL TABLE IF NOT EXISTS db_people.tb_user
        CLUSTERED BY (age) INTO 32 BUCKETS"
    (create_table create_query VNone VNone VNone (VList [VStr "age"]) (VInt 32) VNone
       VNone VNone VNone VNone).
Proof. vm_compute. reflexivity. Qed.

Example test_create_table_with_row_format :
  same_query
    "CREATE EXTERNAL TABLE IF NOT EXISTS db_people.tb_user
        ROW FORMAT 'org.apache.hadoop.hive.ql.io.parquet.serde.ParquetHiveSerDe'"
    (create_table create_query VNone VNone VNone VNone VNone (VStr row_format) VNone
       VNone VNone VNone).
Proof. vm_compute. reflexivity. Qed.

Example test_create_table_with_file_format :
  same_query
    "CREATE EXTERNAL TABLE IF NOT EXISTS db_people.tb_user
        STORED AS PARQUET"
    (create_table create_query VNone VNone VNone VNone VNone VNone (VStr "PARQUET")
       VNone VNone VNone).
Proof. vm_compute. reflexivity. Qed.

Example test_create_table_with_serde_properties :
  same_query
    "CREATE EXTERNAL TABLE IF NOT EXISTS db_people.tb_user
        WITH SERDEPROPERTIES ('parquet.compress' = 'SNAPPY','serialization.format' = '1')"
    (create_table create_query VNone VNone VNone VNone VNone VNone VNone
       serde_properties VNone VNone).
Proof. vm_compute. reflexivity. Qed.

Example test_create_table_with_location :
  same_query
    "CREATE EXTERNAL TABLE IF NOT EXISTS db_people.tb_user
        LOCATION 's3://iti-query-results/'"
    (create_table create_query VNone VNone VNone VNone VNone VNone VNone VNone
       (VStr "s3://iti-query-results/") VNone).
Proof. vm_compute. reflexivity. Qed.

Example test_create_table_with_tbl_properties :
  same_query
    "CREATE EXTERNAL TABLE IF NOT EXISTS db_people.tb_user
        TBLPROPERTIES ('has_encrypted_data' = 'True')"
    (create_table create_query VNone VNone VNone VNone VNone VNone VNone VNone VNone
       tbl_properties).
Proof. vm_compute. reflexivity. Qed.

Example test_create_table_full :
  same_query
    "CREATE EXTERNAL TABLE IF NOT EXISTS db_people.tb_user
        (eid varchar COMMENT 'An explanation about the purpose of this instance.',
        documentNumber varchar COMMENT 'An explanation about the purpose of this instance.',
        name varchar COMMENT 'An explanation about the purpose of this instance.',
        age tinyint COMMENT 'An explanation about the purpose of this instance.',
        address struct <street: varchar COMMENT 'An explanation about the purpose of this instance.',
        number: tinyint COMMENT 'An explanation about the purpose of this instance.',
        mailAddress: boolean COMMENT 'An explanation about the purpose of this instance.'> COMMENT 'An explanation about the purpose of this instance.')
        COMMENT 'The root schema comprises the entire JSON document.'
        PARTITIONED BY (age tinyint COMMENT 'An explanation about the purpose of this instance.')
        CLUSTERED BY (age) INTO 32 BUCKETS
        ROW FORMAT 'org.apache.hadoop.hive.ql.io.parquet.serde.ParquetHiveSerDe'
        STORED AS PARQUET
        WITH SERDEPROPERTIES ('parquet.compress' = 'SNAPPY','serialization.format' = '1')
        LOCATION 's3://iti-query-results/'
        TBLPROPERTIES ('has_encrypted_data' = 'True')"
    (create_table create_query col_params
       (VStr "The root schema comprises the entire JSON document.")
       partition_params (VList [VStr "age"]) (VInt 32) (VStr row_format) (VStr "PARQUET")
       serde_properties (VStr "s3://iti-query-results/") tbl_properties).
Proof. vm_compute. reflexivity. Qed.

(** The handler's run on the tests' schema: columns collected from the
    schema in the store, then the statement. *)
Example handler_columns :
  result (snd (get_col_data filter_example.self None None filter_example.h))
  = Ret col_params.
Proof. vm_compute. reflexivity. Qed.

(** The fixtures of the two test files fit: the schema of the first
    declares the columns of the second. *)
Example schema_declares_col_params :
  option_map col_dict_of (schema_columns fixtures.get_schema)
  = Some hive_fixtures.col_params
  /\ parse_columns hive_fixtures.col_params = Some entry_fixtures.declared
  /\ columns_text "" entry_fixtures.declared = hive_fixtures.expected_columns.
Proof. repeat split; vm_compute; reflexivity. Qed.

Example repr_of_nested_value :
  py_repr (VDict [("a", VList [VInt (-3); VBool true; VNone]); ("it's", VStr "x")])
  = "{'a': [-3, True, None], " +:+ String dquote ("it's" +:+ String dquote ": 'x'}").
Proof. vm_compute. reflexivity. Qed.

End QueryTests.
